(** * Browser monitor and composer delivery: a shallow embedding

    The two classes of the extension that carry state are embedded here:
    [ComposerIntegration] (clipboard delivery with retries) and
    [BrowserMonitor] (debugging session, log buffers, notifications),
    followed by the first revision of [ComposerIntegration] and the
    [CommandHandlers] that drive both.

    Asynchronous methods are run to completion in program order: every
    [await] is a sequencing point.  A run of the monitor's [disconnect]
    that the source starts without [await] is the exception: it runs up to
    its first await where it is issued and the rest is kept as a pending
    continuation, which the event loop resumes later.  Calls into the host
    (editor commands, clipboard, file system, debugging transport) are
    recorded in a trace and answered by a stub; a stub answer depends on
    the call and on how many times that same call was made before. *)

From Stdlib Require Import String Ascii List ZArith Lia Bool.
From stdpp Require Import base tactics decidable option list strings gmap pretty.

Open Scope string_scope.
Open Scope list_scope.

(** ** Thrown values and results *)

(** A thrown value is an [Error] object; [String(err)] prints its name and
    message. *)
Record JsError := { message : string }.

Definition String_of_error (e : JsError) : string := "Error: " +:+ message e.

#[global] Instance JsError_eq_dec : EqDecision JsError.
Proof. solve_decision. Defined.

Inductive Result (A : Type) : Type :=
| Ok (a : A)
| Throw (e : JsError).
Arguments Ok {A} a.
Arguments Throw {A} e.

(** ** A state and exception monad for method bodies *)

Section Effects.
Context {S : Type}.

Definition M (A : Type) : Type := S -> Result A * S.

Definition ret {A} (a : A) : M A := fun s => (Ok a, s).

Definition throw {A} (e : JsError) : M A := fun s => (Throw e, s).

Definition bind {A B} (m : M A) (k : A -> M B) : M B :=
  fun s => match m s with
           | (Ok a, s1) => k a s1
           | (Throw e, s1) => (Throw e, s1)
           end.

(** [try { m } catch (e) { h e }] *)
Definition try_catch {A} (m : M A) (h : JsError -> M A) : M A :=
  fun s => match m s with
           | (Ok a, s1) => (Ok a, s1)
           | (Throw e, s1) => h e s1
           end.

(** [try { m } finally { f }]: [f] runs on every exit of [m]; an exception
    of [f] replaces the outcome of [m]. *)
Definition try_finally {A} (m : M A) (f : M unit) : M A :=
  fun s => match m s with
           | (r, s1) => match f s1 with
                        | (Ok _, s2) => (r, s2)
                        | (Throw e, s2) => (Throw e, s2)
                        end
           end.

Definition modify (f : S -> S) : M unit := fun s => (Ok tt, f s).

Definition gets {A} (f : S -> A) : M A := fun s => (Ok (f s), s).
End Effects.

Notation "'let*' x ':=' c 'in' k" := (bind c (fun x => k))
  (at level 10, x name, c at level 100, k at level 200).
Notation "c ';;' k" := (bind c (fun _ => k))
  (at level 100, k at level 200, right associativity).

(** ** Data model (src/types/index.ts) *)

Inductive LogType := LogLog | LogWarn | LogError | LogInfo | LogDebug.

Definition logTypeName (t : LogType) : string :=
  match t with
  | LogLog => "log" | LogWarn => "warn" | LogError => "error"
  | LogInfo => "info" | LogDebug => "debug"
  end.

Record BrowserLog := {
  log_type : LogType;
  log_text : string;
  log_timestamp : Z
}.

Record NetworkRequest := {
  req_url : string;
  req_status : Z;
  req_error : option string;
  req_timestamp : Z
}.

Record MonitoredPage := {
  page_title : string;
  page_url : string;
  page_id : string
}.

(** A JS array is an object on the heap: a value of array type is a
    reference.  [LogData] holds two such references. *)
Definition ref := positive.

Record LogData := {
  console : ref;
  network : ref
}.

#[global] Instance LogType_eq_dec : EqDecision LogType.
Proof. solve_decision. Defined.
#[global] Instance BrowserLog_eq_dec : EqDecision BrowserLog.
Proof. solve_decision. Defined.
#[global] Instance NetworkRequest_eq_dec : EqDecision NetworkRequest.
Proof. solve_decision. Defined.
#[global] Instance MonitoredPage_eq_dec : EqDecision MonitoredPage.
Proof. solve_decision. Defined.

(** JS truthiness of a string and of an optional string. *)
Definition truthy (s : string) : bool :=
  match s with EmptyString => false | _ => true end.

Definition truthy_opt (o : option string) : bool :=
  match o with Some s => truthy s | None => false end.


(** The first rejection among the answers to a sequence of calls. *)
Fixpoint firstFailure (answers : list (option JsError)) : option JsError :=
  match answers with
  | [] => None
  | Some e :: _ => Some e
  | None :: rest => firstFailure rest
  end.

(** How many entries of a trace satisfy [p]. *)
Fixpoint count_calls {A : Type} (p : A -> bool) (tr : list A) : nat :=
  match tr with
  | [] => 0
  | c :: tr' => (if p c then 1 else 0) + count_calls p tr'
  end.

(** * ComposerIntegration

    The source holds two revisions of this class.  The one embedded here is
    the later one, whose [sendToComposer] verifies the clipboard and
    retries. *)

Module Composer.

(** The contents of the two arrays a [LogData] refers to, as [formatLogs]
    reads them when [sendToComposer] starts. *)
Record LogArrays := {
  console_items : list BrowserLog;
  network_items : list NetworkRequest
}.

Inductive ContentKind := ImageContent | TextContent.

(** Calls into the host.  [delay] only lets time pass and is not recorded. *)
Inductive Call :=
| ExecuteCommand (command : string)
| ClearClipboard
| VerifyClipboardContent (kind : ContentKind)
| CopyImageToClipboard
| CopyTextToClipboard (text : string)
| FsMkdir
| FsWriteFile
| FsUnlink
| ShowErrorMessage (msg : string)
| WithProgress (title : string).

#[global] Instance ContentKind_eq_dec : EqDecision ContentKind.
Proof. solve_decision. Defined.
#[global] Instance Call_eq_dec : EqDecision Call.
Proof. solve_decision. Defined.

Definition openCommand : string :=
  "workbench.panel.composerViewPane2.resetViewContainerLocation".
Definition pasteCommand : string := "editor.action.clipboardPasteAction".
Definition openFailedMessage : string :=
  "Failed to open composer. Please make sure Cursor is installed and configured.".

(** The instance field and the trace of host calls made so far. *)
Record State := {
  composerOpened : bool;
  calls : list Call
}.

Definition set_composerOpened (b : bool) (s : State) : State :=
  {| composerOpened := b; calls := calls s |}.

Definition record (c : Call) (s : State) : State :=
  {| composerOpened := composerOpened s; calls := calls s ++ [c] |}.

(** How often call [c] occurs in a trace. *)
Definition occurrences (c : Call) (tr : list Call) : nat :=
  count_occ Call_eq_dec tr c.

Definition Buffer := list Byte.byte.

Definition maxRetries : nat := 2.

(** Loop variables of [sendToComposer]. *)
Record Vars := {
  imageAttempt : nat;
  textAttempt : nat;
  imageSuccess : bool;
  textSuccess : bool
}.

(** How one pass through the loop body ends when it does not throw. *)
Inductive Flow := Continue (v : Vars) | Return.

(** [formatLogs] *)
Definition formatConsoleLine (l : BrowserLog) : string :=
  logTypeName (log_type l) +:+ ": " +:+ log_text l +:+ "
".

Definition formatNetworkLine (r : NetworkRequest) : string :=
  if truthy_opt (req_error r)
  then "Failed: " +:+ req_url r +:+ " (" +:+ default EmptyString (req_error r) +:+ ")
"
  else pretty (req_status r) +:+ ": " +:+ req_url r +:+ "
".

Definition formatLogs (logs : LogArrays) : string :=
  let result := "---Console Logs---
" in
  let result := fold_left (fun acc l => acc +:+ formatConsoleLine l)
                          (console_items logs) result in
  let result := result +:+ "
---Network Requests---
" in
  fold_left (fun acc r => acc +:+ formatNetworkLine r)
            (network_items logs) result.

Section WithStub.
(** [stub c n] answers the call [c] made after [n] earlier calls [c]:
    [None] lets it succeed, [Some e] makes it throw (reject with) [e]. *)
Variable stub : Call -> nat -> option JsError.

(** A host call that may fail. *)
Definition perform (c : Call) : M unit :=
  fun s => match stub c (occurrences c (calls s)) with
           | None => (Ok tt, record c s)
           | Some e => (Throw e, record c s)
           end.

(** A host call whose result the source does not await or whose failure
    it cannot observe. *)
Definition notify (c : Call) : M unit :=
  fun s => (Ok tt, record c s).

Definition delay (ms : nat) : M (S := State) unit := ret tt.

Definition openComposer : M unit :=
  let* opened := gets composerOpened in
  if opened then ret tt
  else
    try_catch
      (perform (ExecuteCommand openCommand) ;;
       modify (set_composerOpened true) ;;
       delay 100)
      (fun _ =>
         notify (ShowErrorMessage openFailedMessage) ;;
         ret tt).

(** [Promise.all([mkdir, writeFile])]: both calls are issued, the first
    rejection is the result. *)
Definition mkdirAndWrite : M unit :=
  fun s => match perform FsMkdir s with
           | (r1, s1) => match perform FsWriteFile s1 with
                         | (r2, s2) => (match r1 with
                                        | Throw e => Throw e
                                        | Ok _ => r2
                                        end, s2)
                         end
           end.

(** [sendImageToComposer].  [tmpFile] is set once both file operations
    are done; the [finally] block unlinks it then, without awaiting and
    with the rejection handled. *)
Definition sendImageToComposer (screenshot : Buffer) : M unit :=
  fun s =>
    match mkdirAndWrite s with
    | (Throw e, s1) =>
        (Throw {| message := "Failed to send image: " +:+ String_of_error e |}, s1)
    | (Ok _, s1) =>
        try_finally
          (try_catch
             (perform CopyImageToClipboard ;;
              delay 50 ;;
              perform (ExecuteCommand pasteCommand) ;;
              delay 50)
             (fun e => throw {| message :=
                          "Failed to send image: " +:+ String_of_error e |}))
          (try_catch (perform FsUnlink) (fun _ => ret tt))
          s1
    end.

Definition prepareTextForComposer (text : string) : M unit :=
  if negb (truthy text) then ret tt
  else
    perform (CopyTextToClipboard text) ;;
    delay 50 ;;
    perform (ExecuteCommand pasteCommand) ;;
    delay 50.

Definition showSuccessNotification : M unit :=
  perform (WithProgress "Successfully sent to Composer").

Definition set_imageSuccess (v : Vars) : Vars :=
  {| imageAttempt := imageAttempt v; textAttempt := textAttempt v;
     imageSuccess := true; textSuccess := textSuccess v |}.
Definition incr_imageAttempt (v : Vars) : Vars :=
  {| imageAttempt := S (imageAttempt v); textAttempt := textAttempt v;
     imageSuccess := imageSuccess v; textSuccess := textSuccess v |}.
Definition set_textSuccess (v : Vars) : Vars :=
  {| imageAttempt := imageAttempt v; textAttempt := textAttempt v;
     imageSuccess := imageSuccess v; textSuccess := true |}.
Definition incr_textAttempt (v : Vars) : Vars :=
  {| imageAttempt := imageAttempt v; textAttempt := S (textAttempt v);
     imageSuccess := imageSuccess v; textSuccess := textSuccess v |}.

Section Call.
Variable screenshot : option Buffer.
Variable formattedLogs : string.

(** [if (screenshot && !imageSuccess) { ... }] *)
Definition imageStep (v : Vars) : M Vars :=
  match screenshot with
  | Some shot =>
      if negb (imageSuccess v) then
        perform ClearClipboard ;;
        try_catch
          (sendImageToComposer shot ;;
           perform (VerifyClipboardContent ImageContent) ;;
           ret (set_imageSuccess v))
          (fun err =>
             if Nat.eqb (imageAttempt v) maxRetries
             then throw {| message :=
                         "Failed to send image: " +:+ String_of_error err |}
             else delay 100 ;; ret (incr_imageAttempt v))
      else ret v
  | None => ret v
  end.

(** [if (formattedLogs && !textSuccess) { ... }] *)
Definition textStep (v : Vars) : M Vars :=
  if truthy formattedLogs && negb (textSuccess v) then
    delay 50 ;;
    perform ClearClipboard ;;
    try_catch
      (prepareTextForComposer formattedLogs ;;
       perform (VerifyClipboardContent TextContent) ;;
       ret (set_textSuccess v))
      (fun err =>
         if Nat.eqb (textAttempt v) maxRetries
         then throw {| message := "Failed to send logs: " +:+ String_of_error err |}
         else delay 100 ;; ret (incr_textAttempt v))
  else ret v.

Definition allDone (v : Vars) : bool :=
  (negb (bool_decide (is_Some screenshot)) || imageSuccess v)
  && (negb (truthy formattedLogs) || textSuccess v).

(** One pass through the body of the [while] loop, with its
    [try / catch / finally]. *)
Definition iteration (v : Vars) : M Flow :=
  try_finally
    (try_catch
       (openComposer ;;
        let* v1 := imageStep v in
        let* v2 := textStep v1 in
        if allDone v2
        then showSuccessNotification ;; ret Return
        else ret (Continue v2))
       (fun error =>
          notify (ShowErrorMessage
            ("Failed to send data to composer: " +:+ message error)) ;;
          throw error))
    (modify (set_composerOpened false)).

Definition loopCondition (v : Vars) : bool :=
  (bool_decide (is_Some screenshot) && negb (imageSuccess v)
     && Nat.leb (imageAttempt v) maxRetries)
  || (truthy formattedLogs && negb (textSuccess v)
     && Nat.leb (textAttempt v) maxRetries).

(** The [while] loop.  [None] is returned only when [fuel] passes were
    not enough; [sendToComposer_total] shows that three always are. *)
Fixpoint loop (fuel : nat) (v : Vars) : M (option unit) :=
  if loopCondition v then
    match fuel with
    | O => ret None
    | S fuel' =>
        let* flow := iteration v in
        match flow with
        | Return => ret (Some tt)
        | Continue v' => loop fuel' v'
        end
    end
  else ret (Some tt).
End Call.

Definition initialVars : Vars :=
  {| imageAttempt := 0; textAttempt := 0;
     imageSuccess := false; textSuccess := false |}.

Definition sendToComposer (fuel : nat)
    (screenshot : option Buffer) (logs : option LogArrays) : M (option unit) :=
  let formattedLogs := match logs with
                       | Some l => formatLogs l
                       | None => EmptyString
                       end in
  loop screenshot formattedLogs fuel initialVars.
End WithStub.


(** ** Observations on a trace *)


(** Every run of [sendImageToComposer] writes the staging file once, and
    every run of [prepareTextForComposer] on a non-empty text copies it
    once: these calls count the delivery attempts of each artifact. *)
Definition isImageAttempt (c : Call) : bool :=
  match c with FsWriteFile => true | _ => false end.

Definition isTextAttempt (c : Call) : bool :=
  match c with CopyTextToClipboard _ => true | _ => false end.

Definition isVerify (c : Call) : bool :=
  match c with VerifyClipboardContent _ => true | _ => false end.

Definition isOpen (c : Call) : bool :=
  bool_decide (c = ExecuteCommand openCommand).

Definition imageAttempts (s : State) : nat := count_calls isImageAttempt (calls s).
Definition textAttempts (s : State) : nat := count_calls isTextAttempt (calls s).
Definition verifications (k : ContentKind) (s : State) : nat :=
  occurrences (VerifyClipboardContent k) (calls s).

(** A stub clipboard whose only failures are failed verifications. *)
Definition only_verification_fails (stub : Call -> nat -> option JsError) : Prop :=
  forall c n, isVerify c = false -> stub c n = None.

(** The two failures [sendToComposer] raises when a retry budget is spent. *)
Definition imageFailure (e : JsError) : JsError :=
  {| message := "Failed to send image: " +:+ String_of_error e |}.
Definition textFailure (e : JsError) : JsError :=
  {| message := "Failed to send logs: " +:+ String_of_error e |}.

(** ** The loop seen through the verification answers only

    When nothing but verification can fail, a pass through the loop is
    determined by the loop variables and by the next answer to each kind of
    verification.  [nI] and [nT] count the verifications asked so far. *)
Section Abstract.
Variable stub : Call -> nat -> option JsError.
Variable hasImage hasText : bool.

Definition absImage (v : Vars) (nI : nat) : Result Vars * nat :=
  if hasImage && negb (imageSuccess v) then
    match stub (VerifyClipboardContent ImageContent) nI with
    | None => (Ok (set_imageSuccess v), S nI)
    | Some e => if Nat.eqb (imageAttempt v) maxRetries
                then (Throw (imageFailure e), S nI)
                else (Ok (incr_imageAttempt v), S nI)
    end
  else (Ok v, nI).

Definition absText (v : Vars) (nT : nat) : Result Vars * nat :=
  if hasText && negb (textSuccess v) then
    match stub (VerifyClipboardContent TextContent) nT with
    | None => (Ok (set_textSuccess v), S nT)
    | Some e => if Nat.eqb (textAttempt v) maxRetries
                then (Throw (textFailure e), S nT)
                else (Ok (incr_textAttempt v), S nT)
    end
  else (Ok v, nT).

Definition absDone (v : Vars) : bool :=
  (negb hasImage || imageSuccess v) && (negb hasText || textSuccess v).

Definition absIteration (v : Vars) (nI nT : nat) : Result Flow * (nat * nat) :=
  match absImage v nI with
  | (Throw e, nI') => (Throw e, (nI', nT))
  | (Ok v1, nI') =>
      match absText v1 nT with
      | (Throw e, nT') => (Throw e, (nI', nT'))
      | (Ok v2, nT') =>
          (Ok (if absDone v2 then Return else Continue v2), (nI', nT'))
      end
  end.

Definition absCondition (v : Vars) : bool :=
  (hasImage && negb (imageSuccess v) && Nat.leb (imageAttempt v) maxRetries)
  || (hasText && negb (textSuccess v) && Nat.leb (textAttempt v) maxRetries).

Fixpoint absLoop (fuel : nat) (v : Vars) (nI nT : nat)
  : Result (option unit) * (nat * nat) :=
  if absCondition v then
    match fuel with
    | O => (Ok None, (nI, nT))
    | S fuel' =>
        match absIteration v nI nT with
        | (Throw e, n) => (Throw e, n)
        | (Ok Return, n) => (Ok (Some tt), n)
        | (Ok (Continue v'), (nI', nT')) => absLoop fuel' v' nI' nT'
        end
    end
  else (Ok (Some tt), (nI, nT)).
End Abstract.

(** ** Progress of the loop

    An artifact is active while it is requested and not yet delivered. *)
Section Progress.
Variable screenshot : option Buffer.
Variable formattedLogs : string.

Definition imgActive (v : Vars) : bool :=
  bool_decide (is_Some screenshot) && negb (imageSuccess v).

Definition txtActive (v : Vars) : bool :=
  truthy formattedLogs && negb (textSuccess v).

(** What one pass does to the variables of an artifact: an active artifact
    is delivered, or its attempt counter goes up, which happens only below
    [maxRetries]; an inactive one is left alone. *)
Definition stepI (v v' : Vars) : Prop :=
  if imgActive v
  then (imageSuccess v' = true /\ imageAttempt v' = imageAttempt v)
       \/ (imageSuccess v' = false /\ imageAttempt v' = S (imageAttempt v)
           /\ imageAttempt v <> maxRetries)
  else imageSuccess v' = imageSuccess v /\ imageAttempt v' = imageAttempt v.

Definition stepT (v v' : Vars) : Prop :=
  if txtActive v
  then (textSuccess v' = true /\ textAttempt v' = textAttempt v)
       \/ (textSuccess v' = false /\ textAttempt v' = S (textAttempt v)
           /\ textAttempt v <> maxRetries)
  else textSuccess v' = textSuccess v /\ textAttempt v' = textAttempt v.

Definition stepRel (v v' : Vars) : Prop := stepI v v' /\ stepT v v'.

(** Loop invariant and the number of passes still possible. *)
Definition Inv (v : Vars) : Prop :=
  (imgActive v = true -> imageAttempt v <= maxRetries)
  /\ (txtActive v = true -> textAttempt v <= maxRetries).

Definition left_I (v : Vars) : nat :=
  if imgActive v then 3 - imageAttempt v else 0.
Definition left_T (v : Vars) : nat :=
  if txtActive v then 3 - textAttempt v else 0.
Definition mu (v : Vars) : nat := Nat.max (left_I v) (left_T v).

(** The host calls of one text attempt when nothing fails before
    verification. *)
Definition textTrace : list Call :=
  [ClearClipboard; CopyTextToClipboard formattedLogs;
   ExecuteCommand pasteCommand; VerifyClipboardContent TextContent].
End Progress.

(** The host calls of one image attempt when nothing fails before
    verification. *)
Definition imageTrace : list Call :=
  [ClearClipboard; FsMkdir; FsWriteFile; CopyImageToClipboard;
   ExecuteCommand pasteCommand; FsUnlink; VerifyClipboardContent ImageContent].

Definition extend (tr : list Call) (s : State) : State :=
  {| composerOpened := composerOpened s; calls := calls s ++ tr |}.

(** What a trace extension contains: image attempts, text attempts and
    verifications of each kind. *)
Definition profile (tr : list Call) : nat * nat * (nat * nat) :=
  (count_calls isImageAttempt tr, count_calls isTextAttempt tr,
   (occurrences (VerifyClipboardContent ImageContent) tr,
    occurrences (VerifyClipboardContent TextContent) tr)).

(** Verification of kind [k] first succeeds on attempt [j + 1], counting
    from the [n0] verifications of that kind already asked. *)
Definition verifies_first_at (stub : Call -> nat -> option JsError)
    (k : ContentKind) (n0 j : nat) : Prop :=
  stub (VerifyClipboardContent k) (n0 + j) = None
  /\ forall i, i < j -> stub (VerifyClipboardContent k) (n0 + i) <> None.

(** Verification of kind [k] fails on each of the next three attempts. *)
Definition never_verifies (stub : Call -> nat -> option JsError)
    (k : ContentKind) (n0 : nat) : Prop :=
  forall i, i < 3 -> stub (VerifyClipboardContent k) (n0 + i) <> None.

Definition formatted (logs : option LogArrays) : string :=
  match logs with Some l => formatLogs l | None => EmptyString end.

(** ** Stub clipboards used in the examples *)

Definition mismatch : JsError := {| message := "clipboard mismatch" |}.

(** Verification always fails, everything else succeeds. *)
Definition stubNeverVerifies (c : Call) (n : nat) : option JsError :=
  match c with
  | VerifyClipboardContent _ => Some mismatch
  | _ => None
  end.

(** The first image verification fails, everything else succeeds. *)
Definition stubImageFailsOnce (c : Call) (n : nat) : option JsError :=
  match c with
  | VerifyClipboardContent ImageContent => if Nat.eqb n 0 then Some mismatch else None
  | _ => None
  end.

(** Verification fails twice for each kind and then succeeds. *)
Definition stubFailsTwice (c : Call) (n : nat) : option JsError :=
  match c with
  | VerifyClipboardContent _ => if Nat.ltb n 2 then Some mismatch else None
  | _ => None
  end.

Definition freshState : State := {| composerOpened := false; calls := [] |}.

Definition noLogs : LogArrays := {| console_items := []; network_items := [] |}.

Definition pixel : Buffer := [Byte.x89; Byte.x50; Byte.x4e; Byte.x47].

End Composer.

(** * BrowserMonitor *)

Module Monitor.

(** ** Protocol values (the parts of the debugging protocol the monitor reads) *)

(** JSON numbers are doubles; how the engine prints them and which of them
    are falsy is left to the host. *)
Class JsNumbers := {
  JsNumber : Type;
  numberToString : JsNumber -> string;
  numberTruthy : JsNumber -> bool
}.

Section Protocol.
Context `{JsNumbers}.

(** A value of type [any] carried by a remote object. *)
Inductive JsValue :=
| JsUndefined
| JsNull
| JsBool (b : bool)
| JsNum (n : JsNumber)
| JsStr (s : string).

(** [String(v)] *)
Definition toStr (v : JsValue) : string :=
  match v with
  | JsUndefined => "undefined"
  | JsNull => "null"
  | JsBool true => "true"
  | JsBool false => "false"
  | JsNum n => numberToString n
  | JsStr s => s
  end.

Definition isTruthy (v : JsValue) : bool :=
  match v with
  | JsUndefined | JsNull => false
  | JsBool b => b
  | JsNum n => numberTruthy n
  | JsStr s => truthy s
  end.

(** [a || b] on values *)
Definition orElse (a b : JsValue) : JsValue := if isTruthy a then a else b.

(** An optional string field read as a value. *)
Definition ofOpt (o : option string) : JsValue :=
  match o with Some s => JsStr s | None => JsUndefined end.

Record PropertyPreview := {
  p_name : string;
  p_value : option string
}.

Record ObjectPreview := {
  pv_subtype : option string;
  pv_description : option string;
  pv_properties : list PropertyPreview
}.

Record RemoteObject := {
  ro_type : string;
  ro_subtype : option string;
  ro_value : JsValue;
  ro_description : option string;
  ro_preview : option ObjectPreview
}.

Record ConsoleAPICalledEvent := {
  ev_type : string;
  ev_args : list RemoteObject
}.

Record LogEntry := {
  entry_level : string;
  entry_text : string
}.

Record Response := {
  response_url : string;
  response_status : Z
}.

Inductive ProtocolEvent :=
| RuntimeConsoleAPICalled (e : ConsoleAPICalledEvent)
| LogEntryAdded (entry : LogEntry)
| NetworkResponseReceived (response : Response)
| NetworkLoadingFailed (errorText : string).

(** [Array.prototype.join]: [undefined] and [null] print as nothing. *)
Definition joinItem (v : JsValue) : string :=
  match v with
  | JsUndefined | JsNull => EmptyString
  | _ => toStr v
  end.

Fixpoint join (sep : string) (items : list string) : string :=
  match items with
  | [] => EmptyString
  | [x] => x
  | x :: rest => x +:+ sep +:+ join sep rest
  end.

Fixpoint includes_newline (s : string) : bool :=
  match s with
  | EmptyString => false
  | String c rest => Ascii.eqb c "010"%char || includes_newline rest
  end.

(** [`${index}: ${p.value}`] for each property of an array preview *)
Fixpoint arrayItems (index : nat) (props : list PropertyPreview) : list string :=
  match props with
  | [] => []
  | p :: rest =>
      (pretty index +:+ ": " +:+ toStr (ofOpt (p_value p)))
        :: arrayItems (S index) rest
  end.

Definition dquote : string := String (ascii_of_nat 34) EmptyString.

Definition objectProp (p : PropertyPreview) : string :=
  p_name p +:+ ": " +:+
  match p_value p with
  | Some s => dquote +:+ s +:+ dquote
  | None => "undefined"
  end.

(** [preview?.properties?.find(p => p.name === name)?.value || EmptyString] *)
Definition previewProperty (name : string) (preview : option ObjectPreview) : string :=
  match preview with
  | Some pv =>
      match List.find (fun p => String.eqb (p_name p) name) (pv_properties pv) with
      | Some p => default EmptyString (p_value p)
      | None => EmptyString
      end
  | None => EmptyString
  end.

(** An array is truthy, also when it is empty. *)
Definition arrayTruthy {A} (l : list A) : bool := true.

(** The callback of [e.args.map] in the [Runtime.consoleAPICalled] handler. *)
Definition formatArg (arg : RemoteObject) : JsValue :=
  match (if String.eqb (ro_type arg) "object" then ro_preview arg else None) with
  | Some preview =>
      if bool_decide (pv_subtype preview = Some "array") then
        let items := join ",
    " (arrayItems 0 (pv_properties preview)) in
        JsStr ("Array(" +:+ pretty (length (pv_properties preview)) +:+ ") [
    " +:+ items +:+ "
]")
      else if arrayTruthy (pv_properties preview) then
        let props := join ", " (map objectProp (pv_properties preview)) in
        JsStr ("Object {" +:+ props +:+ "}")
      else orElse (ofOpt (pv_description preview)) (JsStr "Object {}")
  | None =>
      if String.eqb (ro_type arg) "function" then
        orElse (ofOpt (ro_description arg)) (JsStr "function")
      else if String.eqb (ro_type arg) "undefined" then JsStr "undefined"
      else if String.eqb (ro_type arg) "string" then ro_value arg
      else if String.eqb (ro_type arg) "number" || String.eqb (ro_type arg) "boolean"
      then JsStr (toStr (ro_value arg))
      else if String.eqb (ro_type arg) "symbol" then
        orElse (ofOpt (ro_description arg)) (JsStr "Symbol()")
      else if bool_decide (ro_subtype arg = Some "error") then
        if truthy_opt (ro_description arg)
           && includes_newline (default EmptyString (ro_description arg))
        then ofOpt (ro_description arg)
        else
          let stack := previewProperty "stack" (ro_preview arg) in
          let message := previewProperty "message" (ro_preview arg) in
          if truthy stack && truthy message
          then JsStr ("Error: " +:+ message +:+ "
" +:+ stack)
          else JsStr (toStr (orElse (ofOpt (ro_description arg))
                               (orElse (ro_value arg) (JsStr "Error"))))
      else orElse (ro_value arg) (orElse (ofOpt (ro_description arg)) (JsStr EmptyString))
  end.

Definition consoleLogType (type : string) : LogType :=
  if String.eqb type "warning" then LogWarn
  else if String.eqb type "debug" then LogDebug
  else if String.eqb type "log" then LogLog
  else if String.eqb type "info" then LogInfo
  else if String.eqb type "error" then LogError
  else LogLog.

Definition entryLogType (level : string) : LogType :=
  if String.eqb level "warning" then LogWarn
  else if String.eqb level "error" then LogError
  else if String.eqb level "info" then LogInfo
  else LogLog.

(** The record built by the [Runtime.consoleAPICalled] handler at time [now]. *)
Definition consoleRecord (now : Z) (e : ConsoleAPICalledEvent) : BrowserLog :=
  {| log_type := consoleLogType (ev_type e);
     log_text := join " " (map (fun arg => joinItem (formatArg arg)) (ev_args e));
     log_timestamp := now |}.

(** The record built by the [Log.entryAdded] handler at time [now]. *)
Definition entryRecord (now : Z) (entry : LogEntry) : BrowserLog :=
  {| log_type := entryLogType (entry_level entry);
     log_text := entry_text entry;
     log_timestamp := now |}.

Definition responseRecord (now : Z) (response : Response) : NetworkRequest :=
  {| req_url := response_url response;
     req_status := response_status response;
     req_error := None;
     req_timestamp := now |}.

Definition failureRecord (now : Z) (errorText : string) : NetworkRequest :=
  {| req_url := "Failed request";
     req_status := 0;
     req_error := Some errorText;
     req_timestamp := now |}.
End Protocol.

(** ** Handles, host calls and state *)

Definition Browser := nat.
Definition Page := nat.
Definition Client := nat.
Definition Timer := nat.

Record ActivePage := {
  page : Page;
  client : Client;
  info : MonitoredPage
}.

#[global] Instance ActivePage_eq_dec : EqDecision ActivePage.
Proof. solve_decision. Defined.

(** Calls into the host: the debugging transport, the editor, the toast
    service, timers, and the three notification emitters. *)
Inductive Call :=
| PuppeteerConnect
| BrowserPages (b : Browser)
| PageTitle (p : Page)
| PageUrl (p : Page)
| QuickPick
| CreateCDPSession (p : Page)
| ClientSend (c : Client) (method : string)
| ClientDetach (c : Client)
| ClientListen (c : Client)
| BrowserDisconnect (b : Browser)
| PageEvaluate (p : Page)
| SetContext (connected : bool)
| FireConnectionState
| FireDisconnect
| FireNewLog (log : BrowserLog)
| EmitNetwork (request : NetworkRequest)
| ToastError (msg : string)
| ToastSessionDisconnected
| ToastTabClosed
| ToastProgress (title : string)
| SetInterval (t : Timer)
| ClearInterval (t : Timer)
| StatusBarShow
| StatusBarDispose.

#[global] Instance Call_eq_dec : EqDecision Call.
Proof. solve_decision. Defined.

(** Where a run of [disconnect] is suspended: at [await
    this.stopMonitoring()] with nothing to detach, inside [stopMonitoring]
    at [await ...client.detach()], or at [await this.browser.disconnect()]. *)
Inductive Suspended := AwaitStop | AwaitDetach | AwaitBrowser.

#[global] Instance Suspended_eq_dec : EqDecision Suspended.
Proof. solve_decision. Defined.

(** The fields of the monitor, the two array heaps its buffers live in, the
    trace of host calls, and the runs of [disconnect] that were started and
    are suspended at an await, oldest first. *)
Record State := {
  browser : option Browser;
  activePage : option ActivePage;
  consoleLogs : ref;
  networkLogs : ref;
  _isConnected : bool;
  healthCheckInterval : option Timer;
  statusBarText : string;
  statusBarTooltip : string;
  consoleHeap : gmap ref (list BrowserLog);
  networkHeap : gmap ref (list NetworkRequest);
  calls : list Call;
  pending : list Suspended
}.

Definition set_browser (x : option Browser) (s : State) : State :=
  {| browser := x; activePage := activePage s; consoleLogs := consoleLogs s;
     networkLogs := networkLogs s; _isConnected := _isConnected s;
     healthCheckInterval := healthCheckInterval s;
     statusBarText := statusBarText s; statusBarTooltip := statusBarTooltip s;
     consoleHeap := consoleHeap s; networkHeap := networkHeap s;
     calls := calls s; pending := pending s |}.

Definition set_activePage (x : option ActivePage) (s : State) : State :=
  {| browser := browser s; activePage := x; consoleLogs := consoleLogs s;
     networkLogs := networkLogs s; _isConnected := _isConnected s;
     healthCheckInterval := healthCheckInterval s;
     statusBarText := statusBarText s; statusBarTooltip := statusBarTooltip s;
     consoleHeap := consoleHeap s; networkHeap := networkHeap s;
     calls := calls s; pending := pending s |}.

Definition set_isConnected (x : bool) (s : State) : State :=
  {| browser := browser s; activePage := activePage s; consoleLogs := consoleLogs s;
     networkLogs := networkLogs s; _isConnected := x;
     healthCheckInterval := healthCheckInterval s;
     statusBarText := statusBarText s; statusBarTooltip := statusBarTooltip s;
     consoleHeap := consoleHeap s; networkHeap := networkHeap s;
     calls := calls s; pending := pending s |}.

Definition set_healthCheckInterval (x : option Timer) (s : State) : State :=
  {| browser := browser s; activePage := activePage s; consoleLogs := consoleLogs s;
     networkLogs := networkLogs s; _isConnected := _isConnected s;
     healthCheckInterval := x;
     statusBarText := statusBarText s; statusBarTooltip := statusBarTooltip s;
     consoleHeap := consoleHeap s; networkHeap := networkHeap s;
     calls := calls s; pending := pending s |}.

Definition set_statusBar (text tooltip : string) (s : State) : State :=
  {| browser := browser s; activePage := activePage s; consoleLogs := consoleLogs s;
     networkLogs := networkLogs s; _isConnected := _isConnected s;
     healthCheckInterval := healthCheckInterval s;
     statusBarText := text; statusBarTooltip := tooltip;
     consoleHeap := consoleHeap s; networkHeap := networkHeap s;
     calls := calls s; pending := pending s |}.

Definition set_console (l : ref) (h : gmap ref (list BrowserLog)) (s : State) : State :=
  {| browser := browser s; activePage := activePage s; consoleLogs := l;
     networkLogs := networkLogs s; _isConnected := _isConnected s;
     healthCheckInterval := healthCheckInterval s;
     statusBarText := statusBarText s; statusBarTooltip := statusBarTooltip s;
     consoleHeap := h; networkHeap := networkHeap s;
     calls := calls s; pending := pending s |}.

Definition set_network (l : ref) (h : gmap ref (list NetworkRequest)) (s : State) : State :=
  {| browser := browser s; activePage := activePage s; consoleLogs := consoleLogs s;
     networkLogs := l; _isConnected := _isConnected s;
     healthCheckInterval := healthCheckInterval s;
     statusBarText := statusBarText s; statusBarTooltip := statusBarTooltip s;
     consoleHeap := consoleHeap s; networkHeap := h;
     calls := calls s; pending := pending s |}.

Definition record (c : Call) (s : State) : State :=
  {| browser := browser s; activePage := activePage s; consoleLogs := consoleLogs s;
     networkLogs := networkLogs s; _isConnected := _isConnected s;
     healthCheckInterval := healthCheckInterval s;
     statusBarText := statusBarText s; statusBarTooltip := statusBarTooltip s;
     consoleHeap := consoleHeap s; networkHeap := networkHeap s;
     calls := calls s ++ [c]; pending := pending s |}.

Definition set_pending (q : list Suspended) (s : State) : State :=
  {| browser := browser s; activePage := activePage s; consoleLogs := consoleLogs s;
     networkLogs := networkLogs s; _isConnected := _isConnected s;
     healthCheckInterval := healthCheckInterval s;
     statusBarText := statusBarText s; statusBarTooltip := statusBarTooltip s;
     consoleHeap := consoleHeap s; networkHeap := networkHeap s;
     calls := calls s; pending := q |}.

(** ** Arrays on the heap *)

Section Arrays.
Context {A : Type}.

(** The elements of the array at [l]. *)
Definition readArr (h : gmap ref (list A)) (l : ref) : list A :=
  default [] (h !! l).

(** [array.push(x)]: the array at [l] is updated in place. *)
Definition pushArr (h : gmap ref (list A)) (l : ref) (x : A) : gmap ref (list A) :=
  <[l := readArr h l ++ [x]]> h.

(** [[]]: a new empty array at an unused reference. *)
Definition newArr (h : gmap ref (list A)) : ref * gmap ref (list A) :=
  let l := fresh (dom h) in (l, <[l := []]> h).
End Arrays.

Definition occurrences (c : Call) (tr : list Call) : nat :=
  count_occ Call_eq_dec tr c.


Definition isConnectCall (c : Call) : bool :=
  match c with PuppeteerConnect => true | _ => false end.
Definition isCreateSession (c : Call) : bool :=
  match c with CreateCDPSession _ => true | _ => false end.
Definition isDetach (c : Call) : bool :=
  match c with ClientDetach _ => true | _ => false end.
Definition isSetInterval (c : Call) : bool :=
  match c with SetInterval _ => true | _ => false end.
Definition isFireDisconnect (c : Call) : bool :=
  match c with FireDisconnect => true | _ => false end.
Definition isFireConnectionState (c : Call) : bool :=
  match c with FireConnectionState => true | _ => false end.
Definition isToastError (c : Call) : bool :=
  match c with ToastError _ => true | _ => false end.

(** ** The stub host *)

(** One entry of the quick-pick list built by [connect]. *)
Record Pick := {
  label : string;
  description : string;
  pick_page : Page;
  pick_info : MonitoredPage
}.

(** [fails c n] answers call [c] made after [n] earlier calls [c] ([None]:
    the call succeeds).  The other fields are what the transport and the
    user return when their call succeeds. *)
Record Host := {
  fails : Call -> nat -> option JsError;
  pagesOf : Browser -> list Page;
  titleOf : Page -> string;
  urlOf : Page -> string;
  choose : list Pick -> option nat
}.

Section WithHost.
Variable host : Host.

Definition perform (c : Call) : M unit :=
  fun s => match fails host c (occurrences c (calls s)) with
           | None => (Ok tt, record c s)
           | Some e => (Throw e, record c s)
           end.

(** A host call that cannot throw into the monitor: the editor's emitters
    and the toasts catch what their listeners throw, commands that are not
    awaited only return a promise, and the repository registers no listener
    for the monitor's own ["network"] event. *)
Definition notify (c : Call) : M unit :=
  fun s => (Ok tt, record c s).

Definition updateStatusBar : M unit :=
  let* connected := gets _isConnected in
  let* active := gets activePage in
  let title := match active with
               | Some a => page_title (info a)
               | None => "undefined"
               end in
  let url := match active with
             | Some a => page_url (info a)
             | None => "undefined"
             end in
  modify (set_statusBar
            (if negb connected then "$(plug) Connect Browser Tab"
             else "$(eye) Capture Tab Info (" +:+ title +:+ ")")
            (if connected then "Connected to: " +:+ url
             else "Click to connect to a browser tab")) ;;
  notify StatusBarShow.

Definition updateConnectionState : M unit :=
  let* active := gets activePage in
  let connected := bool_decide (is_Some active) in
  modify (set_isConnected connected) ;;
  notify (SetContext connected) ;;
  notify FireConnectionState ;;
  updateStatusBar.

Definition clearHealthCheck : M unit :=
  let* timer := gets healthCheckInterval in
  match timer with
  | Some t => notify (ClearInterval t) ;; modify (set_healthCheckInterval None)
  | None => ret tt
  end.

Definition stopMonitoring : M unit :=
  let* active := gets activePage in
  match active with
  | Some a =>
      try_catch (perform (ClientDetach (client a))) (fun _ => ret tt) ;;
      modify (set_activePage None)
  | None => ret tt
  end.

(** The block [if (this.browser) { ... }] of [disconnect]. *)
Definition releaseBrowser : M unit :=
  let* b := gets browser in
  match b with
  | Some b =>
      try_catch (perform (BrowserDisconnect b)) (fun _ => ret tt) ;;
      modify (set_browser None)
  | None => ret tt
  end.

Definition disconnect : M unit :=
  clearHealthCheck ;;
  stopMonitoring ;;
  releaseBrowser ;;
  updateConnectionState ;;
  notify FireDisconnect.

Definition handleSessionError : M unit :=
  let* connected := gets _isConnected in
  if connected then notify ToastSessionDisconnected ;; disconnect
  else ret tt.

Definition handlePageClosed : M unit :=
  let* connected := gets _isConnected in
  if connected then notify ToastTabClosed ;; disconnect
  else ret tt.

(** *** A run of [disconnect] in its segments

    [disconnect] awaits twice.  Where the source awaits the run
    ([handleSessionError], [handlePageClosed], [monitorPage]) it is the one
    step [disconnect] above.  Where the source starts it without [await]
    ([connect]'s catch block, [dispose]) only the segment before the first
    await has run when the caller goes on; the rest is left in [pending]
    and runs when the event loop resumes it. *)

Definition suspend (p : Suspended) : M unit :=
  modify (fun s => set_pending (pending s ++ [p]) s).

(** [disconnect] up to its first await: [clearHealthCheck()], then
    [stopMonitoring()] up to [await ...client.detach()] when there is an
    active page. *)
Definition disconnectBegin : M unit :=
  clearHealthCheck ;;
  let* active := gets activePage in
  match active with
  | Some a =>
      try_catch (perform (ClientDetach (client a))) (fun _ => ret tt) ;;
      suspend AwaitDetach
  | None => suspend AwaitStop
  end.

(** The two statements after the last await of [disconnect]. *)
Definition disconnectEnd : M unit :=
  updateConnectionState ;;
  notify FireDisconnect.

(** A suspended run of [disconnect], from the await it is suspended at to
    its next await or to its end. *)
Definition continueDisconnect (p : Suspended) : M unit :=
  match p with
  | AwaitBrowser => modify (set_browser None) ;; disconnectEnd
  | AwaitDetach | AwaitStop =>
      (match p with
       | AwaitDetach => modify (set_activePage None)
       | _ => ret tt
       end) ;;
      let* b := gets browser in
      match b with
      | Some b =>
          try_catch (perform (BrowserDisconnect b)) (fun _ => ret tt) ;;
          suspend AwaitBrowser
      | None => disconnectEnd
      end
  end.

(** One turn of the event loop: the suspended run at position [i] goes
    on. *)
Definition resumeAt (i : nat) : M unit :=
  let* q := gets pending in
  match q !! i with
  | None => ret tt
  | Some p => modify (set_pending (delete i q)) ;; continueDisconnect p
  end.

(** The oldest suspended run goes on. *)
Definition resume : M unit := resumeAt 0.

Fixpoint resumeTimes (n : nat) : M unit :=
  match n with
  | O => ret tt
  | S n' => resume ;; resumeTimes n'
  end.

(** Every suspended run goes on to its end (a run has at most two awaits
    left). *)
Definition settle : M unit :=
  let* q := gets pending in
  resumeTimes (2 * length q).

(** The handlers that await [disconnect], up to the first await of that
    [disconnect]: what has happened when another event can be delivered. *)
Definition handleSessionErrorBegin : M unit :=
  let* connected := gets _isConnected in
  if connected then notify ToastSessionDisconnected ;; disconnectBegin
  else ret tt.

Definition handlePageClosedBegin : M unit :=
  let* connected := gets _isConnected in
  if connected then notify ToastTabClosed ;; disconnectBegin
  else ret tt.

(** The interval callback installed by [setupEventListeners] for the
    session [c]. *)
Definition healthCheck (c : Client) : M unit :=
  try_catch
    (perform (ClientSend c "Runtime.evaluate"))
    (fun _ => clearHealthCheck ;; handleSessionError).

Definition healthCheckBegin (c : Client) : M unit :=
  try_catch
    (perform (ClientSend c "Runtime.evaluate"))
    (fun _ => clearHealthCheck ;; handleSessionErrorBegin).

Definition setupEventListeners (c : Client) : M unit :=
  let* t := gets (fun s => count_calls isSetInterval (calls s)) in
  notify (SetInterval t) ;;
  modify (set_healthCheckInterval (Some t)) ;;
  notify (ClientListen c).

Definition showSuccessNotification : M unit :=
  perform (ToastProgress "Successfully connected to tab").

(** [Promise.all] over the four [enable] commands: all are sent, the first
    rejection is the result. *)
Definition enableDomains (c : Client) : M unit :=
  fun s =>
    let '(r1, s1) := perform (ClientSend c "Page.enable") s in
    let '(r2, s2) := perform (ClientSend c "Network.enable") s1 in
    let '(r3, s3) := perform (ClientSend c "Runtime.enable") s2 in
    let '(r4, s4) := perform (ClientSend c "Log.enable") s3 in
    (match r1, r2, r3, r4 with
     | Throw e, _, _, _ => Throw e
     | _, Throw e, _, _ => Throw e
     | _, _, Throw e, _ => Throw e
     | _, _, _, r => r
     end, s4).

Definition monitorPage (p : Page) (pageInfo : MonitoredPage) : M unit :=
  let* active := gets activePage in
  (if bool_decide (is_Some active) then stopMonitoring else ret tt) ;;
  let* c := gets (fun s => count_calls isCreateSession (calls s)) in
  perform (CreateCDPSession p) ;;
  let* enabled :=
    try_catch (enableDomains c ;; ret true)
              (fun _ =>
                 notify (ToastError "Failed to initialize browser session") ;;
                 disconnect ;;
                 ret false) in
  if enabled then
    modify (set_activePage (Some {| page := p; client := c; info := pageInfo |})) ;;
    updateConnectionState ;;
    perform (PageEvaluate p) ;;
    setupEventListeners c ;;
    updateStatusBar ;;
    showSuccessNotification
  else ret tt.

(** The title and url of one candidate page; a page that cannot be read
    keeps the empty strings it started with. *)
Definition readPage (p : Page) : M Pick :=
  fun s =>
    let '(title, url, s') :=
      match perform (PageTitle p) s with
      | (Ok _, s1) =>
          match perform (PageUrl p) s1 with
          | (Ok _, s2) => (titleOf host p, urlOf host p, s2)
          | (Throw _, s2) => (titleOf host p, EmptyString, s2)
          end
      | (Throw _, s1) => (EmptyString, EmptyString, s1)
      end in
    (Ok {| label := if truthy title then title
                    else if truthy url then url else "Untitled Page";
           description := url;
           pick_page := p;
           pick_info := {| page_title := title; page_url := url; page_id := url |} |},
     s').

Fixpoint readPages (pages : list Page) : M (list Pick) :=
  match pages with
  | [] => ret []
  | p :: rest =>
      let* x := readPage p in
      let* xs := readPages rest in
      ret (x :: xs)
  end.

(** The [try] block of [connect]. *)
Definition connectBody : M unit :=
  let* b := gets (fun s => count_calls isConnectCall (calls s)) in
  perform PuppeteerConnect ;;
  modify (set_browser (Some b)) ;;
  perform (BrowserPages b) ;;
  let pages := pagesOf host b in
  match pages with
  | [] => throw {| message :=
            "No open pages found. Please open at least one tab in Chrome." |}
  | _ =>
      let* picks := readPages pages in
      perform QuickPick ;;
      match choose host picks with
      | None => ret tt
      | Some i =>
          match picks !! i with
          | None => ret tt
          | Some selection =>
              monitorPage (pick_page selection) (pick_info selection)
          end
      end
  end.

(** [connect].  The catch block calls [this.disconnect()] without [await]:
    [connect] returns with that run suspended at its first await. *)
Definition connect : M unit :=
  try_catch connectBody
    (fun error =>
       notify (ToastError ("Failed to connect: " +:+ message error)) ;;
       disconnectBegin).

Definition clearLogs : M unit :=
  modify (fun s => let '(l, h) := newArr (consoleHeap s) in set_console l h s) ;;
  modify (fun s => let '(l, h) := newArr (networkHeap s) in set_network l h s).

Definition getLogs : M LogData :=
  gets (fun s => {| console := consoleLogs s; network := networkLogs s |}).

Definition isConnected : M bool := gets _isConnected.

Definition getActivePage : M (option MonitoredPage) :=
  gets (fun s => info <$> activePage s).

Definition getPageForScreenshot : M (option Page) :=
  let* active := gets activePage in
  match active with
  | None => ret None
  | Some a =>
      try_catch (perform (PageEvaluate (page a)) ;; ret (Some (page a)))
                (fun _ => handleSessionError ;; ret None)
  end.

(** [dispose] starts [disconnect] without [await] and disposes the status
    bar item while that run is suspended. *)
Definition dispose : M unit :=
  disconnectBegin ;; notify StatusBarDispose.

(** ** Event handlers registered by [setupEventListeners] *)

Section Handlers.
Context `{JsNumbers}.

Definition pushConsole (log : BrowserLog) : M unit :=
  modify (fun s => set_console (consoleLogs s)
                     (pushArr (consoleHeap s) (consoleLogs s) log) s) ;;
  notify (FireNewLog log).

Definition pushNetwork (request : NetworkRequest) : M unit :=
  modify (fun s => set_network (networkLogs s)
                     (pushArr (networkHeap s) (networkLogs s) request) s) ;;
  notify (EmitNetwork request).

(** The handler of a protocol event, run when the clock reads [now]. *)
Definition handleEvent (now : Z) (ev : ProtocolEvent) : M unit :=
  match ev with
  | RuntimeConsoleAPICalled e => pushConsole (consoleRecord now e)
  | LogEntryAdded entry => pushConsole (entryRecord now entry)
  | NetworkResponseReceived response => pushNetwork (responseRecord now response)
  | NetworkLoadingFailed errorText => pushNetwork (failureRecord now errorText)
  end.

Fixpoint handleEvents (evs : list (Z * ProtocolEvent)) : M unit :=
  match evs with
  | [] => ret tt
  | (now, ev) :: rest => handleEvent now ev ;; handleEvents rest
  end.

(** The console record an event normalizes to, if it is a console event. *)
Definition consoleRecordOf (x : Z * ProtocolEvent) : option BrowserLog :=
  match snd x with
  | RuntimeConsoleAPICalled e => Some (consoleRecord (fst x) e)
  | LogEntryAdded entry => Some (entryRecord (fst x) entry)
  | _ => None
  end.

Definition networkRecordOf (x : Z * ProtocolEvent) : option NetworkRequest :=
  match snd x with
  | NetworkResponseReceived response => Some (responseRecord (fst x) response)
  | NetworkLoadingFailed errorText => Some (failureRecord (fst x) errorText)
  | _ => None
  end.
End Handlers.
End WithHost.

(** ** Reading a [LogData] *)

Definition consoleOf (s : State) (d : LogData) : list BrowserLog :=
  readArr (consoleHeap s) (console d).

Definition networkOf (s : State) (d : LogData) : list NetworkRequest :=
  readArr (networkHeap s) (network d).

(** Both buffers of the monitor are arrays that exist on the heap. *)
Definition allocated (s : State) : Prop :=
  consoleLogs s ∈ dom (consoleHeap s) /\ networkLogs s ∈ dom (networkHeap s).

(** The fields that describe the session. *)
Definition session (s : State) : option Browser * option ActivePage * bool * option Timer :=
  (browser s, activePage s, _isConnected s, healthCheckInterval s).

(** The monitor as its constructor leaves it: no session, two new empty
    buffers, and one run of [updateConnectionState]. *)
Definition initialState : State :=
  {| browser := None; activePage := None;
     consoleLogs := 1%positive; networkLogs := 1%positive;
     _isConnected := false; healthCheckInterval := None;
     statusBarText := "$(plug) Connect Browser Tab";
     statusBarTooltip := "Click to connect to a browser tab";
     consoleHeap := {[ 1%positive := [] ]};
     networkHeap := {[ 1%positive := [] ]};
     calls := [SetContext false; FireConnectionState; StatusBarShow];
     pending := [] |}.

(** ** The state after a disconnect

    Whatever the host answers, [disconnect] ends in the state computed
    here: a failed [detach] or browser disconnect is swallowed. *)

Definition buffers (s : State)
  : ref * ref * gmap ref (list BrowserLog) * gmap ref (list NetworkRequest) :=
  (consoleLogs s, networkLogs s, consoleHeap s, networkHeap s).

Definition cleared (s : State) : State :=
  match healthCheckInterval s with
  | Some t => set_healthCheckInterval None (record (ClearInterval t) s)
  | None => s
  end.

Definition stopped (s : State) : State :=
  match activePage s with
  | Some a => set_activePage None (record (ClientDetach (client a)) s)
  | None => s
  end.

Definition released (s : State) : State :=
  match browser s with
  | Some b => set_browser None (record (BrowserDisconnect b) s)
  | None => s
  end.

Definition statusShown (s : State) : State :=
  let title := match activePage s with
               | Some a => page_title (info a)
               | None => "undefined"
               end in
  let url := match activePage s with
             | Some a => page_url (info a)
             | None => "undefined"
             end in
  record StatusBarShow
    (set_statusBar
       (if negb (_isConnected s) then "$(plug) Connect Browser Tab"
        else "$(eye) Capture Tab Info (" +:+ title +:+ ")")
       (if _isConnected s then "Connected to: " +:+ url
        else "Click to connect to a browser tab") s).

Definition updated (s : State) : State :=
  let connected := bool_decide (is_Some (activePage s)) in
  statusShown
    (record FireConnectionState
       (record (SetContext connected) (set_isConnected connected s))).

Definition disconnected (s : State) : State :=
  record FireDisconnect (updated (released (stopped (cleared s)))).

(** The same for the segments of a run of [disconnect]. *)

Definition begun (s : State) : State :=
  let s0 := cleared s in
  match activePage s0 with
  | Some a => set_pending (pending s0 ++ [AwaitDetach])
                (record (ClientDetach (client a)) s0)
  | None => set_pending (pending s0 ++ [AwaitStop]) s0
  end.

Definition ended (s : State) : State := record FireDisconnect (updated s).

Definition continued (p : Suspended) (s : State) : State :=
  match p with
  | AwaitBrowser => ended (set_browser None s)
  | _ =>
      let s0 := match p with
                | AwaitDetach => set_activePage None s
                | _ => s
                end in
      match browser s0 with
      | Some b => set_pending (pending s0 ++ [AwaitBrowser])
                    (record (BrowserDisconnect b) s0)
      | None => ended s0
      end
  end.

Definition resumed (s : State) : State :=
  match pending s with
  | [] => s
  | p :: rest => continued p (set_pending rest s)
  end.

(** ** Error toasts

    An error toast is how [connect] and [monitorPage] surface a failure. *)

Definition toasts (s : State) : nat := count_calls isToastError (calls s).

(** [m] shows no error toast, however it ends. *)
Definition quiet {A} (m : M A) : Prop :=
  forall s, toasts (snd (m s)) = toasts s.

(** [m] either shows no error toast, or returns normally with the session
    fields of a disconnected monitor. *)
Definition settles {A} (m : M A) : Prop :=
  forall s,
    match m s with
    | (Ok _, s') => toasts s' = toasts s \/ session s' = (None, None, false, None)
    | (Throw _, s') => toasts s' = toasts s
    end.

Definition isConsoleEvent `{JsNumbers} (x : Z * ProtocolEvent) : bool :=
  match snd x with
  | RuntimeConsoleAPICalled _ | LogEntryAdded _ => true
  | _ => false
  end.

(** ** Hosts and events used in the examples *)

Definition protocolError : JsError := {| message := "Protocol error" |}.

Definition onePage (failing : Call -> nat -> option JsError) : Host :=
  {| fails := failing;
     pagesOf := fun _ => [7];
     titleOf := fun _ => "Example";
     urlOf := fun _ => "http://localhost:3000/";
     choose := fun _ => Some 0 |}.

(** Nothing fails. *)
Definition hostHealthy : Host := onePage (fun _ _ => None).

(** Enabling the network domain fails. *)
Definition hostEnableFails : Host :=
  onePage (fun c _ =>
             match c with
             | ClientSend _ method =>
                 if String.eqb method "Network.enable"
                 then Some protocolError else None
             | _ => None
             end).

(** The page evaluation that follows a successful initialization fails. *)
Definition hostEvaluateFails : Host :=
  onePage (fun c _ =>
             match c with
             | PageEvaluate _ => Some protocolError
             | _ => None
             end).

(** The liveness probe fails. *)
Definition hostProbeFails : Host :=
  onePage (fun c _ =>
             match c with
             | ClientSend _ method =>
                 if String.eqb method "Runtime.evaluate"
                 then Some protocolError else None
             | _ => None
             end).

(** Integers as the numbers of the examples. *)
Definition intNumbers : JsNumbers :=
  {| JsNumber := Z;
     numberToString := pretty;
     numberTruthy := fun z => negb (Z.eqb z 0) |}.

Definition sampleEntry : @ProtocolEvent intNumbers :=
  LogEntryAdded {| entry_level := "error"; entry_text := "boom" |}.

Definition sampleEvents : list (Z * @ProtocolEvent intNumbers) :=
  [(5%Z, sampleEntry);
   (6%Z, NetworkLoadingFailed "net::ERR_FAILED");
   (7%Z, RuntimeConsoleAPICalled
           {| ev_type := "warning";
              ev_args := [ {| ro_type := "number"; ro_subtype := None;
                              ro_value := @JsNum intNumbers 42%Z;
                              ro_description := Some "42";
                              ro_preview := None |} ] |})].

End Monitor.

Module ComposerExtra.
Import Composer.

(** The host calls of the image path and of the text path. *)
Definition isImagePath (c : Call) : bool :=
  match c with
  | FsMkdir | FsWriteFile | FsUnlink | CopyImageToClipboard
  | VerifyClipboardContent ImageContent => true
  | _ => false
  end.

Definition isTextPath (c : Call) : bool :=
  match c with
  | CopyTextToClipboard _ | VerifyClipboardContent TextContent => true
  | _ => false
  end.

(** Every call [m] adds to the trace satisfies [P]. *)
Definition adds {A} (P : Call -> Prop) (m : M A) : Prop :=
  forall s, exists tr, calls (snd (m s)) = calls s ++ tr /\ Forall P tr.

Definition isUnlink (c : Call) : bool :=
  match c with FsUnlink => true | _ => false end.

Definition isClear (c : Call) : bool :=
  match c with ClearClipboard => true | _ => false end.

(** However [m] ends, it adds at least [n] calls that satisfy [p]. *)
Definition atLeast {A} (p : Call -> bool) (n : nat) (m : M A) : Prop :=
  forall s, count_calls p (calls s) + n <= count_calls p (calls (snd (m s))).

(** The answer of the stub to the next call [c] in state [s]. *)
Definition answer (stub : Call -> nat -> option JsError) (c : Call) (s : State)
  : option JsError :=
  stub c (occurrences c (calls s)).

Definition concat_lines (l : list string) : string :=
  fold_right String.append EmptyString l.

(** The number of line breaks in a text. *)
Fixpoint lineBreaks (s : string) : nat :=
  match s with
  | EmptyString => 0
  | String a rest => (if Ascii.eqb a "010" then 1 else 0) + lineBreaks rest
  end.

(** The texts a console record and a network record contribute to their
    lines. *)
Definition consoleFields (l : BrowserLog) : list string := [log_text l].
Definition networkFields (r : NetworkRequest) : list string :=
  [req_url r; default EmptyString (req_error r)].

(** No text of the logs holds a line break. *)
Definition singleLine (l : list string) : Prop :=
  Forall (fun s => lineBreaks s = 0) l.
End ComposerExtra.

Module MonitorExtra.
Import Monitor.

(** [m] leaves the observation [f] of the state as it was, however it
    ends. *)
Definition keeps {A B} (f : State -> B) (m : M A) : Prop :=
  forall s, f (snd (m s)) = f s.

(** The connection flag says whether there is an active page. *)
Definition inSync (s : State) : Prop :=
  _isConnected s = bool_decide (is_Some (activePage s)).






(** Every call [m] adds to the trace satisfies [P]. *)
Definition emits {A} (P : Call -> Prop) (m : M A) : Prop :=
  forall s, exists tr, calls (snd (m s)) = calls s ++ tr /\ Forall P tr.

Definition isPageRead (c : Call) : bool :=
  match c with PageTitle _ | PageUrl _ => true | _ => false end.
Definition isClearInterval (c : Call) : bool :=
  match c with ClearInterval _ => true | _ => false end.
Definition isBrowserDisconnect (c : Call) : bool :=
  match c with BrowserDisconnect _ => true | _ => false end.
Definition isQuickPick (c : Call) : bool :=
  match c with QuickPick => true | _ => false end.
Definition isTabClosedToast (c : Call) : bool :=
  match c with ToastTabClosed => true | _ => false end.

(** Everything in the state but the trace. *)
Definition fields (s : State) :=
  (session s, buffers s, (statusBarText s, statusBarTooltip s)).

(** The entry [connect] builds for page [p] when its title and url can be
    read. *)
Definition pickOf (host : Host) (p : Page) : Pick :=
  let title := titleOf host p in
  let url := urlOf host p in
  {| label := if truthy title then title
              else if truthy url then url else "Untitled Page";
     description := url;
     pick_page := p;
     pick_info := {| page_title := title; page_url := url; page_id := url |} |}.

(** The entry for a page whose title cannot be read. *)
Definition untitledPick (p : Page) : Pick :=
  {| label := "Untitled Page";
     description := EmptyString;
     pick_page := p;
     pick_info := {| page_title := EmptyString; page_url := EmptyString;
                     page_id := EmptyString |} |}.

(** A well-formed entry: a label to show, and the url as description and
    as id. *)
Definition wellFormedPick (k : Pick) : Prop :=
  truthy (label k) = true
  /\ description k = page_url (pick_info k)
  /\ page_id (pick_info k) = page_url (pick_info k).

(** The monitor after [monitorPage p pageInfo] when no host call fails:
    the previous session detached, a new session created and enabled, the
    connection published, the page instrumented, the health check armed
    and the success toast shown. *)
Definition installed (p : Page) (pageInfo : MonitoredPage) (s : State) : State :=
  let s0 := stopped s in
  let c := count_calls isCreateSession (calls s0) in
  let s1 := record (ClientSend c "Log.enable")
              (record (ClientSend c "Runtime.enable")
                 (record (ClientSend c "Network.enable")
                    (record (ClientSend c "Page.enable")
                       (record (CreateCDPSession p) s0)))) in
  let s2 := updated (set_activePage
                       (Some {| page := p; client := c; info := pageInfo |}) s1) in
  let s3 := record (PageEvaluate p) s2 in
  let t := count_calls isSetInterval (calls s3) in
  let s4 := record (ClientListen c)
              (set_healthCheckInterval (Some t) (record (SetInterval t) s3)) in
  record (ToastProgress "Successfully connected to tab") (statusShown s4).

(** The host calls of [monitorPage] for page [p], session [c] and timer
    [t], after the detach of a previous session. *)
Definition installTrace (p : Page) (c : Client) (t : Timer) : list Call :=
  [CreateCDPSession p;
   ClientSend c "Page.enable"; ClientSend c "Network.enable";
   ClientSend c "Runtime.enable"; ClientSend c "Log.enable";
   SetContext true; FireConnectionState; StatusBarShow;
   PageEvaluate p; SetInterval t; ClientListen c; StatusBarShow;
   ToastProgress "Successfully connected to tab"].

Definition detachTrace (s : State) : list Call :=
  match activePage s with
  | Some a => [ClientDetach (client a)]
  | None => []
  end.

(** The await at which a run of [disconnect] started in state [s] is
    first suspended. *)
Definition firstAwait (s : State) : Suspended :=
  match activePage s with Some _ => AwaitDetach | None => AwaitStop end.

Definition noPagesMessage : string :=
  "Failed to connect: No open pages found. Please open at least one tab in Chrome.".

(** The notification the handler of an event sends: console records go
    to the new-log emitter, network records to the [network] event. *)
Definition notificationOf `{JsNumbers} (x : Z * ProtocolEvent) : Call :=
  match snd x with
  | RuntimeConsoleAPICalled e => FireNewLog (consoleRecord (fst x) e)
  | LogEntryAdded entry => FireNewLog (entryRecord (fst x) entry)
  | NetworkResponseReceived response => EmitNetwork (responseRecord (fst x) response)
  | NetworkLoadingFailed errorText => EmitNetwork (failureRecord (fst x) errorText)
  end.

(** The user dismisses the list of pages. *)
Definition hostCancels : Host :=
  {| fails := fun _ _ => None;
     pagesOf := fun _ => [7];
     titleOf := fun _ => "Example";
     urlOf := fun _ => "http://localhost:3000/";
     choose := fun _ => None |}.

(** The browser has no open page. *)
Definition hostNoPages : Host :=
  {| fails := fun _ _ => None;
     pagesOf := fun _ => [];
     titleOf := fun _ => EmptyString;
     urlOf := fun _ => EmptyString;
     choose := fun _ => None |}.

(** The title of every page fails to load. *)
Definition hostTitleFails : Host :=
  onePage (fun c _ =>
             match c with
             | PageTitle _ => Some protocolError
             | _ => None
             end).
End MonitorExtra.

(** * ComposerIntegration, first revision

    The revision the command handlers are written against: one attempt per
    artifact, no clipboard verification, and the public entry points
    [sendLogs], [sendScreenshot] and [sendCapture]. *)

Module ComposerV1.

Definition Buffer := list Byte.byte.
Definition Page := nat.

(** The contents of the two arrays of a [LogData] when they are formatted. *)
Record LogArrays := {
  console_items : list BrowserLog;
  network_items : list NetworkRequest
}.

(** Calls into the host.  [delay] only lets time pass and is not recorded. *)
Inductive Call :=
| ExecuteCommand (command : string)
| ClearClipboard
| CopyImageToClipboard
| CopyTextToClipboard (text : string)
| FsMkdir
| FsWriteFile
| FsUnlink
| ToastShowError (msg : string)
| PageScreenshot (p : Page).

#[global] Instance Call_eq_dec : EqDecision Call.
Proof. solve_decision. Defined.

Definition openCommand : string :=
  "workbench.panel.composerViewPane2.resetViewContainerLocation".
Definition pasteCommand : string := "editor.action.clipboardPasteAction".
Definition openFailedMessage : string :=
  "Failed to open composer. Please make sure Cursor is installed and configured.".

Record State := {
  composerOpened : bool;
  calls : list Call
}.

Definition set_composerOpened (b : bool) (s : State) : State :=
  {| composerOpened := b; calls := calls s |}.

Definition record (c : Call) (s : State) : State :=
  {| composerOpened := composerOpened s; calls := calls s ++ [c] |}.

Definition occurrences (c : Call) (tr : list Call) : nat :=
  count_occ Call_eq_dec tr c.

(** [Array.prototype.join] on strings. *)
Fixpoint join (sep : string) (items : list string) : string :=
  match items with
  | [] => EmptyString
  | [x] => x
  | x :: rest => x +:+ sep +:+ join sep rest
  end.

Definition newline : string := "
".

Definition consoleMessage (log : BrowserLog) : string :=
  "[" +:+ logTypeName (log_type log) +:+ "] " +:+ log_text log.

Definition networkMessage (req : NetworkRequest) : string :=
  pretty (req_status req) +:+ " " +:+ req_url req +:+
  (if truthy_opt (req_error req)
   then " (Error: " +:+ default EmptyString (req_error req) +:+ ")"
   else EmptyString).

(** [formatLogContent] *)
Definition formatLogContent (logs : LogArrays) : string :=
  let consoleMessages := join newline (map consoleMessage (console_items logs)) in
  let networkMessages := join newline (map networkMessage (network_items logs)) in
  "Console Logs:
" +:+ consoleMessages +:+ "

Network Requests:
" +:+ networkMessages.

(** What the host returns when its calls succeed: a stub as for the later
    revision, and the image a page renders to. *)
Record Host := {
  fails : Call -> nat -> option JsError;
  shotOf : Page -> Buffer
}.

Section WithHost.
Variable host : Host.

Definition perform (c : Call) : M unit :=
  fun s => match fails host c (occurrences c (calls s)) with
           | None => (Ok tt, record c s)
           | Some e => (Throw e, record c s)
           end.

(** The toast service shows the message and returns. *)
Definition notify (c : Call) : M unit :=
  fun s => (Ok tt, record c s).

Definition delay (ms : nat) : M (S := State) unit := ret tt.

Definition openComposer : M unit :=
  let* opened := gets composerOpened in
  if opened then ret tt
  else
    try_catch
      (perform (ExecuteCommand openCommand) ;;
       modify (set_composerOpened true) ;;
       delay 100)
      (fun _ =>
         notify (ToastShowError openFailedMessage) ;;
         ret tt).

(** [saveScreenshotToTempFile]: the directory, then the file. *)
Definition saveScreenshotToTempFile (screenshot : Buffer) : M unit :=
  perform FsMkdir ;;
  perform FsWriteFile.

Definition wrapped (error : JsError) : JsError :=
  {| message := "Failed to send to composer: " +:+ message error |}.

Definition sendToComposer (screenshot : option Buffer) (logs : option LogArrays)
  : M unit :=
  try_catch
    (perform ClearClipboard ;;
     match screenshot with
     | Some shot =>
         saveScreenshotToTempFile shot ;;
         try_finally
           (perform CopyImageToClipboard ;;
            delay 50 ;;
            perform (ExecuteCommand pasteCommand) ;;
            delay 50)
           (try_catch (perform FsUnlink) (fun _ => ret tt))
     | None => ret tt
     end ;;
     match logs with
     | Some l =>
         perform (CopyTextToClipboard (formatLogContent l)) ;;
         delay 50 ;;
         perform (ExecuteCommand pasteCommand)
     | None => ret tt
     end)
    (fun error => throw (wrapped error)).

Definition captureScreenshot (page : Page) : M Buffer :=
  perform (PageScreenshot page) ;;
  ret (shotOf host page).

Definition formatAndSendLogs (logs : LogArrays) : M unit :=
  sendToComposer None (Some logs).

Definition sendLogs (logs : LogArrays) : M unit :=
  openComposer ;;
  formatAndSendLogs logs.

Definition sendScreenshot (page : Page) : M unit :=
  openComposer ;;
  let* screenshot := captureScreenshot page in
  sendToComposer (Some screenshot) None.

Definition sendCapture (page : Page) (logs : LogArrays) : M unit :=
  openComposer ;;
  let* screenshot := captureScreenshot page in
  sendToComposer (Some screenshot) (Some logs).
End WithHost.

(** ** Observations on a trace *)

Definition isOpen (c : Call) : bool :=
  match c with
  | ExecuteCommand cmd => String.eqb cmd openCommand
  | _ => false
  end.
Definition isUnlink (c : Call) : bool :=
  match c with FsUnlink => true | _ => false end.
Definition isTextCopy (c : Call) : bool :=
  match c with CopyTextToClipboard _ => true | _ => false end.
Definition isToast (c : Call) : bool :=
  match c with ToastShowError _ => true | _ => false end.
Definition isDelivery (c : Call) : bool :=
  match c with
  | ExecuteCommand _ | ToastShowError _ | PageScreenshot _ => false
  | _ => true
  end.

(** The answer of the host to the next call [c] in state [s]. *)
Definition answer (host : Host) (c : Call) (s : State) : option JsError :=
  fails host c (occurrences c (calls s)).

(** The calls of the image part and of the text part of one delivery. *)
Definition imagePart (screenshot : option Buffer) : list Call :=
  match screenshot with
  | Some _ => [FsMkdir; FsWriteFile; CopyImageToClipboard;
               ExecuteCommand pasteCommand; FsUnlink]
  | None => []
  end.

Definition textPart (logs : option LogArrays) : list Call :=
  match logs with
  | Some l => [CopyTextToClipboard (formatLogContent l); ExecuteCommand pasteCommand]
  | None => []
  end.

(** ** Hosts used in the examples *)

Definition freshState : State := {| composerOpened := false; calls := [] |}.
Definition openedState : State := {| composerOpened := true; calls := [] |}.

Definition pixel : Buffer := [Byte.x89; Byte.x50; Byte.x4e; Byte.x47].

Definition noLogs : LogArrays := {| console_items := []; network_items := [] |}.

Definition hostFine : Host :=
  {| fails := fun _ _ => None; shotOf := fun _ => pixel |}.

Definition renderError : JsError := {| message := "Target closed" |}.

(** The page cannot be rendered. *)
Definition hostNoScreenshot : Host :=
  {| fails := fun c _ => match c with
                         | PageScreenshot _ => Some renderError
                         | _ => None
                         end;
     shotOf := fun _ => pixel |}.

(** Pasting fails. *)
Definition hostPasteFails : Host :=
  {| fails := fun c _ => match c with
                         | ExecuteCommand cmd =>
                             if String.eqb cmd pasteCommand
                             then Some renderError else None
                         | _ => None
                         end;
     shotOf := fun _ => pixel |}.
End ComposerV1.

(** * CommandHandlers

    The commands of the extension, over the monitor and the first revision
    of the composer integration. *)

Module Commands.

(** Calls of the handlers into the editor's windows. *)
Inductive UiCall :=
| ShowErrorMessage (msg : string)
| ShowWarningMessage.

Record World := {
  monitor : Monitor.State;
  composer : ComposerV1.State;
  ui : list UiCall
}.

Definition set_monitor (m : Monitor.State) (w : World) : World :=
  {| monitor := m; composer := composer w; ui := ui w |}.

Definition set_composer (c : ComposerV1.State) (w : World) : World :=
  {| monitor := monitor w; composer := c; ui := ui w |}.

Definition record (c : UiCall) (w : World) : World :=
  {| monitor := monitor w; composer := composer w; ui := ui w ++ [c] |}.

Definition isWarning (c : UiCall) : bool :=
  match c with ShowWarningMessage => true | _ => false end.

(** The hosts of the two services, and the user in front of the modal
    question: whether showing it fails, and the button pressed ([None]
    when the question is dismissed). *)
Record Host := {
  monitorHost : Monitor.Host;
  composerHost : ComposerV1.Host;
  warningFails : nat -> option JsError;
  warningAnswer : nat -> option string
}.

Definition notConnectedMessage : string :=
  "No browser tab connected. Please connect to a tab first.".
Definition noPageForScreenshotMessage : string :=
  "Failed to get page for screenshot. Please try reconnecting.".
Definition noPageForCaptureMessage : string :=
  "Failed to get page for capture. Please try reconnecting.".

(** A method of the monitor, run on the monitor of the world. *)
Definition onMonitor {A} (m : M (S := Monitor.State) A) : M (S := World) A :=
  fun w => let '(r, s) := m (monitor w) in (r, set_monitor s w).

Definition onComposer {A} (m : M (S := ComposerV1.State) A) : M (S := World) A :=
  fun w => let '(r, s) := m (composer w) in (r, set_composer s w).

(** The arrays a [LogData] refers to, as the composer reads them. *)
Definition arraysOf (s : Monitor.State) (d : LogData) : ComposerV1.LogArrays :=
  {| ComposerV1.console_items := Monitor.consoleOf s d;
     ComposerV1.network_items := Monitor.networkOf s d |}.

Section WithHost.
Variable host : Host.

(** [vscode.window.showErrorMessage], not awaited. *)
Definition showErrorMessage (msg : string) : M unit :=
  fun w => (Ok tt, record (ShowErrorMessage msg) w).

(** The modal question of [handleClearLogs], awaited. *)
Definition showWarningMessage : M (option string) :=
  fun w =>
    let n := count_calls isWarning (ui w) in
    match warningFails host n with
    | Some e => (Throw e, record ShowWarningMessage w)
    | None => (Ok (warningAnswer host n), record ShowWarningMessage w)
    end.

Definition handleClearLogs : M unit :=
  let* connected := onMonitor Monitor.isConnected in
  if negb connected then showErrorMessage notConnectedMessage
  else
    let* result := showWarningMessage in
    if bool_decide (result = Some "Yes")
    then onMonitor Monitor.clearLogs
    else ret tt.

Definition handleSendLogs : M unit :=
  let* connected := onMonitor Monitor.isConnected in
  if negb connected then showErrorMessage notConnectedMessage
  else
    let* d := onMonitor Monitor.getLogs in
    let* logs := gets (fun w => arraysOf (monitor w) d) in
    onComposer (ComposerV1.sendLogs (composerHost host) logs).

Definition handleSendScreenshot : M unit :=
  let* connected := onMonitor Monitor.isConnected in
  if negb connected then showErrorMessage notConnectedMessage
  else
    let* page := onMonitor (Monitor.getPageForScreenshot (monitorHost host)) in
    match page with
    | None => showErrorMessage noPageForScreenshotMessage
    | Some p => onComposer (ComposerV1.sendScreenshot (composerHost host) p)
    end.

Definition handleCapture : M unit :=
  try_catch
    (let* page := onMonitor (Monitor.getPageForScreenshot (monitorHost host)) in
     let* connected := onMonitor Monitor.isConnected in
     if negb connected then showErrorMessage notConnectedMessage
     else
       match page with
       | None => showErrorMessage noPageForCaptureMessage
       | Some p =>
           let* d := onMonitor Monitor.getLogs in
           let* logs := gets (fun w => arraysOf (monitor w) d) in
           onComposer (ComposerV1.sendCapture (composerHost host) p logs)
       end)
    (fun error =>
       showErrorMessage ("Failed to capture tab state: " +:+ message error)).

Definition handleSmartCapture : M unit :=
  let* connected := onMonitor Monitor.isConnected in
  if connected then handleCapture
  else onMonitor (Monitor.connect (monitorHost host)).
End WithHost.

(** ** The probe of the active page *)

(** The answer of the host to the probe of the active page [a] in monitor
    state [s]. *)
Definition probe (host : Host) (a : Monitor.ActivePage) (s : Monitor.State)
  : option JsError :=
  Monitor.fails (monitorHost host) (Monitor.PageEvaluate (Monitor.page a))
    (Monitor.occurrences (Monitor.PageEvaluate (Monitor.page a)) (Monitor.calls s)).

(** The monitor after a successful probe. *)
Definition probed (a : Monitor.ActivePage) (s : Monitor.State) : Monitor.State :=
  Monitor.record (Monitor.PageEvaluate (Monitor.page a)) s.

(** The monitor after a failed probe: disconnected when it was connected. *)
Definition lost (a : Monitor.ActivePage) (s : Monitor.State) : Monitor.State :=
  if Monitor._isConnected s
  then Monitor.disconnected (Monitor.record Monitor.ToastSessionDisconnected (probed a s))
  else probed a s.

(** The logs as [getLogs] hands them to the composer in monitor state [s]. *)
Definition currentLogs (s : Monitor.State) : ComposerV1.LogArrays :=
  arraysOf s {| console := Monitor.consoleLogs s; network := Monitor.networkLogs s |}.

Definition captureFailedMessage (error : JsError) : string :=
  "Failed to capture tab state: " +:+ message error.

Definition isNoPageForCapture (c : UiCall) : bool :=
  match c with
  | ShowErrorMessage msg => String.eqb msg noPageForCaptureMessage
  | _ => false
  end.

(** ** Worlds and hosts used in the examples *)

Definition initialWorld : World :=
  {| monitor := Monitor.initialState;
     composer := ComposerV1.freshState;
     ui := [] |}.

(** The world after a successful [connect]. *)
Definition connectedWorld : World :=
  {| monitor := snd (Monitor.connect Monitor.hostHealthy Monitor.initialState);
     composer := ComposerV1.freshState;
     ui := [] |}.

(** Nothing fails and the user answers [answer]. *)
Definition hostAnswering (answer : option string) : Host :=
  {| monitorHost := Monitor.hostHealthy;
     composerHost := ComposerV1.hostFine;
     warningFails := fun _ => None;
     warningAnswer := fun _ => answer |}.

(** The page is connected but cannot be rendered. *)
Definition hostRenderFails : Host :=
  {| monitorHost := Monitor.hostHealthy;
     composerHost := ComposerV1.hostNoScreenshot;
     warningFails := fun _ => None;
     warningAnswer := fun _ => None |}.

(** The page is rendered but pasting fails. *)
Definition hostDeliveryFails : Host :=
  {| monitorHost := Monitor.hostHealthy;
     composerHost := ComposerV1.hostPasteFails;
     warningFails := fun _ => None;
     warningAnswer := fun _ => None |}.

(** The probe of the page fails. *)
Definition hostProbeLost : Host :=
  {| monitorHost := Monitor.hostEvaluateFails;
     composerHost := ComposerV1.hostFine;
     warningFails := fun _ => None;
     warningAnswer := fun _ => None |}.
End Commands.
(** * Facts shared by both classes *)

Lemma count_calls_app {A} (p : A -> bool) tr1 tr2 :
  count_calls p (tr1 ++ tr2) = count_calls p tr1 + count_calls p tr2.
Proof. induction tr1 as [|c tr1 IH]; cbn; [reflexivity | rewrite IH; lia]. Qed.

(** * Proofs about ComposerIntegration *)

Module ComposerProofs.
Import Composer.

#[local] Arguments occurrences : simpl never.
#[local] Arguments perform : simpl never.
#[local] Arguments verifications : simpl never.

Lemma occurrences_app c tr1 tr2 :
  occurrences c (tr1 ++ tr2) = occurrences c tr1 + occurrences c tr2.
Proof. apply count_occ_app. Qed.

Lemma truthy_append_l a b : truthy a = true -> truthy (a +:+ b) = true.
Proof. destruct a; [discriminate | reflexivity]. Qed.

Lemma truthy_fold_left {A} (f : A -> string) l acc :
  truthy acc = true ->
  truthy (fold_left (fun a x => a +:+ f x) l acc) = true.
Proof.
  revert acc. induction l as [|x l IH]; intros acc H; cbn; [exact H|].
  apply IH, truthy_append_l, H.
Qed.

Lemma truthy_formatLogs logs : truthy (formatLogs logs) = true.
Proof.
  unfold formatLogs. apply truthy_fold_left, truthy_append_l, truthy_fold_left.
  reflexivity.
Qed.

Section AnyStub.
Variable stub : Call -> nat -> option JsError.
Variable screenshot : option Buffer.
Variable formattedLogs : string.

Ltac destruct_stub :=
  repeat match goal with
  | |- context [stub ?c ?n] => destruct (stub c n)
  end.

Ltac unfold_ops :=
  unfold openComposer, showSuccessNotification,
    sendImageToComposer, prepareTextForComposer, mkdirAndWrite,
    try_finally, try_catch, bind, perform, notify, delay, modify, gets, ret, throw,
    record, set_composerOpened.

Ltac finish_trace :=
  cbn; rewrite <- ?app_assoc; eexists; (split; [reflexivity|]).

Lemma openComposer_spec s :
  fst (openComposer stub s) = Ok tt
  /\ exists tr, calls (snd (openComposer stub s)) = calls s ++ tr
       /\ profile tr = (0, 0, (0, 0)).
Proof.
  unfold_ops. destruct (composerOpened s); cbn.
  - split; [reflexivity|]. exists []. rewrite app_nil_r. auto.
  - destruct_stub; cbn; (split; [reflexivity|]); finish_trace; reflexivity.
Qed.

Lemma sendImageToComposer_spec shot s :
  exists tr, calls (snd (sendImageToComposer stub shot s)) = calls s ++ tr
    /\ profile tr = (1, 0, (0, 0)).
Proof.
  unfold_ops. destruct_stub; finish_trace; reflexivity.
Qed.

Lemma prepareTextForComposer_spec s :
  truthy formattedLogs = true ->
  exists tr, calls (snd (prepareTextForComposer stub formattedLogs s)) = calls s ++ tr
    /\ profile tr = (0, 1, (0, 0)).
Proof.
  intros Ht. unfold_ops. rewrite Ht. cbn.
  destruct_stub; finish_trace; reflexivity.
Qed.

Lemma perform_calls c s : calls (snd (perform stub c s)) = calls s ++ [c].
Proof. unfold perform. destruct (stub c _); reflexivity. Qed.

Ltac run_perform c s :=
  let H := fresh "Hc" in
  pose proof (perform_calls c s) as H;
  destruct (perform stub c s) as [[[]|?] ?]; cbn in H.

Ltac skip_step :=
  exists []; rewrite app_nil_r; cbn; repeat split; try lia;
  match goal with H : Ok _ = Ok _ |- _ => injection H as <- end;
  solve [assumption | reflexivity].

Ltac close_step Hrw :=
  split; [rewrite Hrw; rewrite <- ?app_assoc; reflexivity|];
  cbn; rewrite ?count_calls_app; cbn;
  repeat split; try lia; try discriminate;
  try match goal with H : Ok _ = Ok _ |- _ => injection H as <- end;
  cbn; auto.

Lemma imageStep_spec v s :
  exists tr, calls (snd (imageStep stub screenshot v s)) = calls s ++ tr
    /\ count_calls isImageAttempt tr <= (if imgActive screenshot v then 1 else 0)
    /\ count_calls isTextAttempt tr = 0
    /\ forall v', fst (imageStep stub screenshot v s) = Ok v' ->
         stepI screenshot v v' /\ textSuccess v' = textSuccess v
         /\ textAttempt v' = textAttempt v.
Proof.
  unfold imageStep, stepI, imgActive.
  destruct screenshot as [shot|]; cbn; [|skip_step].
  destruct (imageSuccess v) eqn:Ei; cbn; [skip_step|].
  unfold try_catch, bind, ret, throw, delay.
  run_perform ClearClipboard s; cbn.
  2:{ exists [ClearClipboard]. close_step Hc. }
  destruct (sendImageToComposer_spec shot s0) as (tr & Htr & Hp).
  injection Hp as Hp1 Hp2 _ _.
  destruct (sendImageToComposer stub shot s0) as [[[]|e] s1]; cbn in Htr |- *.
  - rewrite Hc in Htr.
    run_perform (VerifyClipboardContent ImageContent) s1; cbn; rewrite Htr in Hc0.
    + exists (ClearClipboard :: tr ++ [VerifyClipboardContent ImageContent]).
      close_step Hc0; lia.
    + destruct (Nat.eqb_spec (imageAttempt v) maxRetries); cbn;
        exists (ClearClipboard :: tr ++ [VerifyClipboardContent ImageContent]);
        close_step Hc0; lia.
  - rewrite Hc in Htr.
    destruct (Nat.eqb_spec (imageAttempt v) maxRetries); cbn;
      exists (ClearClipboard :: tr); close_step Htr; lia.
Qed.

Lemma textStep_spec v s :
  exists tr, calls (snd (textStep stub formattedLogs v s)) = calls s ++ tr
    /\ count_calls isImageAttempt tr = 0
    /\ count_calls isTextAttempt tr <= (if txtActive formattedLogs v then 1 else 0)
    /\ forall v', fst (textStep stub formattedLogs v s) = Ok v' ->
         stepT formattedLogs v v' /\ imageSuccess v' = imageSuccess v
         /\ imageAttempt v' = imageAttempt v.
Proof.
  unfold textStep, stepT, txtActive.
  destruct (truthy formattedLogs) eqn:Et; cbn; [|skip_step].
  destruct (textSuccess v) eqn:Ett; cbn; [skip_step|].
  unfold try_catch, bind, ret, throw, delay.
  run_perform ClearClipboard s; cbn.
  2:{ exists [ClearClipboard]. close_step Hc. }
  destruct (prepareTextForComposer_spec s0 Et) as (tr & Htr & Hp).
  injection Hp as Hp1 Hp2 _ _.
  destruct (prepareTextForComposer stub formattedLogs s0) as [[[]|e] s1];
    cbn in Htr |- *.
  - rewrite Hc in Htr.
    run_perform (VerifyClipboardContent TextContent) s1; cbn; rewrite Htr in Hc0.
    + exists (ClearClipboard :: tr ++ [VerifyClipboardContent TextContent]).
      close_step Hc0; lia.
    + destruct (Nat.eqb_spec (textAttempt v) maxRetries); cbn;
        exists (ClearClipboard :: tr ++ [VerifyClipboardContent TextContent]);
        close_step Hc0; lia.
  - rewrite Hc in Htr.
    destruct (Nat.eqb_spec (textAttempt v) maxRetries); cbn;
      exists (ClearClipboard :: tr); close_step Htr; lia.
Qed.

Lemma iteration_spec v s :
  exists tr,
    snd (iteration stub screenshot formattedLogs v s)
      = {| composerOpened := false; calls := calls s ++ tr |}
    /\ count_calls isImageAttempt tr <= (if imgActive screenshot v then 1 else 0)
    /\ count_calls isTextAttempt tr <= (if txtActive formattedLogs v then 1 else 0)
    /\ match fst (iteration stub screenshot formattedLogs v s) with
       | Ok (Continue v') => stepRel screenshot formattedLogs v v'
       | _ => True
       end.
Proof.
  unfold iteration, try_finally, try_catch, bind, modify, set_composerOpened,
    notify, throw, record, showSuccessNotification.
  destruct (openComposer_spec s) as (Hr0 & tr0 & Htr0 & Hp0).
  destruct (openComposer stub s) as [r0 s0]; cbn in Hr0, Htr0; subst r0.
  injection Hp0 as Hi0 Ht0 _ _.
  destruct (imageStep_spec v s0) as (tr1 & Htr1 & Hi1 & Ht1 & Hv1).
  destruct (imageStep stub screenshot v s0) as [[v1|e1] s1]; cbn in Htr1, Hv1.
  2:{ cbn. rewrite Htr1, Htr0, <- !app_assoc. eexists; split; [reflexivity|].
      rewrite !count_calls_app; cbn.
      destruct (txtActive formattedLogs v); repeat split; lia. }
  destruct (Hv1 v1 eq_refl) as (Hs1 & Hts1 & Hta1).
  destruct (textStep_spec v1 s1) as (tr2 & Htr2 & Hi2 & Ht2 & Hv2).
  assert (Hact : txtActive formattedLogs v1 = txtActive formattedLogs v)
    by (unfold txtActive; rewrite Hts1; reflexivity).
  rewrite Hact in Ht2.
  destruct (textStep stub formattedLogs v1 s1) as [[v2|e2] s2]; cbn in Htr2, Hv2.
  2:{ cbn. rewrite Htr2, Htr1, Htr0, <- !app_assoc. eexists; split; [reflexivity|].
      rewrite !count_calls_app; cbn. repeat split; lia. }
  destruct (Hv2 v2 eq_refl) as (Hs2 & His2 & Hia2).
  assert (Hrel : stepRel screenshot formattedLogs v v2).
  { unfold stepRel, stepI, stepT in *. rewrite Hact in Hs2.
    rewrite His2, Hia2, <- Hts1, <- Hta1. split; assumption. }
  destruct (allDone screenshot formattedLogs v2); cbn.
  - unfold perform. destruct_stub; cbn;
      rewrite Htr2, Htr1, Htr0, <- !app_assoc; (eexists; split; [reflexivity|]);
      rewrite !count_calls_app; cbn; repeat split; lia.
  - rewrite Htr2, Htr1, Htr0, <- !app_assoc. eexists; split; [reflexivity|].
    rewrite !count_calls_app; cbn. split; [lia|]. split; [lia|]. exact Hrel.
Qed.

Lemma stepRel_left v v' :
  Inv screenshot formattedLogs v -> stepRel screenshot formattedLogs v v' ->
  Inv screenshot formattedLogs v'
  /\ left_I screenshot v' <= left_I screenshot v - 1
  /\ left_T formattedLogs v' <= left_T formattedLogs v - 1.
Proof.
  unfold Inv, stepRel, stepI, stepT, left_I, left_T, imgActive, txtActive,
    maxRetries.
  intros [Hi Ht] [Ri Rt].
  destruct (bool_decide (is_Some screenshot)), (truthy formattedLogs),
    (imageSuccess v), (textSuccess v); cbn in *;
  repeat match goal with
         | H : _ \/ _ |- _ => destruct H
         | H : _ /\ _ |- _ => destruct H
         end;
  repeat match goal with
         | H : imageSuccess v' = _ |- _ => rewrite H; clear H
         | H : textSuccess v' = _ |- _ => rewrite H; clear H
         end;
  cbn; repeat split; intros; try discriminate; try lia;
  try (specialize (Hi eq_refl)); try (specialize (Ht eq_refl)); lia.
Qed.

Lemma loopCondition_left v :
  loopCondition screenshot formattedLogs v = true ->
  1 <= mu screenshot formattedLogs v.
Proof.
  unfold loopCondition, mu, left_I, left_T, imgActive, txtActive, maxRetries.
  destruct (bool_decide (is_Some screenshot)), (truthy formattedLogs),
    (imageSuccess v), (textSuccess v); cbn; try discriminate;
  rewrite ?orb_false_r; intros H;
  try apply orb_true_iff in H; try destruct H as [H|H];
  apply Nat.leb_le in H; lia.
Qed.

Lemma loop_total fuel : forall v s,
  Inv screenshot formattedLogs v -> mu screenshot formattedLogs v <= fuel ->
  fst (loop stub screenshot formattedLogs fuel v s) <> Ok None.
Proof.
  induction fuel as [|fuel IH]; intros v s HI Hmu.
  - cbn. destruct (loopCondition screenshot formattedLogs v) eqn:E.
    + apply loopCondition_left in E. lia.
    + cbn. discriminate.
  - cbn. destruct (loopCondition screenshot formattedLogs v) eqn:E;
      [|cbn; discriminate].
    unfold bind. destruct (iteration_spec v s) as (tr & _ & _ & _ & Hr).
    destruct (iteration stub screenshot formattedLogs v s) as [[[v'|]|e] s1];
      cbn in *; try discriminate.
    destruct (stepRel_left _ _ HI Hr) as (HI' & Hl1 & Hl2).
    apply IH; [exact HI'|]. unfold mu in *. lia.
Qed.

Lemma loop_fuel_mono fuel : forall v s,
  fst (loop stub screenshot formattedLogs fuel v s) <> Ok None ->
  loop stub screenshot formattedLogs (S fuel) v s
  = loop stub screenshot formattedLogs fuel v s.
Proof.
  induction fuel as [|fuel IH]; intros v s Hn.
  - cbn in *. destruct (loopCondition screenshot formattedLogs v); [|reflexivity].
    cbn in Hn. congruence.
  - change (loop stub screenshot formattedLogs (S (S fuel)) v s)
      with ((if loopCondition screenshot formattedLogs v
             then let* flow := iteration stub screenshot formattedLogs v in
                  match flow with
                  | Return => ret (Some tt)
                  | Continue v' => loop stub screenshot formattedLogs (S fuel) v'
                  end
             else ret (Some tt)) s).
    change (loop stub screenshot formattedLogs (S fuel) v s)
      with ((if loopCondition screenshot formattedLogs v
             then let* flow := iteration stub screenshot formattedLogs v in
                  match flow with
                  | Return => ret (Some tt)
                  | Continue v' => loop stub screenshot formattedLogs fuel v'
                  end
             else ret (Some tt)) s) in Hn |- *.
    destruct (loopCondition screenshot formattedLogs v); [|reflexivity].
    unfold bind in *.
    destruct (iteration stub screenshot formattedLogs v s) as [[[v'|]|e] s1];
      try reflexivity.
    apply IH, Hn.
Qed.

Lemma loop_fuel_ge fuel fuel' v s :
  fuel <= fuel' ->
  fst (loop stub screenshot formattedLogs fuel v s) <> Ok None ->
  loop stub screenshot formattedLogs fuel' v s
  = loop stub screenshot formattedLogs fuel v s.
Proof.
  induction 1 as [|m Hle IH]; intros Hn; [reflexivity|].
  rewrite loop_fuel_mono; [apply IH, Hn|]. rewrite IH; assumption.
Qed.

Lemma loop_attempts fuel : forall v s,
  Inv screenshot formattedLogs v ->
  imageAttempts (snd (loop stub screenshot formattedLogs fuel v s))
    <= imageAttempts s + left_I screenshot v
  /\ textAttempts (snd (loop stub screenshot formattedLogs fuel v s))
    <= textAttempts s + left_T formattedLogs v.
Proof.
  induction fuel as [|fuel IH]; intros v s HI.
  - cbn. destruct (loopCondition screenshot formattedLogs v); cbn; lia.
  - cbn. destruct (loopCondition screenshot formattedLogs v) eqn:E; [|cbn; lia].
    unfold bind. destruct (iteration_spec v s) as (tr & Hs & Hci & Hct & Hr).
    assert (Hbi : (if imgActive screenshot v then 1 else 0) <= left_I screenshot v
                  /\ (imgActive screenshot v = false -> left_I screenshot v = 0)).
    { unfold left_I. destruct HI as [Hi _]. unfold maxRetries in Hi.
      destruct (imgActive screenshot v); [specialize (Hi eq_refl)|];
        split; intros; try lia; discriminate. }
    assert (Hbt : (if txtActive formattedLogs v then 1 else 0)
                    <= left_T formattedLogs v
                  /\ (txtActive formattedLogs v = false
                      -> left_T formattedLogs v = 0)).
    { unfold left_T. destruct HI as [_ Ht]. unfold maxRetries in Ht.
      destruct (txtActive formattedLogs v); [specialize (Ht eq_refl)|];
        split; intros; try lia; discriminate. }
    destruct (iteration stub screenshot formattedLogs v s) as [[[v'|]|e] s1];
      cbn in Hs, Hr |- *; subst s1;
      unfold imageAttempts, textAttempts in *; cbn [calls];
      rewrite ?count_calls_app; try lia.
    destruct (stepRel_left _ _ HI Hr) as (HI' & Hl1 & Hl2).
    destruct (IH v' {| composerOpened := false; calls := calls s ++ tr |} HI')
      as [A B].
    cbn [calls] in A, B. rewrite count_calls_app in A, B.
    destruct (imgActive screenshot v), (txtActive formattedLogs v); lia.
Qed.

Lemma loop_released fuel : forall v s,
  composerOpened s = false \/ loopCondition screenshot formattedLogs v = true ->
  fst (loop stub screenshot formattedLogs fuel v s) <> Ok None ->
  composerOpened (snd (loop stub screenshot formattedLogs fuel v s)) = false.
Proof.
  induction fuel as [|fuel IH]; intros v s Hs Hn.
  - cbn in *. destruct (loopCondition screenshot formattedLogs v); cbn in *;
      [congruence|]. destruct Hs; [assumption | discriminate].
  - cbn in *. destruct (loopCondition screenshot formattedLogs v); cbn in *;
      [|destruct Hs; [assumption | discriminate]].
    unfold bind in *. destruct (iteration_spec v s) as (tr & Hs1 & _).
    destruct (iteration stub screenshot formattedLogs v s) as [[[v'|]|e] s1];
      cbn in Hs1 |- *; subst s1; try reflexivity.
    apply IH; [left; reflexivity | exact Hn].
Qed.


(** *** With a clipboard that fails only in verification *)

Hypothesis Honly : only_verification_fails stub.

Let hasImage : bool := bool_decide (is_Some screenshot).
Let hasText : bool := truthy formattedLogs.

Lemma perform_only c s :
  isVerify c = false -> perform stub c s = (Ok tt, extend [c] s).
Proof. intros Hc. unfold perform. rewrite (Honly c _ Hc). reflexivity. Qed.

Lemma extend_extend tr1 tr2 s :
  extend tr2 (extend tr1 s) = extend (tr1 ++ tr2) s.
Proof. unfold extend. cbn. rewrite app_assoc. reflexivity. Qed.

Lemma extend_nil s : extend [] s = s.
Proof. destruct s. unfold extend. cbn. rewrite app_nil_r. reflexivity. Qed.

Lemma sendImageToComposer_only shot s :
  sendImageToComposer stub shot s
  = (Ok tt, extend [FsMkdir; FsWriteFile; CopyImageToClipboard;
                    ExecuteCommand pasteCommand; FsUnlink] s).
Proof.
  unfold sendImageToComposer, mkdirAndWrite, try_finally, try_catch, bind,
    delay, ret.
  repeat (progress (rewrite ?perform_only by reflexivity; cbn)).
  rewrite !extend_extend. reflexivity.
Qed.

Lemma prepareTextForComposer_only s :
  truthy formattedLogs = true ->
  prepareTextForComposer stub formattedLogs s
  = (Ok tt, extend [CopyTextToClipboard formattedLogs;
                    ExecuteCommand pasteCommand] s).
Proof.
  intros Ht. unfold prepareTextForComposer, bind, delay, ret. rewrite Ht. cbn.
  repeat (progress (rewrite ?perform_only by reflexivity; cbn)).
  rewrite !extend_extend. reflexivity.
Qed.

Lemma occurrences_extend c tr s :
  occurrences c (calls (extend tr s))
  = occurrences c (calls s) + occurrences c tr.
Proof. apply occurrences_app. Qed.

Lemma imageStep_abs v s :
  imageStep stub screenshot v s
  = (fst (absImage stub hasImage v (verifications ImageContent s)),
     extend (if imgActive screenshot v then imageTrace else []) s).
Proof.
  subst hasImage. unfold imageStep, absImage, imgActive, verifications.
  destruct screenshot as [shot|]; cbn; [|rewrite extend_nil; reflexivity].
  destruct (imageSuccess v); cbn; [rewrite extend_nil; reflexivity|].
  unfold try_catch, bind, ret, throw, delay.
  rewrite perform_only by reflexivity.
  rewrite sendImageToComposer_only. unfold perform.
  rewrite !extend_extend, !occurrences_extend. cbn [app].
  change (occurrences (VerifyClipboardContent ImageContent) _ + _)
    with (occurrences (VerifyClipboardContent ImageContent) (calls s) + 0).
  rewrite Nat.add_0_r.
  change (record ?c ?x) with (extend [c] x). rewrite extend_extend. cbn [app].
  destruct (stub (VerifyClipboardContent ImageContent) _); cbn.
  - destruct (Nat.eqb (imageAttempt v) maxRetries); reflexivity.
  - reflexivity.
Qed.

Lemma textStep_abs v s :
  textStep stub formattedLogs v s
  = (fst (absText stub hasText v (verifications TextContent s)),
     extend (if txtActive formattedLogs v then textTrace formattedLogs else []) s).
Proof.
  subst hasText. unfold textStep, absText, txtActive, verifications.
  destruct (truthy formattedLogs) eqn:Et; cbn; [|rewrite extend_nil; reflexivity].
  destruct (textSuccess v); cbn; [rewrite extend_nil; reflexivity|].
  unfold try_catch, bind, ret, throw, delay.
  rewrite perform_only by reflexivity.
  rewrite prepareTextForComposer_only by exact Et. unfold perform.
  rewrite !extend_extend, !occurrences_extend. cbn [app].
  change (occurrences (VerifyClipboardContent TextContent) _ + _)
    with (occurrences (VerifyClipboardContent TextContent) (calls s) + 0).
  rewrite Nat.add_0_r.
  change (record ?c ?x) with (extend [c] x). rewrite extend_extend. cbn [app].
  destruct (stub (VerifyClipboardContent TextContent) _); cbn.
  - destruct (Nat.eqb (textAttempt v) maxRetries); reflexivity.
  - reflexivity.
Qed.

Lemma absImage_count v n :
  snd (absImage stub hasImage v n) = n + (if imgActive screenshot v then 1 else 0).
Proof.
  subst hasImage. unfold absImage, imgActive.
  destruct (bool_decide _ && negb _); cbn; [|lia].
  destruct (stub _ _); [destruct (Nat.eqb _ _)|]; cbn; lia.
Qed.

Lemma absText_count v n :
  snd (absText stub hasText v n) = n + (if txtActive formattedLogs v then 1 else 0).
Proof.
  subst hasText. unfold absText, txtActive.
  destruct (truthy _ && negb _); cbn; [|lia].
  destruct (stub _ _); [destruct (Nat.eqb _ _)|]; cbn; lia.
Qed.

Lemma absImage_text v n v' :
  fst (absImage stub hasImage v n) = Ok v' -> txtActive formattedLogs v' = txtActive formattedLogs v.
Proof.
  unfold absImage, txtActive.
  destruct (hasImage && negb _); cbn; [|intros [= <-]; reflexivity].
  destruct (stub _ _); [destruct (Nat.eqb _ _)|]; cbn;
    try discriminate; intros [= <-]; reflexivity.
Qed.

Lemma openComposer_calls s :
  exists tr, openComposer stub s
             = (Ok tt, {| composerOpened := true; calls := calls s ++ tr |})
    /\ profile tr = (0, 0, (0, 0)).
Proof.
  unfold openComposer, try_catch, bind, gets, modify, delay, ret,
    set_composerOpened.
  destruct s as [[] tr0]; cbn.
  - exists []. rewrite app_nil_r. split; reflexivity.
  - rewrite perform_only by reflexivity. cbn.
    exists [ExecuteCommand openCommand]. split; reflexivity.
Qed.

Lemma occurrences_known k :
  occurrences (VerifyClipboardContent k) imageTrace
    = match k with ImageContent => 1 | TextContent => 0 end
  /\ occurrences (VerifyClipboardContent k) (textTrace formattedLogs)
    = match k with ImageContent => 0 | TextContent => 1 end
  /\ occurrences (VerifyClipboardContent k) [] = 0
  /\ (forall msg, occurrences (VerifyClipboardContent k) [ShowErrorMessage msg] = 0)
  /\ (forall t, occurrences (VerifyClipboardContent k) [WithProgress t] = 0).
Proof. destruct k; repeat split. Qed.

Ltac count_known :=
  repeat match goal with
  | |- context [occurrences (VerifyClipboardContent ?k) ?tr] =>
      lazymatch tr with
      | calls _ => fail
      | _ => first
          [ rewrite (proj1 (occurrences_known k))
          | rewrite (proj1 (proj2 (occurrences_known k)))
          | rewrite (proj1 (proj2 (proj2 (occurrences_known k))))
          | rewrite (proj1 (proj2 (proj2 (proj2 (occurrences_known k)))))
          | rewrite (proj2 (proj2 (proj2 (proj2 (occurrences_known k))))) ]
      end
  end; cbn.

Lemma iteration_abs v s :
  let r := iteration stub screenshot formattedLogs v s in
  let a := absIteration stub hasImage hasText v
             (verifications ImageContent s) (verifications TextContent s) in
  fst r = fst a
  /\ verifications ImageContent (snd r) = fst (snd a)
  /\ verifications TextContent (snd r) = snd (snd a)
  /\ imageAttempts (snd r) + verifications ImageContent s
     = imageAttempts s + fst (snd a)
  /\ textAttempts (snd r) + verifications TextContent s
     = textAttempts s + snd (snd a).
Proof.
  cbv zeta.
  unfold iteration, absIteration, try_finally, try_catch, bind, modify,
    set_composerOpened, notify, throw, record, showSuccessNotification, ret.
  destruct (openComposer_calls s) as (tr0 & -> & Hp0).
  injection Hp0 as Hi0 Ht0 HvI0 HvT0.
  set (s0 := {| composerOpened := true; calls := calls s ++ tr0 |}).
  assert (HI0 : verifications ImageContent s0 = verifications ImageContent s)
    by (unfold verifications, s0; cbn; rewrite occurrences_app, HvI0; lia).
  assert (HT0 : verifications TextContent s0 = verifications TextContent s)
    by (unfold verifications, s0; cbn; rewrite occurrences_app, HvT0; lia).
  rewrite imageStep_abs, HI0.
  pose proof (absImage_count v (verifications ImageContent s)) as HcI.
  pose proof (absImage_text v (verifications ImageContent s)) as HtI.
  destruct (absImage stub hasImage v (verifications ImageContent s))
    as [[v1|e1] nI']; cbn in HcI, HtI |- *.
  2:{ unfold verifications, imageAttempts, textAttempts in *. cbn.
      rewrite !occurrences_app, !count_calls_app, HvI0, HvT0, Hi0, Ht0, HcI.
      destruct (imgActive screenshot v); count_known; repeat split; lia. }
  specialize (HtI v1 eq_refl).
  rewrite textStep_abs.
  assert (HT1 : verifications TextContent
                  (extend (if imgActive screenshot v then imageTrace else []) s0)
                = verifications TextContent s).
  { rewrite <- HT0. unfold verifications. rewrite occurrences_extend.
    destruct (imgActive screenshot v); count_known; lia. }
  rewrite HT1.
  pose proof (absText_count v1 (verifications TextContent s)) as HcT.
  rewrite HtI in *.
  destruct (absText stub hasText v1 (verifications TextContent s))
    as [[v2|e2] nT']; cbn in HcT |- *.
  2:{ unfold verifications, imageAttempts, textAttempts in *. cbn.
      rewrite !occurrences_app, !count_calls_app, HvI0, HvT0, Hi0, Ht0, HcI, HcT.
      destruct (imgActive screenshot v), (txtActive formattedLogs v); count_known;
      repeat split; lia. }
  change (allDone screenshot formattedLogs v2) with (absDone hasImage hasText v2).
  destruct (absDone hasImage hasText v2); cbn.
  - rewrite perform_only by reflexivity. cbn.
    unfold verifications, imageAttempts, textAttempts in *. cbn.
    rewrite !occurrences_app, !count_calls_app, HvI0, HvT0, Hi0, Ht0, HcI, HcT.
    destruct (imgActive screenshot v), (txtActive formattedLogs v); count_known;
      repeat split; lia.
  - unfold verifications, imageAttempts, textAttempts in *. cbn.
    rewrite !occurrences_app, !count_calls_app, HvI0, HvT0, Hi0, Ht0, HcI, HcT.
    destruct (imgActive screenshot v), (txtActive formattedLogs v); count_known;
      repeat split; lia.
Qed.

Lemma loop_abs fuel : forall v s,
  let r := loop stub screenshot formattedLogs fuel v s in
  let a := absLoop stub hasImage hasText fuel v
             (verifications ImageContent s) (verifications TextContent s) in
  fst r = fst a
  /\ imageAttempts (snd r) + verifications ImageContent s
     = imageAttempts s + fst (snd a)
  /\ textAttempts (snd r) + verifications TextContent s
     = textAttempts s + snd (snd a).
Proof.
  cbv zeta. induction fuel as [|fuel IH]; intros v s; cbn [loop absLoop];
    change (loopCondition screenshot formattedLogs v)
      with (absCondition hasImage hasText v);
    destruct (absCondition hasImage hasText v); cbn;
    try (repeat split; lia).
  unfold bind.
  destruct (iteration_abs v s) as (Hr & HvI & HvT & HaI & HaT).
  destruct (iteration stub screenshot formattedLogs v s) as [r1 s1].
  destruct (absIteration stub hasImage hasText v _ _) as [a1 [nI1 nT1]].
  cbn in Hr, HvI, HvT, HaI, HaT. subst r1.
  destruct a1 as [[v'|]|e]; cbn; try (repeat split; lia).
  destruct (IH v' s1) as (Hr' & HaI' & HaT').
  rewrite HvI, HvT in Hr', HaI', HaT'.
  destruct (absLoop stub hasImage hasText fuel v' nI1 nT1) as [a2 [nI2 nT2]].
  cbn in *. repeat split; [assumption | lia | lia].
Qed.
End AnyStub.

(** *** Three passes of the abstract loop *)

Section Three.
Variable stub : Call -> nat -> option JsError.

Ltac abs_crunch :=
  cbn;
  repeat match goal with
         | H : stub ?c ?n = _ |- context [stub ?c ?n] => rewrite H; cbn
         | |- context [stub ?c ?n] => destruct (stub c n) eqn:?; cbn
         end.

Ltac three_points H n :=
  let H0 := fresh H "0" in let H1 := fresh H "1" in let H2 := fresh H "2" in
  pose proof (H 0 ltac:(lia)) as H0; pose proof (H 1 ltac:(lia)) as H1;
  pose proof (H 2 ltac:(lia)) as H2;
  replace (n + 0) with n in H0 by lia;
  replace (n + 1) with (S n) in H1 by lia;
  replace (n + 2) with (S (S n)) in H2 by lia.

Lemma abs_image_exhausted hasText nI nT :
  never_verifies stub ImageContent nI ->
  let a := absLoop stub true hasText 3 initialVars nI nT in
  (exists e, fst a = Throw (imageFailure e)) /\ fst (snd a) = nI + 3.
Proof.
  intros Hn. three_points Hn nI. cbv zeta.
  unfold absLoop, absIteration, absImage, absText, absCondition, absDone.
  destruct hasText; abs_crunch; try congruence; (split; [eexists; reflexivity | lia]).
Qed.

Lemma add_2_r n : n + 2 = S (S n).
Proof. lia. Qed.

Ltac first_points H :=
  let Hj := fresh H "j" in let Hb := fresh H "b" in
  destruct H as [Hj Hb];
  try (pose proof (Hb 0 ltac:(lia)));
  try (pose proof (Hb 1 ltac:(lia)));
  clear Hb;
  rewrite ?Nat.add_0_r, ?Nat.add_1_r, ?add_2_r in *.

Lemma abs_text_exhausted hasImage nI nT :
  never_verifies stub TextContent nT ->
  (hasImage = true ->
   exists j, j < 3 /\ stub (VerifyClipboardContent ImageContent) (nI + j) = None) ->
  let a := absLoop stub hasImage true 3 initialVars nI nT in
  (exists e, fst a = Throw (textFailure e)) /\ snd (snd a) = nT + 3.
Proof.
  intros Hn Hi. three_points Hn nT. cbv zeta.
  unfold absLoop, absIteration, absImage, absText, absCondition, absDone.
  destruct hasImage.
  - destruct (Hi eq_refl) as (j & Hj & Hok).
    destruct j as [|[|[|j]]]; [| | |lia];
      [replace (nI + 0) with nI in Hok by lia
      |replace (nI + 1) with (S nI) in Hok by lia
      |replace (nI + 2) with (S (S nI)) in Hok by lia];
      abs_crunch; try congruence; (split; [eexists; reflexivity | lia]).
  - abs_crunch; try congruence; (split; [eexists; reflexivity | lia]).
Qed.

Lemma abs_all_verify hasImage hasText nI nT jI jT :
  (hasImage = true -> jI < 3 /\ verifies_first_at stub ImageContent nI jI) ->
  (hasText = true -> jT < 3 /\ verifies_first_at stub TextContent nT jT) ->
  let a := absLoop stub hasImage hasText 3 initialVars nI nT in
  fst a = Ok (Some tt)
  /\ (hasImage = true -> fst (snd a) = nI + S jI)
  /\ (hasText = true -> snd (snd a) = nT + S jT).
Proof.
  intros Hi Ht. cbv zeta.
  unfold absLoop, absIteration, absImage, absText, absCondition, absDone.
  destruct hasImage, hasText;
    try (destruct (Hi eq_refl) as (HjI & HfI); clear Hi;
         destruct jI as [|[|[|jI]]]; [| | |lia]; first_points HfI);
    try (destruct (Ht eq_refl) as (HjT & HfT); clear Ht;
         destruct jT as [|[|[|jT]]]; [| | |lia]; first_points HfT);
    abs_crunch; try congruence;
    repeat split; intros; try discriminate; lia.
Qed.
End Three.

Lemma truthy_formatted logs : truthy (formatted logs) = bool_decide (is_Some logs).
Proof.
  destruct logs as [l|]; cbn; [apply truthy_formatLogs | reflexivity].
Qed.

Lemma Inv_initial screenshot fl : Inv screenshot fl initialVars.
Proof. unfold Inv, maxRetries. cbn. split; intros; lia. Qed.

Lemma mu_initial screenshot fl : mu screenshot fl initialVars <= 3.
Proof.
  unfold mu, left_I, left_T. cbn.
  destruct (imgActive _ _), (txtActive _ _); cbn; lia.
Qed.

Lemma sendToComposer_fuel stub fuel screenshot logs s :
  3 <= fuel ->
  sendToComposer stub fuel screenshot logs s
  = sendToComposer stub 3 screenshot logs s
  /\ fst (sendToComposer stub 3 screenshot logs s) <> Ok None.
Proof.
  intros Hf. unfold sendToComposer.
  assert (Ht : fst (loop stub screenshot (formatted logs) 3 initialVars s) <> Ok None)
    by (apply loop_total; [apply Inv_initial | apply mu_initial]).
  split; [|exact Ht]. apply loop_fuel_ge; assumption.
Qed.

(** C1 (amended): [sendToComposer] returns or throws within three passes and
    makes at most three attempts per artifact.  With a clipboard whose only
    failures are failed verifications: a screenshot whose verification
    fails on each of its three attempts makes the call throw the image
    failure after exactly three screenshot attempts; a log bundle whose
    verification fails on each of its three attempts makes the call throw
    the log failure after exactly three log attempts, provided the
    screenshot is absent or verifies within its own three attempts; and
    when each requested artifact first verifies on attempt [j + 1 <= 3]
    (for instance fails exactly twice and then succeeds), the call succeeds
    after exactly [j + 1] attempts of that artifact. *)
Theorem sendToComposer_retry_budget stub fuel screenshot logs s :
  3 <= fuel ->
  let r := sendToComposer stub fuel screenshot logs s in
  let nI := verifications ImageContent s in
  let nT := verifications TextContent s in
  fst r <> Ok None
  /\ imageAttempts (snd r) <= imageAttempts s + 3
  /\ textAttempts (snd r) <= textAttempts s + 3
  /\ (only_verification_fails stub ->
      (is_Some screenshot -> never_verifies stub ImageContent nI ->
       (exists e, fst r = Throw (imageFailure e))
       /\ imageAttempts (snd r) = imageAttempts s + 3)
      /\ (is_Some logs -> never_verifies stub TextContent nT ->
          (is_Some screenshot ->
           exists j, j < 3
             /\ stub (VerifyClipboardContent ImageContent) (nI + j) = None) ->
          (exists e, fst r = Throw (textFailure e))
          /\ textAttempts (snd r) = textAttempts s + 3)
      /\ (forall jI jT,
          (is_Some screenshot ->
           jI < 3 /\ verifies_first_at stub ImageContent nI jI) ->
          (is_Some logs ->
           jT < 3 /\ verifies_first_at stub TextContent nT jT) ->
          fst r = Ok (Some tt)
          /\ (is_Some screenshot ->
              imageAttempts (snd r) = imageAttempts s + S jI)
          /\ (is_Some logs ->
              textAttempts (snd r) = textAttempts s + S jT))).
Proof.
  intros Hf. cbv zeta.
  destruct (sendToComposer_fuel stub fuel screenshot logs s Hf) as [-> Hn].
  split; [exact Hn|]. unfold sendToComposer in *. fold (formatted logs) in *.
  destruct (loop_attempts stub screenshot (formatted logs) 3 initialVars s
              (Inv_initial _ _)) as [Hi Ht].
  split; [|split].
  { etransitivity; [exact Hi|]. unfold left_I. destruct (imgActive _ _); cbn; lia. }
  { etransitivity; [exact Ht|]. unfold left_T. destruct (txtActive _ _); cbn; lia. }
  intros Honly.
  destruct (loop_abs stub screenshot (formatted logs) Honly 3 initialVars s)
    as (Hr & HaI & HaT).
  rewrite truthy_formatted in Hr, HaI, HaT.
  set (r := loop stub screenshot (formatted logs) 3 initialVars s) in *.
  set (nI := verifications ImageContent s) in *.
  set (nT := verifications TextContent s) in *.
  split; [|split].
  - intros Hs Hnv. rewrite bool_decide_eq_true_2 in Hr, HaI by exact Hs.
    destruct (abs_image_exhausted stub (bool_decide (is_Some logs)) nI nT Hnv)
      as [[e He] Hc].
    split; [exists e; congruence | lia].
  - intros Hl Hnv Himg. rewrite (bool_decide_eq_true_2 _ Hl) in Hr, HaT.
    destruct (abs_text_exhausted stub (bool_decide (is_Some screenshot)) nI nT Hnv)
      as [[e He] Hc].
    { intros Hb. apply bool_decide_eq_true_1 in Hb. auto. }
    split; [exists e; congruence | lia].
  - intros jI jT HI HT.
    destruct (abs_all_verify stub (bool_decide (is_Some screenshot))
                (bool_decide (is_Some logs)) nI nT jI jT) as (He & Hci & Hct).
    { intros Hb. apply bool_decide_eq_true_1 in Hb. auto. }
    { intros Hb. apply bool_decide_eq_true_1 in Hb. auto. }
    split; [congruence|]. split; intros Hx.
    + specialize (Hci (bool_decide_eq_true_2 _ Hx)). lia.
    + specialize (Hct (bool_decide_eq_true_2 _ Hx)). lia.
Qed.

Lemma stubFailsTwice_only : only_verification_fails stubFailsTwice.
Proof. intros [] n H; try reflexivity; discriminate. Defined.

Lemma stubNeverVerifies_only : only_verification_fails stubNeverVerifies.
Proof. intros [] n H; try reflexivity; discriminate. Defined.

(** The three cases of the theorem on stub clipboards: a screenshot that
    verifies on its third attempt, a screenshot that never verifies, and a
    log bundle alone that never verifies. *)
Lemma sendToComposer_retry_budget_witness :
  3 <= 3
  /\ (fst (sendToComposer stubFailsTwice 3 (Some pixel) None freshState)
        = Ok (Some tt)
      /\ imageAttempts (snd (sendToComposer stubFailsTwice 3 (Some pixel) None
                               freshState))
         = imageAttempts freshState + 3)
  /\ ((exists e, fst (sendToComposer stubNeverVerifies 3 (Some pixel)
                        (Some noLogs) freshState) = Throw (imageFailure e))
      /\ imageAttempts (snd (sendToComposer stubNeverVerifies 3 (Some pixel)
                               (Some noLogs) freshState))
         = imageAttempts freshState + 3)
  /\ ((exists e, fst (sendToComposer stubNeverVerifies 3 None (Some noLogs)
                        freshState) = Throw (textFailure e))
      /\ textAttempts (snd (sendToComposer stubNeverVerifies 3 None (Some noLogs)
                              freshState))
         = textAttempts freshState + 3).
Proof.
  split; [lia|]. split; [|split].
  - destruct (sendToComposer_retry_budget stubFailsTwice 3 (Some pixel) None
                freshState (le_n 3)) as (_ & _ & _ & H).
    destruct (H stubFailsTwice_only) as (_ & _ & H3).
    destruct (H3 2 0) as (Hr & Hi & _).
    + intros _. split; [lia|]. split; [reflexivity|].
      intros i Hi. destruct i as [|[|i]]; [discriminate | discriminate | lia].
    + intros [x Hx]. discriminate.
    + split; [exact Hr|]. apply Hi. eexists; reflexivity.
  - destruct (sendToComposer_retry_budget stubNeverVerifies 3 (Some pixel)
                (Some noLogs) freshState (le_n 3)) as (_ & _ & _ & H).
    destruct (H stubNeverVerifies_only) as (H1 & _ & _).
    apply H1; [eexists; reflexivity|]. intros i _. discriminate.
  - destruct (sendToComposer_retry_budget stubNeverVerifies 3 None
                (Some noLogs) freshState (le_n 3)) as (_ & _ & _ & H).
    destruct (H stubNeverVerifies_only) as (_ & H2 & _).
    apply H2; [eexists; reflexivity| |].
    + intros i _. discriminate.
    + intros [x Hx]. discriminate.
Defined.

(** C1, as stated, fails for the log bundle when the screenshot exhausts its
    budget first: with a clipboard that never verifies and both artifacts
    requested, the call throws the image failure after the second log
    attempt; the log failure is never raised and no third log attempt is
    made. *)
Lemma logs_budget_cut_short_by_image :
  let r := sendToComposer stubNeverVerifies 3 (Some pixel) (Some noLogs) freshState in
  never_verifies stubNeverVerifies TextContent (verifications TextContent freshState)
  /\ fst r = Throw (imageFailure mismatch)
  /\ textAttempts (snd r) = 2
  /\ ~ ((exists e, fst r = Throw (textFailure e))
        /\ textAttempts (snd r) = textAttempts freshState + 3).
Proof.
  cbv zeta. split; [intros i _; discriminate|].
  split; [vm_compute; reflexivity|].
  split; [vm_compute; reflexivity|].
  intros [_ H]. vm_compute in H. discriminate.
Qed.

(** C6 at the failing input: one call whose first image verification fails
    and whose second succeeds executes the open command twice, once per
    pass through the loop. *)
Lemma open_command_repeated_each_pass :
  let r := sendToComposer stubImageFailsOnce 3 (Some pixel) None freshState in
  fst r = Ok (Some tt)
  /\ count_calls isOpen (calls (snd r)) = 2.
Proof. cbv zeta. split; vm_compute; reflexivity. Qed.

(** The marker is cleared at the end of every pass, hence also whenever the
    call throws. *)
Lemma marker_released stub fuel screenshot logs s e :
  3 <= fuel ->
  fst (sendToComposer stub fuel screenshot logs s) = Throw e ->
  composerOpened (snd (sendToComposer stub fuel screenshot logs s)) = false.
Proof.
  intros Hf. destruct (sendToComposer_fuel stub fuel screenshot logs s Hf) as [-> Hn].
  unfold sendToComposer in *. intros He.
  destruct (loopCondition screenshot (formatted logs) initialVars) eqn:Ec.
  - apply loop_released; [right; exact Ec | exact Hn].
  - cbn in He. fold (formatted logs) in He. rewrite Ec in He. discriminate.
Qed.
End ComposerProofs.

(** * Proofs about BrowserMonitor *)

Module MonitorProofs.
Import Monitor.

(** ** Arrays *)

Section ArrayFacts.
Context {A : Type}.
Implicit Types (h : gmap ref (list A)) (l : ref).

Lemma readArr_push_same h l x : readArr (pushArr h l x) l = readArr h l ++ [x].
Proof. unfold pushArr, readArr at 1. rewrite lookup_insert_eq. reflexivity. Qed.

Lemma readArr_push_other h l l' x :
  l <> l' -> readArr (pushArr h l x) l' = readArr h l'.
Proof.
  intros Hne. unfold pushArr, readArr.
  rewrite lookup_insert_ne by exact Hne. reflexivity.
Qed.

Lemma readArr_new h : readArr (snd (newArr h)) (fst (newArr h)) = [].
Proof. unfold newArr, readArr. cbn. rewrite lookup_insert_eq. reflexivity. Qed.

Lemma readArr_new_old h l : l ∈ dom h -> readArr (snd (newArr h)) l = readArr h l.
Proof.
  intros Hin. unfold newArr, readArr. cbn.
  rewrite lookup_insert_ne; [reflexivity|].
  intros Heq. rewrite <- Heq in Hin. exact (is_fresh (dom h) Hin).
Qed.
End ArrayFacts.

(** ** Disconnecting *)

Section AnyHost.
Variable host : Host.

Lemma perform_state c s : snd (perform host c s) = record c s.
Proof. unfold perform. destruct (fails host c _); reflexivity. Qed.

Lemma clearHealthCheck_run s : clearHealthCheck s = (Ok tt, cleared s).
Proof.
  unfold clearHealthCheck, cleared, bind, gets, notify, modify, ret.
  destruct (healthCheckInterval s); reflexivity.
Qed.

Lemma stopMonitoring_run s : stopMonitoring host s = (Ok tt, stopped s).
Proof.
  unfold stopMonitoring, stopped, bind, gets, try_catch, modify, ret.
  destruct (activePage s) as [a|]; [|reflexivity].
  pose proof (perform_state (ClientDetach (client a)) s) as Hp.
  destruct (perform host (ClientDetach (client a)) s) as [[[]|e] s1];
    cbn in Hp; subst s1; reflexivity.
Qed.

Lemma releaseBrowser_run s : releaseBrowser host s = (Ok tt, released s).
Proof.
  unfold releaseBrowser, released, bind, gets, try_catch, modify, ret.
  destruct (browser s) as [b|]; [|reflexivity].
  pose proof (perform_state (BrowserDisconnect b) s) as Hp.
  destruct (perform host (BrowserDisconnect b) s) as [[[]|e] s1];
    cbn in Hp; subst s1; reflexivity.
Qed.

Lemma updateConnectionState_run s : updateConnectionState s = (Ok tt, updated s).
Proof. reflexivity. Qed.

Lemma disconnect_run s : disconnect host s = (Ok tt, disconnected s).
Proof.
  unfold disconnect, disconnected, bind.
  rewrite clearHealthCheck_run, stopMonitoring_run, releaseBrowser_run,
    updateConnectionState_run.
  reflexivity.
Qed.

Lemma disconnected_session s : session (disconnected s) = (None, None, false, None).
Proof. destruct s as [[b|] [a|] ? ? ? [t|] ? ? ? ? ? ?]; reflexivity. Qed.

Lemma disconnected_buffers s : buffers (disconnected s) = buffers s.
Proof. destruct s as [[b|] [a|] ? ? ? [t|] ? ? ? ? ? ?]; reflexivity. Qed.

Lemma disconnected_calls s :
  exists tr, calls (disconnected s) = calls s ++ tr
    /\ count_calls isFireDisconnect tr = 1
    /\ count_calls isFireConnectionState tr = 1
    /\ count_calls isDetach tr = match activePage s with Some _ => 1 | None => 0 end.
Proof.
  destruct s as [[b|] [a|] ? ? ? [t|] ? ? ? ? tr0 ?]; cbn;
    rewrite <- ?app_assoc; eexists; (split; [reflexivity|]); cbn; auto.
Qed.

Lemma handleSessionError_run s :
  handleSessionError host s
  = (Ok tt, if _isConnected s
            then disconnected (record ToastSessionDisconnected s) else s).
Proof.
  unfold handleSessionError, bind, gets, notify.
  destruct (_isConnected s); [|reflexivity]. apply disconnect_run.
Qed.

Lemma handlePageClosed_run s :
  handlePageClosed host s
  = (Ok tt, if _isConnected s
            then disconnected (record ToastTabClosed s) else s).
Proof.
  unfold handlePageClosed, bind, gets, notify.
  destruct (_isConnected s); [|reflexivity]. apply disconnect_run.
Qed.

Lemma healthCheck_ok c s : fst (healthCheck host c s) = Ok tt.
Proof.
  unfold healthCheck, try_catch, bind.
  destruct (perform host _ s) as [[[]|e] s1]; [reflexivity|].
  rewrite clearHealthCheck_run, handleSessionError_run. reflexivity.
Qed.

(** *** The segments of a run of [disconnect] *)

Lemma disconnectBegin_run s : disconnectBegin host s = (Ok tt, begun s).
Proof.
  unfold disconnectBegin, begun, bind. rewrite clearHealthCheck_run.
  unfold gets, try_catch, suspend, modify, ret.
  destruct (activePage (cleared s)) as [a|]; [|reflexivity].
  pose proof (perform_state (ClientDetach (client a)) (cleared s)) as Hp.
  destruct (perform host (ClientDetach (client a)) (cleared s)) as [[[]|e] s1];
    cbn in Hp; subst s1; reflexivity.
Qed.

Lemma continueDisconnect_run p s :
  continueDisconnect host p s = (Ok tt, continued p s).
Proof.
  assert (Hrest : forall s0,
            (let* b := gets browser in
             match b with
             | Some b =>
                 try_catch (perform host (BrowserDisconnect b)) (fun _ => ret tt) ;;
                 suspend AwaitBrowser
             | None => disconnectEnd
             end) s0
            = (Ok tt, match browser s0 with
                      | Some b => set_pending (pending s0 ++ [AwaitBrowser])
                                    (record (BrowserDisconnect b) s0)
                      | None => ended s0
                      end)).
  { intros s0. unfold bind, gets, try_catch, suspend, modify, ret.
    destruct (browser s0) as [b|]; [|reflexivity].
    pose proof (perform_state (BrowserDisconnect b) s0) as Hp.
    destruct (perform host (BrowserDisconnect b) s0) as [[[]|e] s1];
      cbn in Hp; subst s1; reflexivity. }
  destruct p; unfold continueDisconnect, continued.
  - unfold bind at 1. cbn [ret]. apply Hrest.
  - unfold bind at 1, modify at 1. apply Hrest.
  - reflexivity.
Qed.

Lemma resume_run s : resume host s = (Ok tt, resumed s).
Proof.
  unfold resume, resumeAt, resumed, bind, gets.
  destruct (pending s) as [|p rest]; [reflexivity|].
  unfold modify. apply continueDisconnect_run.
Qed.

Lemma resumeTimes_run n : forall s,
  resumeTimes host n s = (Ok tt, Nat.iter n resumed s).
Proof.
  induction n as [|n IH]; intros s; [reflexivity|].
  cbn [resumeTimes]. unfold bind. rewrite resume_run, IH.
  f_equal. symmetry. apply Nat.iter_succ_r.
Qed.

Lemma settle_run s :
  settle host s = (Ok tt, Nat.iter (2 * length (pending s)) resumed s).
Proof. unfold settle, bind, gets. apply resumeTimes_run. Qed.

Lemma begun_pending s :
  pending s = [] -> exists p, pending (begun s) = [p].
Proof.
  intros Hq. destruct s as [? [a|] ? ? ? [t|] ? ? ? ? ? q]; cbn in *; subst q;
    eexists; reflexivity.
Qed.

Lemma begun_resumed s :
  pending s = [] -> resumed (resumed (begun s)) = disconnected s.
Proof.
  intros Hq. destruct s as [[b|] [a|] ? ? ? [t|] ? ? ? ? ? q]; cbn in Hq; subst q;
    unfold resumed, begun, disconnected, released, stopped, cleared, continued, ended;
    cbn [pending set_pending record set_healthCheckInterval set_activePage
         set_browser healthCheckInterval activePage browser app];
    reflexivity.
Qed.

Lemma settle_begun s :
  pending s = [] -> settle host (begun s) = (Ok tt, disconnected s).
Proof.
  intros Hq. rewrite settle_run. destruct (begun_pending s Hq) as [p Hp].
  rewrite Hp. cbn [length Nat.mul Nat.add Nat.iter nat_rect].
  rewrite (begun_resumed s Hq). reflexivity.
Qed.

Lemma settle_idle s : pending s = [] -> settle host s = (Ok tt, s).
Proof. intros Hq. rewrite settle_run, Hq. reflexivity. Qed.

Lemma handleSessionErrorBegin_run s :
  handleSessionErrorBegin host s
  = (Ok tt, if _isConnected s
            then begun (record ToastSessionDisconnected s) else s).
Proof.
  unfold handleSessionErrorBegin, bind, gets, notify.
  destruct (_isConnected s); [|reflexivity]. apply disconnectBegin_run.
Qed.

Lemma handlePageClosedBegin_run s :
  handlePageClosedBegin host s
  = (Ok tt, if _isConnected s
            then begun (record ToastTabClosed s) else s).
Proof.
  unfold handlePageClosedBegin, bind, gets, notify.
  destruct (_isConnected s); [|reflexivity]. apply disconnectBegin_run.
Qed.

(** A run that nothing interleaves with is the one step [disconnect], and
    so are the handlers that await it. *)
Lemma disconnect_in_segments s :
  pending s = [] ->
  (disconnectBegin host ;; settle host) s = disconnect host s.
Proof.
  intros Hq. rewrite disconnect_run. unfold bind.
  rewrite disconnectBegin_run. apply settle_begun, Hq.
Qed.

Lemma handlePageClosed_in_segments s :
  pending s = [] ->
  (handlePageClosedBegin host ;; settle host) s = handlePageClosed host s.
Proof.
  intros Hq. rewrite handlePageClosed_run. unfold bind.
  rewrite handlePageClosedBegin_run.
  destruct (_isConnected s); [apply settle_begun | apply settle_idle]; exact Hq.
Qed.

Lemma healthCheck_in_segments c s :
  pending s = [] ->
  (healthCheckBegin host c ;; settle host) s = healthCheck host c s.
Proof.
  intros Hq. unfold healthCheckBegin, healthCheck, try_catch.
  unfold bind at 1.
  pose proof (perform_state (ClientSend c "Runtime.evaluate") s) as Hp.
  destruct (perform host (ClientSend c "Runtime.evaluate") s) as [[[]|e] s1];
    cbn [snd] in Hp; subst s1.
  - apply settle_idle. exact Hq.
  - unfold bind. rewrite !clearHealthCheck_run.
    rewrite handleSessionErrorBegin_run, handleSessionError_run.
    assert (Hq' : pending (cleared (record (ClientSend c "Runtime.evaluate") s)) = [])
      by (destruct s as [? ? ? ? ? [t|] ? ? ? ? ? ?]; exact Hq).
    destruct (_isConnected _); [apply settle_begun | apply settle_idle]; exact Hq'.
Qed.

(** C10: every run of [disconnect] ends normally and fires the
    connection-state notification and the disconnected notification exactly
    once each, whatever the state (session or not, browser or not) and
    whatever the host answers. *)
Theorem disconnect_notifies_once s :
  exists tr,
    fst (disconnect host s) = Ok tt
    /\ calls (snd (disconnect host s)) = calls s ++ tr
    /\ count_calls isFireConnectionState tr = 1
    /\ count_calls isFireDisconnect tr = 1.
Proof.
  rewrite disconnect_run. cbn [fst snd].
  destruct (disconnected_calls s) as (tr & Hc & Hd & Hs & _).
  exists tr. auto.
Qed.

(** C8: [disconnect] never throws, from any state and whatever the host
    answers, and neither do the health-check and page-closed callbacks that
    call it.  Without an active session it detaches nothing, leaves the
    buffers alone and ends disconnected; on a monitor that has no session,
    no browser and no timer it changes no session field; disconnecting
    twice ends in the same session fields as disconnecting once. *)
Theorem disconnect_safe s c :
  fst (disconnect host s) = Ok tt
  /\ fst (healthCheck host c s) = Ok tt
  /\ fst (handlePageClosed host s) = Ok tt
  /\ fst (handleSessionError host s) = Ok tt
  /\ (activePage s = None ->
      count_calls isDetach (calls (snd (disconnect host s)))
        = count_calls isDetach (calls s)
      /\ activePage (snd (disconnect host s)) = None
      /\ _isConnected (snd (disconnect host s)) = false
      /\ buffers (snd (disconnect host s)) = buffers s)
  /\ (session s = (None, None, false, None) ->
      session (snd (disconnect host s)) = session s)
  /\ session (snd (disconnect host (snd (disconnect host s))))
     = session (snd (disconnect host s)).
Proof.
  rewrite handlePageClosed_run, handleSessionError_run, healthCheck_ok.
  rewrite !disconnect_run. cbn [fst snd].
  pose proof (disconnected_session s) as Hs.
  do 4 (split; [reflexivity|]). split; [|split].
  - intros Hnone. destruct (disconnected_calls s) as (tr & Hc & _ & _ & Hd).
    rewrite Hc, count_calls_app, Hd, Hnone. unfold session in Hs.
    repeat split; [lia | congruence | congruence | apply disconnected_buffers].
  - intros Hs0. rewrite Hs0. exact Hs.
  - rewrite !disconnected_session. reflexivity.
Qed.

(** When the callbacks run one after the other: a health check whose
    probe fails on a connected monitor fires the disconnected notification
    exactly once and leaves the monitor disconnected; a page-close or crash
    event handled after it has finished changes nothing and fires
    nothing. *)
Theorem health_check_failure_notifies_once c s e :
  _isConnected s = true ->
  fails host (ClientSend c "Runtime.evaluate")
    (occurrences (ClientSend c "Runtime.evaluate") (calls s)) = Some e ->
  let s1 := snd (healthCheck host c s) in
  let s2 := snd (handlePageClosed host s1) in
  (exists tr, calls s1 = calls s ++ tr /\ count_calls isFireDisconnect tr = 1)
  /\ session s1 = (None, None, false, None)
  /\ s2 = s1.
Proof.
  intros Hc Hf. cbv zeta.
  assert (Hrun : healthCheck host c s
                 = (Ok tt, disconnected (record ToastSessionDisconnected
                             (cleared (record (ClientSend c "Runtime.evaluate") s))))).
  { unfold healthCheck, try_catch, bind, perform. rewrite Hf.
    rewrite clearHealthCheck_run, handleSessionError_run.
    replace (_isConnected (cleared (record (ClientSend c "Runtime.evaluate") s)))
      with true; [reflexivity|].
    rewrite <- Hc. destruct s as [? ? ? ? ? [t|] ? ? ? ? ? ?]; reflexivity. }
  rewrite Hrun. cbn [fst snd]. rewrite handlePageClosed_run. cbn [fst snd].
  set (s0 := record ToastSessionDisconnected
               (cleared (record (ClientSend c "Runtime.evaluate") s))).
  pose proof (disconnected_session s0) as Hs. split; [|split].
  - destruct (disconnected_calls s0) as (tr & Hcalls & Hd & _).
    assert (H0 : exists tr0, calls s0 = calls s ++ tr0
                             /\ count_calls isFireDisconnect tr0 = 0).
    { unfold s0. destruct s as [? ? ? ? ? [t|] ? ? ? ? tr1 ?]; cbn;
        rewrite <- ?app_assoc; eexists; (split; [reflexivity|]); reflexivity. }
    destruct H0 as (tr0 & Hc0 & Hd0).
    exists (tr0 ++ tr). rewrite Hcalls, Hc0, <- app_assoc, count_calls_app.
    split; [reflexivity | lia].
  - exact Hs.
  - unfold session in Hs.
    replace (_isConnected (disconnected s0)) with false by congruence.
    reflexivity.
Qed.
End AnyHost.

(** ** Buffers and events *)

Section Events.
Context `{JsNumbers}.

Lemma pushConsole_run log s :
  pushConsole log s
  = (Ok tt, record (FireNewLog log)
              (set_console (consoleLogs s)
                 (pushArr (consoleHeap s) (consoleLogs s) log) s)).
Proof. reflexivity. Qed.

Lemma pushNetwork_run request s :
  pushNetwork request s
  = (Ok tt, record (EmitNetwork request)
              (set_network (networkLogs s)
                 (pushArr (networkHeap s) (networkLogs s) request) s)).
Proof. reflexivity. Qed.

(** What the handler of one event does to the two buffers: the arrays the
    monitor refers to stay the same objects, and the record of the event is
    appended to the array of its stream. *)
Lemma handleEvent_buffers now ev s :
  let s' := snd (handleEvent now ev s) in
  fst (handleEvent now ev s) = Ok tt
  /\ consoleLogs s' = consoleLogs s
  /\ networkLogs s' = networkLogs s
  /\ (forall l, readArr (consoleHeap s') l
        = if decide (l = consoleLogs s)
          then readArr (consoleHeap s) l ++ option_list (consoleRecordOf (now, ev))
          else readArr (consoleHeap s) l)
  /\ (forall l, readArr (networkHeap s') l
        = if decide (l = networkLogs s)
          then readArr (networkHeap s) l ++ option_list (networkRecordOf (now, ev))
          else readArr (networkHeap s) l)
  /\ session s' = session s.
Proof.
  cbv zeta. destruct ev; cbn [handleEvent];
    rewrite ?pushConsole_run, ?pushNetwork_run; cbn;
    (repeat split; try reflexivity); intros l; destruct (decide (l = _)) as [->|Hne];
    rewrite ?app_nil_r, ?readArr_push_same; try reflexivity;
    apply readArr_push_other; congruence.
Qed.

Lemma handleEvents_console evs : forall s,
  let s' := snd (handleEvents evs s) in
  fst (handleEvents evs s) = Ok tt
  /\ consoleLogs s' = consoleLogs s
  /\ readArr (consoleHeap s') (consoleLogs s)
     = readArr (consoleHeap s) (consoleLogs s) ++ omap consoleRecordOf evs.
Proof.
  cbv zeta. induction evs as [|[now ev] evs IH]; intros s.
  - cbn. rewrite app_nil_r. auto.
  - cbn [handleEvents]. unfold bind.
    destruct (handleEvent_buffers now ev s) as (Hr & Hc & _ & Hread & _).
    destruct (handleEvent now ev s) as [r s1]. cbn in Hr, Hc, Hread. subst r.
    destruct (IH s1) as (Hr' & Hc' & Hread').
    split; [exact Hr'|]. split; [congruence|].
    rewrite Hc in Hread'. rewrite Hread', Hread.
    rewrite decide_True by reflexivity.
    rewrite <- app_assoc. f_equal. cbn.
    destruct (consoleRecordOf (now, ev)); reflexivity.
Qed.

Lemma length_console_records (evs : list (Z * ProtocolEvent)) :
  length (omap consoleRecordOf evs) = length (List.filter isConsoleEvent evs).
Proof.
  induction evs as [|[now ev] evs IH]; [reflexivity|].
  unfold consoleRecordOf, isConsoleEvent in *.
  destruct ev; cbn in *; rewrite ?IH; reflexivity.
Qed.

(** C7: after the handlers of any sequence of protocol events have run,
    [getLogs().console] holds what it held before followed by the
    normalized records of the console events of the sequence, in arrival
    order; its length grew by the number of console events (every console
    event normalizes). *)
Theorem console_buffer_keeps_arrival_order evs s :
  let s' := snd (handleEvents evs s) in
  exists d d',
    getLogs s = (Ok d, s) /\ getLogs s' = (Ok d', s')
    /\ consoleOf s' d' = consoleOf s d ++ omap consoleRecordOf evs
    /\ length (consoleOf s' d')
       = length (consoleOf s d) + length (List.filter isConsoleEvent evs).
Proof.
  cbv zeta. destruct (handleEvents_console evs s) as (_ & Hc & Hread).
  eexists; eexists. split; [reflexivity|]. split; [reflexivity|].
  unfold consoleOf. cbn [console]. rewrite Hc, Hread.
  split; [reflexivity|]. rewrite length_app, length_console_records. reflexivity.
Qed.

(** C4: the handler of a loading-failed event appends to the network
    buffer the record with status 0, the url ["Failed request"] and the
    failure reason of the event as its error. *)
Theorem loading_failed_record now errorText s :
  let s' := snd (handleEvent now (NetworkLoadingFailed errorText) s) in
  exists d d' r,
    getLogs s = (Ok d, s) /\ getLogs s' = (Ok d', s')
    /\ networkOf s' d' = networkOf s d ++ [r]
    /\ req_status r = 0%Z
    /\ req_url r = "Failed request"
    /\ req_error r = Some errorText.
Proof.
  cbv zeta.
  destruct (handleEvent_buffers now (NetworkLoadingFailed errorText) s)
    as (_ & _ & Hn & _ & Hread & _).
  eexists; eexists; exists (failureRecord now errorText).
  split; [reflexivity|]. split; [reflexivity|].
  unfold networkOf. cbn [network]. rewrite Hn, Hread.
  rewrite decide_True by reflexivity. repeat split; reflexivity.
Qed.

(** C9: [clearLogs] returns normally; a [getLogs] right after it reads two
    empty arrays, whatever the buffers held; the session fields and the
    trace of host calls are unchanged. *)
Theorem clearLogs_empties_buffers s :
  let s' := snd (clearLogs s) in
  fst (clearLogs s) = Ok tt
  /\ (exists d, getLogs s' = (Ok d, s')
        /\ consoleOf s' d = [] /\ networkOf s' d = [])
  /\ session s' = session s
  /\ calls s' = calls s.
Proof.
  cbv zeta. split; [reflexivity|]. split; [|split; reflexivity].
  eexists. split; [reflexivity|].
  unfold consoleOf, networkOf. cbn. split; apply readArr_new.
Qed.

(** C2 (amended): [getLogs] returns the references of the monitor's two
    current arrays and changes nothing.  A [clearLogs] after the call does
    not change what the returned [LogData] reads, since the monitor moves
    on to new arrays; a record appended after the call is appended to the
    very array the [LogData] refers to and is read through it. *)
Theorem getLogs_shares_the_buffers s :
  allocated s ->
  exists d,
    getLogs s = (Ok d, s)
    /\ (let s' := snd (clearLogs s) in
        consoleOf s' d = consoleOf s d /\ networkOf s' d = networkOf s d)
    /\ (forall now ev,
        let s' := snd (handleEvent now ev s) in
        consoleOf s' d = consoleOf s d ++ option_list (consoleRecordOf (now, ev))
        /\ networkOf s' d = networkOf s d ++ option_list (networkRecordOf (now, ev))).
Proof.
  intros [Hc Hn]. eexists. split; [reflexivity|]. split.
  - unfold consoleOf, networkOf. cbn.
    split; apply readArr_new_old; assumption.
  - intros now ev. cbv zeta.
    destruct (handleEvent_buffers now ev s) as (_ & _ & _ & Hrc & Hrn & _).
    unfold consoleOf, networkOf. cbn [console network].
    rewrite Hrc, Hrn, !decide_True by reflexivity. auto.
Qed.
End Events.

Lemma initialState_allocated : allocated initialState.
Proof. split; apply elem_of_dom; eexists; apply lookup_singleton_eq. Defined.

Lemma getLogs_shares_the_buffers_witness :
  allocated initialState
  /\ exists d,
       getLogs initialState = (Ok d, initialState)
       /\ consoleOf (snd (handleEvent (H := intNumbers) 5 sampleEntry initialState)) d
          = consoleOf initialState d
            ++ option_list (consoleRecordOf (H := intNumbers) (5%Z, sampleEntry)).
Proof.
  split; [exact initialState_allocated|].
  destruct (getLogs_shares_the_buffers (H := intNumbers) initialState
              initialState_allocated) as (d & Hd & _ & Hev).
  exists d. split; [exact Hd|]. apply (Hev 5%Z sampleEntry).
Defined.

(** C2, as stated, fails: the [LogData] returned before a log entry
    arrives reads that entry afterwards. *)
Lemma getLogs_is_a_live_view :
  exists d,
    getLogs initialState = (Ok d, initialState)
    /\ consoleOf initialState d = []
    /\ consoleOf (snd (handleEvent (H := intNumbers) 5 sampleEntry initialState)) d
       = [ {| log_type := LogError; log_text := "boom"; log_timestamp := 5 |} ]
    /\ consoleOf (snd (handleEvent (H := intNumbers) 5 sampleEntry initialState)) d
       <> consoleOf initialState d.
Proof.
  eexists. split; [reflexivity|].
  assert (H0 : consoleOf initialState
                 {| console := consoleLogs initialState;
                    network := networkLogs initialState |} = [])
    by (vm_compute; reflexivity).
  assert (H1 : consoleOf (snd (handleEvent (H := intNumbers) 5 sampleEntry initialState))
                 {| console := consoleLogs initialState;
                    network := networkLogs initialState |}
               = [ {| log_type := LogError; log_text := "boom"; log_timestamp := 5 |} ])
    by (vm_compute; reflexivity).
  split; [exact H0|]. split; [exact H1|]. rewrite H0, H1. discriminate.
Qed.

(** ** Connecting *)

Section Connecting.
Variable host : Host.

Lemma quiet_ret {A} (a : A) : quiet (@ret State A a).
Proof. intros s. reflexivity. Qed.

Lemma quiet_throw {A} e : quiet (@throw State A e).
Proof. intros s. reflexivity. Qed.

Lemma quiet_gets {A} (f : State -> A) : quiet (gets f).
Proof. intros s. reflexivity. Qed.

Lemma quiet_bind {A B} (m : M A) (k : A -> M B) :
  quiet m -> (forall a, quiet (k a)) -> quiet (bind m k).
Proof.
  intros Hm Hk s. unfold bind. specialize (Hm s).
  destruct (m s) as [[a|e] s1]; cbn in *; [|exact Hm].
  rewrite (Hk a s1). exact Hm.
Qed.

Lemma quiet_try_catch {A} (m : M A) h :
  quiet m -> (forall e, quiet (h e)) -> quiet (try_catch m h).
Proof.
  intros Hm Hh s. unfold try_catch. specialize (Hm s).
  destruct (m s) as [[a|e] s1]; cbn in *; [exact Hm|].
  rewrite (Hh e s1). exact Hm.
Qed.

Lemma toasts_record c s :
  toasts (record c s) = toasts s + (if isToastError c then 1 else 0).
Proof. unfold toasts. cbn. rewrite count_calls_app. cbn. lia. Qed.

Lemma quiet_perform c : isToastError c = false -> quiet (perform host c).
Proof.
  intros Hc s. rewrite perform_state, toasts_record, Hc. lia.
Qed.

Lemma quiet_notify c : isToastError c = false -> quiet (notify c).
Proof. intros Hc s. unfold notify. cbn [snd]. rewrite toasts_record, Hc. lia. Qed.

Lemma quiet_modify f : (forall s, calls (f s) = calls s) -> quiet (modify f).
Proof. intros Hf s. unfold toasts. cbn. rewrite Hf. reflexivity. Qed.

Ltac quiet_tac :=
  repeat first
    [ apply quiet_ret | apply quiet_throw | apply quiet_gets
    | apply quiet_perform; reflexivity
    | apply quiet_notify; reflexivity
    | apply quiet_modify; intros; reflexivity
    | apply quiet_bind; [|intros ?]
    | apply quiet_try_catch; [|intros ?]
    | match goal with
      | |- quiet (match ?x with _ => _ end) => destruct x
      | |- quiet (if ?b then _ else _) => destruct b
      end ].

Lemma quiet_stopMonitoring : quiet (stopMonitoring host).
Proof. unfold stopMonitoring. quiet_tac. Qed.

Lemma quiet_updateConnectionState : quiet updateConnectionState.
Proof. unfold updateConnectionState, updateStatusBar. quiet_tac. Qed.

Lemma quiet_enableDomains c : quiet (enableDomains host c).
Proof.
  intros s. unfold enableDomains.
  repeat match goal with
  | |- context [perform host ?c ?s] =>
      let Hp := fresh "Hp" in
      pose proof (perform_state host c s) as Hp;
      destruct (perform host c s) as [? ?]; cbn in Hp; subst
  end.
  cbn -[toasts record]. rewrite !toasts_record. cbn. lia.
Qed.

Lemma quiet_readPage p : quiet (readPage host p).
Proof.
  intros s. unfold readPage.
  repeat match goal with
  | |- context [perform host ?c ?s] =>
      let Hp := fresh "Hp" in
      pose proof (perform_state host c s) as Hp;
      destruct (perform host c s) as [[?|?] ?]; cbn in Hp; subst
  end; cbn -[toasts record]; rewrite !toasts_record; cbn; lia.
Qed.

Lemma quiet_readPages pages : quiet (readPages host pages).
Proof.
  induction pages as [|p pages IH]; cbn [readPages]; quiet_tac;
    [apply quiet_readPage | exact IH].
Qed.

Lemma settles_quiet {A} (m : M A) : quiet m -> settles m.
Proof.
  intros Hm s. specialize (Hm s). destruct (m s) as [[a|e] s1]; cbn in *; auto.
Qed.

Lemma settles_bind {A B} (m : M A) (k : A -> M B) :
  quiet m -> (forall a, settles (k a)) -> settles (bind m k).
Proof.
  intros Hm Hk s. unfold bind. specialize (Hm s).
  destruct (m s) as [[a|e] s1]; cbn in *; [|exact Hm].
  specialize (Hk a s1). destruct (k a s1) as [[b|e] s2]; cbn in *.
  - destruct Hk as [Hk|Hk]; [left; congruence | right; exact Hk].
  - congruence.
Qed.

Lemma settles_monitorPage p pageInfo : settles (monitorPage host p pageInfo).
Proof.
  unfold monitorPage.
  apply settles_bind; [quiet_tac|intros active].
  apply settles_bind; [quiet_tac|intros _].
  apply settles_bind; [quiet_tac|intros c].
  apply settles_bind; [quiet_tac|intros _].
  intros s. unfold bind at 1, try_catch.
  pose proof (quiet_bind (enableDomains host c) (fun _ => ret true)
                (quiet_enableDomains c) (fun _ => quiet_ret true) s) as He.
  destruct ((let* _ := enableDomains host c in ret true) s) as [[enabled|e] s1];
    cbn in He.
  - assert (Hrest : quiet (if enabled
                           then modify (set_activePage
                                  (Some {| page := p; client := c; info := pageInfo |})) ;;
                                updateConnectionState ;;
                                perform host (PageEvaluate p) ;;
                                setupEventListeners c ;;
                                updateStatusBar ;;
                                showSuccessNotification host
                           else ret tt)).
    { destruct enabled; [|apply quiet_ret].
      unfold setupEventListeners, updateStatusBar, showSuccessNotification.
      quiet_tac. }
    specialize (Hrest s1).
    match goal with |- match ?m s1 with _ => _ end => destruct (m s1) as [[[]|e] s2] end;
      cbn in Hrest; [left|]; congruence.
  - unfold bind, notify, ret. rewrite disconnect_run. cbn.
    right. apply disconnected_session.
Qed.

Lemma settles_connectBody : settles (connectBody host).
Proof.
  unfold connectBody.
  apply settles_bind; [quiet_tac|intros b].
  apply settles_bind; [quiet_tac|intros _].
  apply settles_bind; [quiet_tac|intros _].
  apply settles_bind; [quiet_tac|intros _].
  cbv zeta. destruct (pagesOf host b) as [|p pages];
    [apply settles_quiet, quiet_throw|].
  apply settles_bind; [apply quiet_readPages|intros picks].
  apply settles_bind; [quiet_tac|intros _].
  destruct (choose host picks) as [i|]; [|apply settles_quiet, quiet_ret].
  destruct (picks !! i) as [selection|]; [|apply settles_quiet, quiet_ret].
  apply settles_monitorPage.
Qed.

(** [connect] never throws. *)
Lemma connect_returns s : fst (connect host s) = Ok tt.
Proof.
  unfold connect, try_catch.
  destruct (connectBody host s) as [[[]|e] s1]; [reflexivity|].
  unfold bind, notify. rewrite disconnectBegin_run. reflexivity.
Qed.
End Connecting.

(** C3 at the failing input: the user picks the page, its session is
    created and enabling a domain fails.  [connect] then ends disconnected,
    with no teardown left to run, one session created and none detached.
    When instead the failure comes after the session was installed, the
    teardown that [connect] starts has asked for the detach by the time
    [connect] returns and, once it has run, leaves the flag down. *)
Lemma enable_failure_leaves_session_attached :
  let s1 := snd (connect hostEnableFails initialState) in
  let r2 := snd (connect hostEvaluateFails initialState) in
  let s2 := snd (settle hostEvaluateFails r2) in
  (count_calls isToastError (calls s1) = 1
   /\ _isConnected s1 = false
   /\ count_calls isCreateSession (calls s1) = 1
   /\ count_calls isDetach (calls s1) = 0)
  /\ (count_calls isToastError (calls s2) = 1
      /\ _isConnected s2 = false
      /\ count_calls isCreateSession (calls s2) = 1
      /\ count_calls isDetach (calls s2) = 1)
  /\ (pending s1 = [] /\ pending s2 = []
      /\ pending r2 = [AwaitDetach]
      /\ count_calls isDetach (calls r2) = 1).
Proof. cbv zeta. repeat split; vm_compute; reflexivity. Qed.

Lemma disconnect_safe_witness :
  activePage initialState = None
  /\ fst (disconnect hostHealthy initialState) = Ok tt
  /\ buffers (snd (disconnect hostHealthy initialState)) = buffers initialState
  /\ session (snd (disconnect hostHealthy initialState)) = session initialState.
Proof.
  destruct (disconnect_safe hostHealthy initialState 0)
    as (Hok & _ & _ & _ & Hnone & Hnoop & _).
  split; [reflexivity|]. split; [exact Hok|].
  split; [apply Hnone; reflexivity | apply Hnoop; reflexivity].
Defined.

(** The monitor after a successful [connect] to the one page of the host
    whose liveness probe fails. *)
Lemma connected_probe_state :
  _isConnected (snd (connect hostProbeFails initialState)) = true
  /\ fails hostProbeFails (ClientSend 0 "Runtime.evaluate")
       (occurrences (ClientSend 0 "Runtime.evaluate")
          (calls (snd (connect hostProbeFails initialState))))
     = Some protocolError.
Proof. split; vm_compute; reflexivity. Defined.

Lemma health_check_failure_notifies_once_witness :
  let s := snd (connect hostProbeFails initialState) in
  let s1 := snd (healthCheck hostProbeFails 0 s) in
  _isConnected s = true
  /\ (exists tr, calls s1 = calls s ++ tr /\ count_calls isFireDisconnect tr = 1)
  /\ snd (handlePageClosed hostProbeFails s1) = s1.
Proof.
  cbv zeta. destruct connected_probe_state as [Hc Hf].
  destruct (health_check_failure_notifies_once hostProbeFails 0
              (snd (connect hostProbeFails initialState)) protocolError Hc Hf)
    as (Htr & _ & Hsame).
  split; [exact Hc|]. split; [exact Htr | exact Hsame].
Defined.

(** C5 at the failing input: the monitor is connected, the liveness probe
    fails, and the page crashes while the [disconnect] of the health check
    is suspended at [await this.browser.disconnect()], after
    [stopMonitoring] has cleared the session.  The flag is lowered only
    after that await, so the crash handler passes its guard and runs
    [disconnect] as well: the disconnected notification fires twice.  When
    the crash is handled after the health check has finished, it fires
    once. *)
Lemma crash_during_teardown_notifies_twice :
  let s := snd (connect hostProbeFails initialState) in
  let s1 := snd (healthCheckBegin hostProbeFails 0 s) in
  let s2 := snd (resume hostProbeFails s1) in
  let s3 := snd (handlePageClosedBegin hostProbeFails s2) in
  let s4 := snd (resumeAt hostProbeFails 1 s3) in
  let s5 := snd (settle hostProbeFails s4) in
  let s' := snd (handlePageClosed hostProbeFails
                   (snd (healthCheck hostProbeFails 0 s))) in
  (_isConnected s = true /\ pending s = [])
  /\ (pending s1 = [AwaitDetach] /\ pending s2 = [AwaitBrowser]
      /\ activePage s2 = None /\ _isConnected s2 = true)
  /\ pending s3 = [AwaitBrowser; AwaitStop]
  /\ (pending s5 = [] /\ session s5 = (None, None, false, None))
  /\ count_calls isFireDisconnect (calls s5)
     = count_calls isFireDisconnect (calls s) + 2
  /\ count_calls isFireDisconnect (calls s')
     = count_calls isFireDisconnect (calls s) + 1.
Proof. cbv zeta. repeat split; vm_compute; reflexivity. Qed.
End MonitorProofs.

Module ComposerExtraProofs.
Import Composer ComposerExtra ComposerProofs.

#[local] Arguments occurrences : simpl never.

Section Adds.
Variable stub : Call -> nat -> option JsError.
Variable P : Call -> Prop.

Lemma adds_ret {A} (a : A) : adds P (@ret State A a).
Proof. intros s. exists []. rewrite app_nil_r. split; [reflexivity | constructor]. Qed.

Lemma adds_throw {A} e : adds P (@throw State A e).
Proof. intros s. exists []. rewrite app_nil_r. split; [reflexivity | constructor]. Qed.

Lemma adds_gets {A} (f : State -> A) : adds P (gets f).
Proof. intros s. exists []. rewrite app_nil_r. split; [reflexivity | constructor]. Qed.

Lemma adds_modify f : (forall s, calls (f s) = calls s) -> adds P (modify f).
Proof.
  intros Hf s. exists []. cbn. rewrite Hf, app_nil_r. split; [reflexivity | constructor].
Qed.

Lemma adds_perform c : P c -> adds P (perform stub c).
Proof.
  intros Hc s. exists [c]. rewrite perform_calls. split; [reflexivity|].
  constructor; [exact Hc | constructor].
Qed.

Lemma adds_notify c : P c -> adds P (notify c).
Proof.
  intros Hc s. exists [c]. split; [reflexivity|]. constructor; [exact Hc | constructor].
Qed.

Lemma adds_bind {A B} (m : M A) (k : A -> M B) :
  adds P m -> (forall a, adds P (k a)) -> adds P (bind m k).
Proof.
  intros Hm Hk s. unfold bind. destruct (Hm s) as (tr1 & H1 & F1).
  destruct (m s) as [[a|e] s1]; cbn in *; [|eauto].
  destruct (Hk a s1) as (tr2 & H2 & F2). exists (tr1 ++ tr2).
  rewrite H2, H1, app_assoc. split; [reflexivity | apply Forall_app; auto].
Qed.

Lemma adds_try_catch {A} (m : M A) h :
  adds P m -> (forall e, adds P (h e)) -> adds P (try_catch m h).
Proof.
  intros Hm Hh s. unfold try_catch. destruct (Hm s) as (tr1 & H1 & F1).
  destruct (m s) as [[a|e] s1]; cbn in *; [eauto|].
  destruct (Hh e s1) as (tr2 & H2 & F2). exists (tr1 ++ tr2).
  rewrite H2, H1, app_assoc. split; [reflexivity | apply Forall_app; auto].
Qed.

Lemma adds_try_finally {A} (m : M A) f :
  adds P m -> adds P f -> adds P (try_finally m f).
Proof.
  intros Hm Hf s. unfold try_finally. destruct (Hm s) as (tr1 & H1 & F1).
  destruct (m s) as [r s1]; cbn in *.
  destruct (Hf s1) as (tr2 & H2 & F2).
  exists (tr1 ++ tr2). destruct (f s1) as [[[]|e] s2]; cbn in *;
    rewrite H2, H1, app_assoc; (split; [reflexivity | apply Forall_app; auto]).
Qed.
End Adds.

Section Alphabet.
Variable stub : Call -> nat -> option JsError.
Variable P : Call -> Prop.
Hypothesis P_command : forall cmd, P (ExecuteCommand cmd).
Hypothesis P_clear : P ClearClipboard.
Hypothesis P_error : forall msg, P (ShowErrorMessage msg).
Hypothesis P_progress : forall t, P (WithProgress t).

Ltac adds_tac :=
  repeat first
    [ apply adds_ret | apply adds_throw | apply adds_gets
    | apply adds_modify; intros; reflexivity
    | apply adds_perform; solve [auto]
    | apply adds_notify; solve [auto]
    | apply adds_bind; [|intros ?]
    | apply adds_try_catch; [|intros ?]
    | apply adds_try_finally
    | match goal with
      | |- adds _ (match ?x with _ => _ end) => destruct x
      | |- adds _ (if ?b then _ else _) => destruct b
      end ].

Lemma adds_openComposer : adds P (openComposer stub).
Proof. unfold openComposer, delay. adds_tac. Qed.

Lemma adds_sendImageToComposer shot :
  (forall c, isImagePath c = true -> P c) ->
  adds P (sendImageToComposer stub shot).
Proof.
  intros Hi s.
  unfold sendImageToComposer, mkdirAndWrite, try_finally, try_catch, bind,
    perform, delay, ret, throw, record.
  repeat match goal with
         | |- context [stub ?c ?n] => destruct (stub c n)
         end; cbn; rewrite <- ?app_assoc; (eexists; split; [reflexivity|]);
    repeat constructor; auto.
Qed.

Lemma adds_imageStep screenshot v :
  (is_Some screenshot -> forall c, isImagePath c = true -> P c) ->
  adds P (imageStep stub screenshot v).
Proof.
  intros Hi. unfold imageStep, delay.
  destruct screenshot as [shot|]; [|apply adds_ret].
  specialize (Hi (ex_intro _ shot eq_refl)).
  adds_tac. apply adds_sendImageToComposer. exact Hi.
Qed.

Lemma adds_textStep formattedLogs v :
  (truthy formattedLogs = true -> forall c, isTextPath c = true -> P c) ->
  adds P (textStep stub formattedLogs v).
Proof.
  intros Ht. unfold textStep, prepareTextForComposer, delay.
  destruct (truthy formattedLogs) eqn:Et; cbn; [|apply adds_ret].
  specialize (Ht eq_refl). adds_tac.
Qed.

Lemma adds_iteration screenshot formattedLogs v :
  (is_Some screenshot -> forall c, isImagePath c = true -> P c) ->
  (truthy formattedLogs = true -> forall c, isTextPath c = true -> P c) ->
  adds P (iteration stub screenshot formattedLogs v).
Proof.
  intros Hi Ht. unfold iteration, showSuccessNotification.
  apply adds_try_finally; [|adds_tac].
  apply adds_try_catch; [|intros e; adds_tac].
  apply adds_bind; [apply adds_openComposer|intros _].
  apply adds_bind; [apply adds_imageStep, Hi|intros v1].
  apply adds_bind; [apply adds_textStep, Ht|intros v2].
  adds_tac.
Qed.

Lemma adds_loop screenshot formattedLogs fuel :
  (is_Some screenshot -> forall c, isImagePath c = true -> P c) ->
  (truthy formattedLogs = true -> forall c, isTextPath c = true -> P c) ->
  forall v, adds P (loop stub screenshot formattedLogs fuel v).
Proof.
  intros Hi Ht.
  induction fuel as [|fuel IH]; intros v; cbn [loop];
    destruct (loopCondition screenshot formattedLogs v); try apply adds_ret.
  apply adds_bind; [apply adds_iteration; assumption|intros [v'|]];
    [apply IH | apply adds_ret].
Qed.
End Alphabet.

(** X1: a call that carries no screenshot makes no call of the image path
    (staging file, image clipboard, image verification), and a call that
    carries no logs makes no call of the text path, whatever the host
    answers. *)
Theorem absent_artifact_path_untouched stub fuel s :
  (forall logs, exists tr,
      calls (snd (sendToComposer stub fuel None logs s)) = calls s ++ tr
      /\ Forall (fun c => isImagePath c = false) tr)
  /\ (forall screenshot, exists tr,
      calls (snd (sendToComposer stub fuel screenshot None s)) = calls s ++ tr
      /\ Forall (fun c => isTextPath c = false) tr).
Proof.
  split.
  - intros logs. unfold sendToComposer.
    apply (adds_loop stub (fun c => isImagePath c = false)); try reflexivity.
    + intros [x Hx]. discriminate.
    + intros _ c Hc. destruct c as [| |[]| | | | | | |]; try discriminate; reflexivity.
  - intros screenshot. unfold sendToComposer.
    apply (adds_loop stub (fun c => isTextPath c = false)); try reflexivity.
    + intros _ c Hc. destruct c as [| |[]| | | | | | |]; try discriminate; reflexivity.
    + discriminate.
Qed.

(** *** What one call always does *)

Section Always.
Variable stub : Call -> nat -> option JsError.

Abbreviation mono := (adds (fun _ => True)).

Lemma bind_ret_l {A B} (a : A) (k : A -> M (S := State) B) :
  bind (ret a) k = k a.
Proof. reflexivity. Qed.

Lemma mono_count {A} (m : M A) p s :
  mono m -> count_calls p (calls s) <= count_calls p (calls (snd (m s))).
Proof.
  intros Hm. destruct (Hm s) as (tr & -> & _). rewrite count_calls_app. lia.
Qed.

Lemma atLeast_bind_l {A B} p n (m : M A) (k : A -> M B) :
  atLeast p n m -> (forall a, mono (k a)) -> atLeast p n (bind m k).
Proof.
  intros Hm Hk s. unfold bind. specialize (Hm s).
  destruct (m s) as [[a|e] s1]; cbn in *; [|exact Hm].
  etransitivity; [exact Hm|]. apply mono_count, Hk.
Qed.

Lemma atLeast_bind_r {A B} p n (m : M A) (k : A -> M B) :
  (forall s, exists a, fst (m s) = Ok a) -> mono m ->
  (forall a, atLeast p n (k a)) -> atLeast p n (bind m k).
Proof.
  intros Ht Hm Hk s. unfold bind. destruct (Ht s) as [a Ha].
  pose proof (mono_count m p s Hm) as Hc.
  destruct (m s) as [[a'|e] s1]; cbn in *; [|discriminate].
  specialize (Hk a' s1). lia.
Qed.

Lemma atLeast_try_catch {A} p n (m : M A) h :
  atLeast p n m -> (forall e, mono (h e)) -> atLeast p n (try_catch m h).
Proof.
  intros Hm Hh s. unfold try_catch. specialize (Hm s).
  destruct (m s) as [[a|e] s1]; cbn in *; [exact Hm|].
  etransitivity; [exact Hm|]. apply mono_count, Hh.
Qed.

Lemma atLeast_try_finally {A} p n (m : M A) f :
  atLeast p n m -> mono f -> atLeast p n (try_finally m f).
Proof.
  intros Hm Hf s. unfold try_finally. specialize (Hm s).
  pose proof (fun s1 => mono_count f p s1 Hf) as Hc.
  destruct (m s) as [r s1]; cbn in *. specialize (Hc s1).
  destruct (f s1) as [[[]|e] s2]; cbn in *; lia.
Qed.

Lemma atLeast_perform p c : p c = true -> atLeast p 1 (perform stub c).
Proof.
  intros Hc s. rewrite perform_calls, count_calls_app. cbn. rewrite Hc. lia.
Qed.

Ltac mono_tac :=
  repeat first
    [ apply adds_ret | apply adds_throw | apply adds_gets
    | apply adds_modify; intros; reflexivity
    | apply adds_perform; exact I
    | apply adds_notify; exact I
    | apply adds_sendImageToComposer; intros; exact I
    | apply adds_openComposer; intros; exact I
    | apply adds_imageStep; intros; exact I
    | apply adds_textStep; intros; exact I
    | apply adds_bind; [|intros ?]
    | apply adds_try_catch; [|intros ?]
    | apply adds_try_finally
    | match goal with
      | |- adds _ (match ?x with _ => _ end) => destruct x
      | |- adds _ (if ?b then _ else _) => destruct b
      end ].

Lemma imageStep_clears screenshot v :
  imgActive screenshot v = true ->
  atLeast isClear 1 (imageStep stub screenshot v).
Proof.
  unfold imgActive, imageStep. destruct screenshot as [shot|]; [|discriminate].
  destruct (imageSuccess v); [discriminate|]. intros _. cbn [negb].
  apply atLeast_bind_l; [apply atLeast_perform; reflexivity|intros _].
  unfold delay. mono_tac.
Qed.

Lemma textStep_clears formattedLogs v :
  txtActive formattedLogs v = true ->
  atLeast isClear 1 (textStep stub formattedLogs v).
Proof.
  unfold txtActive, textStep. intros ->. unfold delay at 1.
  rewrite bind_ret_l.
  apply atLeast_bind_l; [apply atLeast_perform; reflexivity|intros _].
  unfold prepareTextForComposer, delay. mono_tac.
Qed.

Lemma iteration_clears screenshot formattedLogs v :
  loopCondition screenshot formattedLogs v = true ->
  atLeast isClear 1 (iteration stub screenshot formattedLogs v).
Proof.
  intros Hc.
  assert (Hact : imgActive screenshot v = true
                 \/ (imgActive screenshot v = false
                     /\ txtActive formattedLogs v = true)).
  { unfold loopCondition, imgActive, txtActive in *.
    destruct (bool_decide (is_Some screenshot) && negb (imageSuccess v));
      [left; reflexivity|right]. split; [reflexivity|].
    cbn in Hc. apply andb_true_iff in Hc. tauto. }
  unfold iteration, showSuccessNotification.
  apply atLeast_try_finally; [|mono_tac].
  apply atLeast_try_catch; [|intros e; mono_tac].
  apply atLeast_bind_r.
  { intros s. exists tt. apply openComposer_spec. }
  { mono_tac. }
  intros _. destruct Hact as [Hi|[Hi Ht]].
  - apply atLeast_bind_l; [apply imageStep_clears, Hi|intros v1].
    mono_tac.
  - assert (Hret : imageStep stub screenshot v = ret v).
    { unfold imgActive, imageStep in *. destruct screenshot; [|reflexivity].
      destruct (imageSuccess v); [reflexivity | discriminate]. }
    rewrite Hret, bind_ret_l.
    apply atLeast_bind_l; [apply textStep_clears, Ht|intros v2].
    mono_tac.
Qed.

Lemma loop_clears screenshot formattedLogs fuel v :
  loopCondition screenshot formattedLogs v = true ->
  atLeast isClear 1 (loop stub screenshot formattedLogs (S fuel) v).
Proof.
  intros Hc. cbn [loop]. rewrite Hc.
  apply atLeast_bind_l; [apply iteration_clears, Hc|intros [v'|]].
  - apply adds_loop; auto.
  - apply adds_ret.
Qed.

Lemma loopCondition_initial screenshot logs :
  loopCondition screenshot (formatted logs) initialVars
  = bool_decide (is_Some screenshot) || bool_decide (is_Some logs).
Proof.
  unfold loopCondition. rewrite truthy_formatted. cbn.
  rewrite !andb_true_r. reflexivity.
Qed.

(** X2: a call that carries neither a screenshot nor logs returns at once,
    with no host call and no notification; a call that carries anything
    makes at least one host call (it clears the clipboard). *)
Theorem sendToComposer_idle_iff fuel screenshot logs s :
  0 < fuel ->
  (screenshot = None /\ logs = None ->
   sendToComposer stub fuel screenshot logs s = (Ok (Some tt), s))
  /\ (calls (snd (sendToComposer stub fuel screenshot logs s)) = calls s ->
      screenshot = None /\ logs = None).
Proof.
  intros Hf. split.
  - intros [-> ->]. destruct fuel; reflexivity.
  - intros Hsame. unfold sendToComposer in Hsame. fold (formatted logs) in Hsame.
    destruct (loopCondition screenshot (formatted logs) initialVars) eqn:Ec.
    + destruct fuel as [|fuel]; [lia|].
      pose proof (loop_clears screenshot (formatted logs) fuel initialVars Ec s) as H.
      rewrite Hsame in H. lia.
    + rewrite loopCondition_initial in Ec. apply orb_false_iff in Ec.
      destruct Ec as [E1 E2].
      apply bool_decide_eq_false_1 in E1, E2.
      split; [destruct screenshot | destruct logs]; try reflexivity;
        exfalso; eauto.
Qed.

(** X3: after a call that carries a screenshot or logs the marker
    [composerOpened] is down, however the call ends. *)
Theorem sendToComposer_releases_marker fuel screenshot logs s :
  3 <= fuel ->
  is_Some screenshot \/ is_Some logs ->
  composerOpened (snd (sendToComposer stub fuel screenshot logs s)) = false.
Proof.
  intros Hf Hreq.
  destruct (sendToComposer_fuel stub fuel screenshot logs s Hf) as [-> Hn].
  unfold sendToComposer in *. fold (formatted logs) in *.
  apply loop_released; [right|exact Hn].
  rewrite loopCondition_initial. apply orb_true_iff.
  destruct Hreq as [H|H]; [left|right]; apply bool_decide_eq_true_2, H.
Qed.


Lemma iteration_last screenshot formattedLogs v s :
  match fst (iteration stub screenshot formattedLogs v s) with
  | Throw e =>
      last (calls (snd (iteration stub screenshot formattedLogs v s)))
      = Some (ShowErrorMessage
                ("Failed to send data to composer: " +:+ message e))
  | Ok Return =>
      last (calls (snd (iteration stub screenshot formattedLogs v s)))
      = Some (WithProgress "Successfully sent to Composer")
  | Ok (Continue v') => allDone screenshot formattedLogs v' = false
  end.
Proof.
  unfold iteration, try_finally, try_catch, bind, modify, notify, throw, ret,
    showSuccessNotification, set_composerOpened, record.
  destruct (openComposer stub s) as [[[]|e0] s0]; cbn;
    [|rewrite last_snoc; reflexivity].
  destruct (imageStep stub screenshot v s0) as [[v1|e1] s1]; cbn;
    [|rewrite last_snoc; reflexivity].
  destruct (textStep stub formattedLogs v1 s1) as [[v2|e2] s2]; cbn;
    [|rewrite last_snoc; reflexivity].
  destruct (allDone screenshot formattedLogs v2) eqn:Ed; cbn; [|exact Ed].
  unfold perform. destruct (stub _ _); cbn; rewrite ?last_snoc; reflexivity.
Qed.

Lemma unfinished_continues screenshot formattedLogs v :
  Inv screenshot formattedLogs v ->
  allDone screenshot formattedLogs v = false ->
  loopCondition screenshot formattedLogs v = true.
Proof.
  unfold Inv, allDone, loopCondition, imgActive, txtActive, maxRetries.
  intros [Hi Ht] Hd.
  destruct (bool_decide (is_Some screenshot)), (imageSuccess v),
    (truthy formattedLogs), (textSuccess v); cbn in *; try discriminate;
    try (specialize (Hi eq_refl)); try (specialize (Ht eq_refl));
    rewrite ?orb_false_r, ?orb_true_r; try reflexivity;
    try (apply orb_true_iff; left); apply Nat.leb_le; lia.
Qed.

Lemma loop_last screenshot formattedLogs fuel : forall v s,
  Inv screenshot formattedLogs v ->
  loopCondition screenshot formattedLogs v = true ->
  match fst (loop stub screenshot formattedLogs fuel v s) with
  | Throw e =>
      last (calls (snd (loop stub screenshot formattedLogs fuel v s)))
      = Some (ShowErrorMessage
                ("Failed to send data to composer: " +:+ message e))
  | Ok (Some _) =>
      last (calls (snd (loop stub screenshot formattedLogs fuel v s)))
      = Some (WithProgress "Successfully sent to Composer")
  | Ok None => True
  end.
Proof.
  induction fuel as [|fuel IH]; intros v s HI Hc; cbn [loop]; rewrite Hc;
    [exact I|].
  unfold bind. pose proof (iteration_last screenshot formattedLogs v s) as Hl.
  destruct (iteration_spec stub screenshot formattedLogs v s) as (_ & _ & _ & _ & Hr).
  destruct (iteration stub screenshot formattedLogs v s) as [[[v'|]|e] s1];
    cbn in *; try exact Hl.
  destruct (stepRel_left _ _ _ _ HI Hr) as (HI' & _).
  apply IH; [exact HI'|]. apply unfinished_continues; assumption.
Qed.

(** X4: a call that carries a screenshot or logs never ends silently: when
    it throws [e], its last host call showed the error message built from
    [e]; when it returns, its last host call was the success notification. *)
Theorem sendToComposer_reports_outcome fuel screenshot logs s :
  3 <= fuel ->
  is_Some screenshot \/ is_Some logs ->
  match fst (sendToComposer stub fuel screenshot logs s) with
  | Throw e =>
      last (calls (snd (sendToComposer stub fuel screenshot logs s)))
      = Some (ShowErrorMessage
                ("Failed to send data to composer: " +:+ message e))
  | Ok _ =>
      last (calls (snd (sendToComposer stub fuel screenshot logs s)))
      = Some (WithProgress "Successfully sent to Composer")
  end.
Proof.
  intros Hf Hreq.
  destruct (sendToComposer_fuel stub fuel screenshot logs s Hf) as [-> Hn].
  unfold sendToComposer in *. fold (formatted logs) in *.
  assert (Hc : loopCondition screenshot (formatted logs) initialVars = true).
  { rewrite loopCondition_initial. apply orb_true_iff.
    destruct Hreq as [H|H]; [left|right]; apply bool_decide_eq_true_2, H. }
  pose proof (loop_last screenshot (formatted logs) 3 initialVars s
                (Inv_initial _ _) Hc) as Hl.
  destruct (loop stub screenshot (formatted logs) 3 initialVars s)
    as [[[[]|]|e] s1]; cbn in *; [exact Hl | congruence | exact Hl].
Qed.

End Always.

(** An idle call on a fresh state, and a call with a screenshot that leaves
    a trace. *)
Lemma sendToComposer_idle_iff_witness :
  0 < 3
  /\ sendToComposer stubNeverVerifies 3 None None freshState
     = (Ok (Some tt), freshState).
Proof.
  split; [lia|].
  apply (sendToComposer_idle_iff stubNeverVerifies 3 None None freshState);
    [lia | split; reflexivity].
Defined.

Lemma sendToComposer_releases_marker_witness :
  3 <= 3
  /\ composerOpened
       (snd (sendToComposer stubNeverVerifies 3 (Some pixel) (Some noLogs)
               freshState)) = false.
Proof.
  split; [lia|].
  apply (sendToComposer_releases_marker stubNeverVerifies 3 (Some pixel)
           (Some noLogs) freshState); [lia | left; eexists; reflexivity].
Defined.

Lemma sendToComposer_reports_outcome_witness :
  3 <= 3
  /\ match fst (sendToComposer stubFailsTwice 3 None (Some noLogs) freshState) with
     | Throw e =>
         last (calls (snd (sendToComposer stubFailsTwice 3 None (Some noLogs)
                             freshState)))
         = Some (ShowErrorMessage
                   ("Failed to send data to composer: " +:+ message e))
     | Ok _ =>
         last (calls (snd (sendToComposer stubFailsTwice 3 None (Some noLogs)
                             freshState)))
         = Some (WithProgress "Successfully sent to Composer")
     end.
Proof.
  split; [lia|].
  apply (sendToComposer_reports_outcome stubFailsTwice 3 None (Some noLogs)
           freshState); [lia | right; eexists; reflexivity].
Defined.

Lemma string_append_nil_r (s : string) : s +:+ EmptyString = s.
Proof. induction s as [|c s IH]; [reflexivity | exact (f_equal (String c) IH)]. Qed.

Lemma string_append_assoc (s1 s2 s3 : string) :
  s1 +:+ (s2 +:+ s3) = (s1 +:+ s2) +:+ s3.
Proof. induction s1 as [|c s1 IH]; [reflexivity | exact (f_equal (String c) IH)]. Qed.

Lemma fold_left_append {A} (f : A -> string) l acc :
  fold_left (fun a x => a +:+ f x) l acc = acc +:+ concat_lines (map f l).
Proof.
  revert acc. induction l as [|x l IH]; intros acc; cbn.
  - symmetry. apply string_append_nil_r.
  - rewrite IH. symmetry. apply string_append_assoc.
Qed.

Lemma lineBreaks_append (s1 s2 : string) :
  lineBreaks (s1 +:+ s2) = lineBreaks s1 + lineBreaks s2.
Proof.
  induction s1 as [|c s1 IH]; [reflexivity|].
  change (lineBreaks (String c s1 +:+ s2))
    with ((if Ascii.eqb c "010" then 1 else 0) + lineBreaks (s1 +:+ s2)).
  rewrite IH. cbn [lineBreaks]. lia.
Qed.

Lemma pretty_N_char_no_break (x : N) :
  Ascii.eqb (pretty_N_char x) "010" = false.
Proof. unfold pretty_N_char. repeat case_match; reflexivity. Qed.

Lemma lineBreaks_pretty_N_go (x : N) (s : string) :
  lineBreaks (pretty_N_go x s) = lineBreaks s.
Proof.
  revert s. induction (N.lt_wf_0 x) as [x _ IH]. intros s.
  destruct (decide (x = 0%N)) as [->|Hx]; [reflexivity|].
  rewrite pretty_N_go_step by lia.
  rewrite IH by (apply N.div_lt; lia).
  cbn [lineBreaks]. rewrite pretty_N_char_no_break. reflexivity.
Qed.

Lemma lineBreaks_pretty_N (x : N) : lineBreaks (pretty x) = 0.
Proof.
  unfold pretty, pretty_N. case_decide; [reflexivity|].
  apply lineBreaks_pretty_N_go.
Qed.

Lemma lineBreaks_pretty_Z (z : Z) : lineBreaks (pretty z) = 0.
Proof.
  destruct z as [|p|p].
  - reflexivity.
  - exact (lineBreaks_pretty_N (Npos p)).
  - change (lineBreaks ("-" +:+ pretty (Npos p)) = 0).
    rewrite lineBreaks_append, lineBreaks_pretty_N. reflexivity.
Qed.

Lemma lineBreaks_logTypeName t : lineBreaks (logTypeName t) = 0.
Proof. destruct t; reflexivity. Qed.

Lemma lineBreaks_formatConsoleLine l :
  singleLine (consoleFields l) -> lineBreaks (formatConsoleLine l) = 1.
Proof.
  intros Hl. apply Forall_cons_1 in Hl as [Ht _].
  unfold formatConsoleLine.
  rewrite !lineBreaks_append, lineBreaks_logTypeName, Ht. reflexivity.
Qed.

Lemma lineBreaks_formatNetworkLine r :
  singleLine (networkFields r) -> lineBreaks (formatNetworkLine r) = 1.
Proof.
  intros Hr. apply Forall_cons_1 in Hr as [Hu Hr].
  apply Forall_cons_1 in Hr as [He _].
  unfold formatNetworkLine.
  destruct (truthy_opt (req_error r));
    rewrite !lineBreaks_append, ?lineBreaks_pretty_Z, Hu, ?He; reflexivity.
Qed.

Lemma lineBreaks_concat_lines {A} (f : A -> string) (fields : A -> list string) l :
  (forall x, singleLine (fields x) -> lineBreaks (f x) = 1) ->
  Forall (fun x => singleLine (fields x)) l ->
  lineBreaks (concat_lines (map f l)) = length l.
Proof.
  intros Hf Hl. induction Hl as [|x l Hx _ IH]; [reflexivity|].
  cbn [map concat_lines fold_right length].
  rewrite lineBreaks_append, (Hf x Hx). fold (concat_lines (map f l)).
  rewrite IH. reflexivity.
Qed.

(** X6: the text [formatLogs] builds is the console header, the lines of
    the console records in buffer order, the network header, and the lines
    of the network records in buffer order.  When no message, URL or error
    text holds a line break, each record takes exactly one line: the text
    has three line breaks for the headers and one per record. *)
Theorem formatLogs_sections logs :
  formatLogs logs
  = ("---Console Logs---
" +:+ concat_lines (map formatConsoleLine (console_items logs)))
    +:+ "
---Network Requests---
" +:+ concat_lines (map formatNetworkLine (network_items logs))
  /\ (Forall (fun l => singleLine (consoleFields l)) (console_items logs) ->
      Forall (fun r => singleLine (networkFields r)) (network_items logs) ->
      Forall (fun l => lineBreaks (formatConsoleLine l) = 1) (console_items logs)
      /\ Forall (fun r => lineBreaks (formatNetworkLine r) = 1) (network_items logs)
      /\ lineBreaks (formatLogs logs)
         = 3 + length (console_items logs) + length (network_items logs)).
Proof.
  assert (Heq : formatLogs logs
                = ("---Console Logs---
" +:+ concat_lines (map formatConsoleLine (console_items logs)))
    +:+ "
---Network Requests---
" +:+ concat_lines (map formatNetworkLine (network_items logs))).
  { unfold formatLogs. rewrite !fold_left_append.
    rewrite <- !string_append_assoc. reflexivity. }
  split; [exact Heq|]. intros Hc Hn.
  split; [|split].
  - eapply Forall_impl; [exact Hc|]. intros l. apply lineBreaks_formatConsoleLine.
  - eapply Forall_impl; [exact Hn|]. intros r. apply lineBreaks_formatNetworkLine.
  - rewrite Heq, !lineBreaks_append.
    rewrite (lineBreaks_concat_lines formatConsoleLine consoleFields _
               lineBreaks_formatConsoleLine Hc).
    rewrite (lineBreaks_concat_lines formatNetworkLine networkFields _
               lineBreaks_formatNetworkLine Hn).
    cbn [lineBreaks Ascii.eqb]. cbn. lia.
Qed.

(** Two console records and a failed request. *)
Lemma formatLogs_sections_witness :
  lineBreaks
    (formatLogs
       {| console_items := [ {| log_type := LogWarn; log_text := "slow";
                                log_timestamp := 1 |};
                             {| log_type := LogError; log_text := "boom";
                                log_timestamp := 2 |} ];
          network_items := [ {| req_url := "http://localhost/x"; req_status := 0;
                                req_error := Some "net::ERR_FAILED";
                                req_timestamp := 3 |} ] |})
  = 3 + 2 + 1.
Proof.
  refine (proj2 (proj2 (proj2 (formatLogs_sections _) _ _))).
  - constructor; [|constructor; [|constructor]];
      (constructor; [reflexivity | constructor]).
  - constructor; [|constructor].
    constructor; [reflexivity|]. constructor; [reflexivity | constructor].
Defined.
End ComposerExtraProofs.

Module MonitorExtraProofs.
Import Monitor MonitorExtra MonitorProofs.

Section Frame.
Variable host : Host.
Context {B : Type}.
Variable f : State -> B.
Hypothesis f_record : forall c s, f (record c s) = f s.

Lemma keeps_ret {A} (a : A) : keeps f (@ret State A a).
Proof. intros s. reflexivity. Qed.

Lemma keeps_throw {A} e : keeps f (@throw State A e).
Proof. intros s. reflexivity. Qed.

Lemma keeps_gets {A} (g : State -> A) : keeps f (gets g).
Proof. intros s. reflexivity. Qed.

Lemma keeps_bind {A C} (m : M A) (k : A -> M C) :
  keeps f m -> (forall a, keeps f (k a)) -> keeps f (bind m k).
Proof.
  intros Hm Hk s. unfold bind. specialize (Hm s).
  destruct (m s) as [[a|e] s1]; cbn in *; [|exact Hm].
  rewrite (Hk a s1). exact Hm.
Qed.

Lemma keeps_try_catch {A} (m : M A) h :
  keeps f m -> (forall e, keeps f (h e)) -> keeps f (try_catch m h).
Proof.
  intros Hm Hh s. unfold try_catch. specialize (Hm s).
  destruct (m s) as [[a|e] s1]; cbn in *; [exact Hm|].
  rewrite (Hh e s1). exact Hm.
Qed.

Lemma keeps_perform c : keeps f (perform host c).
Proof. intros s. rewrite perform_state. apply f_record. Qed.

Lemma keeps_notify c : keeps f (notify c).
Proof. intros s. apply f_record. Qed.

Lemma keeps_modify g : (forall s, f (g s) = f s) -> keeps f (modify g).
Proof. intros Hg s. apply Hg. Qed.

Lemma keeps_enableDomains c : keeps f (enableDomains host c).
Proof.
  intros s. unfold enableDomains.
  repeat match goal with
  | |- context [perform host ?c ?s] =>
      let Hp := fresh "Hp" in
      pose proof (perform_state host c s) as Hp;
      destruct (perform host c s) as [? ?]; cbn in Hp; subst
  end.
  cbn [snd]. rewrite !f_record. reflexivity.
Qed.

Lemma keeps_readPage p : keeps f (readPage host p).
Proof.
  intros s. unfold readPage.
  repeat match goal with
  | |- context [perform host ?c ?s] =>
      let Hp := fresh "Hp" in
      pose proof (perform_state host c s) as Hp;
      destruct (perform host c s) as [[?|?] ?]; cbn in Hp; subst
  end; cbn [snd]; rewrite !f_record; reflexivity.
Qed.

Lemma keeps_readPages pages : keeps f (readPages host pages).
Proof.
  induction pages as [|p pages IH]; cbn [readPages]; [apply keeps_ret|].
  apply keeps_bind; [apply keeps_readPage|intros x].
  apply keeps_bind; [exact IH|intros xs]. apply keeps_ret.
Qed.
End Frame.

Ltac keeps_tac :=
  repeat first
    [ apply keeps_ret | apply keeps_throw | apply keeps_gets
    | apply keeps_perform; intros; reflexivity
    | apply keeps_notify; intros; reflexivity
    | apply keeps_modify; intros; reflexivity
    | apply keeps_enableDomains; intros; reflexivity
    | apply keeps_readPages; intros; reflexivity
    | apply keeps_bind; [|intros ?]
    | apply keeps_try_catch; [|intros ?]
    | match goal with
      | |- keeps _ (match ?x with _ => _ end) => destruct x
      | |- keeps _ (if ?b then _ else _) => destruct b
      end ].

Section Sessions.
Variable host : Host.

Lemma keeps_buffers_disconnect : keeps buffers (disconnect host).
Proof. intros s. rewrite disconnect_run. apply disconnected_buffers. Qed.

Lemma keeps_buffers_handleSessionError : keeps buffers (handleSessionError host).
Proof.
  unfold handleSessionError. keeps_tac.
Qed.

Lemma keeps_buffers_monitorPage p pageInfo :
  keeps buffers (monitorPage host p pageInfo).
Proof.
  unfold monitorPage, stopMonitoring, updateConnectionState, updateStatusBar,
    setupEventListeners, showSuccessNotification.
  keeps_tac.
Qed.

Lemma keeps_buffers_connect : keeps buffers (connect host).
Proof.
  unfold connect, connectBody. cbv zeta.
  keeps_tac.
Qed.

(** X7: the captured logs outlive the session: connecting (also when it
    fails or replaces a session), disconnecting, a page close or crash, a
    health check and the probe of [getPageForScreenshot] leave both
    buffers, and the arrays they refer to, as they were. *)
Theorem session_changes_keep_the_logs c s :
  buffers (snd (connect host s)) = buffers s
  /\ buffers (snd (disconnect host s)) = buffers s
  /\ buffers (snd (handlePageClosed host s)) = buffers s
  /\ buffers (snd (healthCheck host c s)) = buffers s
  /\ buffers (snd (getPageForScreenshot host s)) = buffers s.
Proof.
  split; [apply keeps_buffers_connect|].
  split; [apply keeps_buffers_disconnect|].
  split; [|split].
  - revert s. fold (keeps buffers (handlePageClosed host)).
    unfold handlePageClosed. keeps_tac.
  - revert s. fold (keeps buffers (healthCheck host c)).
    unfold healthCheck, clearHealthCheck. keeps_tac.
  - revert s. fold (keeps buffers (getPageForScreenshot host)).
    unfold getPageForScreenshot. keeps_tac.
Qed.

(** *** The connection flag *)






Lemma inSync_disconnected s : inSync (disconnected s).
Proof.
  destruct s as [[b|] [a|] ? ? ? [t|] ? ? ? ? ? ?]; reflexivity.
Qed.





Lemma inSync_handleSessionError s :
  inSync s -> inSync (snd (handleSessionError host s)).
Proof.
  intros Hs. rewrite handleSessionError_run. cbn [snd].
  destruct (_isConnected s); [apply inSync_disconnected | exact Hs].
Qed.



Lemma keeps_pending_connectBody : keeps pending (connectBody host).
Proof.
  unfold connectBody, monitorPage, disconnect, stopMonitoring, releaseBrowser,
    clearHealthCheck, updateConnectionState, updateStatusBar, setupEventListeners,
    showSuccessNotification.
  cbv zeta. keeps_tac.
Qed.
















(** [connect] after an error toast: once the teardown it started has run,
    the monitor has no browser, no active page, no timer and the flag
    down. *)
Lemma connect_failure_settles s :
  pending s = [] ->
  toasts (snd (connect host s)) <> toasts s ->
  session (snd (settle host (snd (connect host s)))) = (None, None, false, None).
Proof.
  intros Hq. unfold connect, try_catch.
  pose proof (keeps_pending_connectBody s) as Hk.
  pose proof (settles_connectBody host s) as Hb.
  destruct (connectBody host s) as [[[]|e] s1]; cbn [snd] in *.
  - intros Hne. rewrite settle_idle by congruence.
    destruct Hb; [contradiction | assumption].
  - intros _. unfold bind, notify. rewrite disconnectBegin_run. cbn [snd].
    rewrite settle_begun by (cbn; congruence). apply disconnected_session.
Qed.


(** *** The list of pages offered by [connect] *)

Lemma readPage_spec p s :
  exists k reads,
    readPage host p s = (Ok k, snd (readPage host p s))
    /\ pick_page k = p
    /\ wellFormedPick k
    /\ calls (snd (readPage host p s)) = calls s ++ reads
    /\ Forall (fun c => isPageRead c = true) reads
    /\ fields (snd (readPage host p s)) = fields s.
Proof.
  unfold readPage, wellFormedPick.
  pose proof (perform_state host (PageTitle p) s) as Hp1.
  destruct (perform host (PageTitle p) s) as [[[]|e1] s1]; cbn [snd] in Hp1; subst s1.
  - pose proof (perform_state host (PageUrl p) (record (PageTitle p) s)) as Hp2.
    destruct (perform host (PageUrl p) _) as [[[]|e2] s2]; cbn [snd] in Hp2; subst s2;
      eexists; exists [PageTitle p; PageUrl p]; cbn;
      rewrite <- ?app_assoc; repeat split; auto;
      destruct (truthy (titleOf host p)) eqn:Et; auto;
      destruct (truthy (urlOf host p)) eqn:Eu; auto.
  - eexists; exists [PageTitle p]; cbn; repeat split; auto.
Qed.

Lemma readPages_spec pages : forall s,
  exists picks reads,
    readPages host pages s = (Ok picks, snd (readPages host pages s))
    /\ map pick_page picks = pages
    /\ Forall wellFormedPick picks
    /\ calls (snd (readPages host pages s)) = calls s ++ reads
    /\ Forall (fun c => isPageRead c = true) reads
    /\ fields (snd (readPages host pages s)) = fields s.
Proof.
  induction pages as [|p pages IH]; intros s.
  - exists [], []. cbn. rewrite app_nil_r. repeat split; constructor.
  - cbn [readPages]. unfold bind.
    destruct (readPage_spec p s) as (k & r1 & Hk & Hp & Hw & Hc & Hr & Hf).
    rewrite Hk. set (s1 := snd (readPage host p s)) in *.
    destruct (IH s1) as (ks & r2 & Hks & Hps & Hws & Hcs & Hrs & Hfs).
    rewrite Hks. set (s2 := snd (readPages host pages s1)) in *.
    exists (k :: ks), (r1 ++ r2). cbn.
    split; [reflexivity|]. split; [congruence|]. split; [constructor; assumption|].
    split; [rewrite Hcs, Hc, app_assoc; reflexivity|].
    split; [apply Forall_app; auto | congruence].
Qed.

(** X9: the list offered to the user has one entry per open page, in the
    order the browser reports them; every entry has a non-empty label and
    carries the url as its description and as its id; building the list
    never throws and changes nothing but the trace, whatever page reads
    fail. *)
Theorem readPages_offers_every_page pages s :
  exists picks,
    fst (readPages host pages s) = Ok picks
    /\ map pick_page picks = pages
    /\ Forall wellFormedPick picks
    /\ fields (snd (readPages host pages s)) = fields s.
Proof.
  destruct (readPages_spec pages s) as (picks & reads & Hr & Hp & Hw & _ & _ & Hf).
  exists picks. rewrite Hr. auto.
Qed.

Lemma readPage_title_fails p s e :
  fails host (PageTitle p) (occurrences (PageTitle p) (calls s)) = Some e ->
  readPage host p s = (Ok (untitledPick p), record (PageTitle p) s).
Proof. intros Hf. unfold readPage, perform. rewrite Hf. reflexivity. Qed.

Lemma occurrences_record c c' s :
  occurrences c (calls (record c' s))
  = occurrences c (calls s) + (if decide (c' = c) then 1 else 0).
Proof.
  unfold occurrences. cbn [calls record]. rewrite count_occ_app. cbn.
  destruct (Call_eq_dec c' c), (decide (c' = c)); congruence || lia.
Qed.

(** What reading page [q] does for a page [p] whose title cannot be read:
    the url of [p] is not asked for, and if [q] is [p] its entry is the
    untitled one. *)
Lemma readPage_unreadable p q s :
  (forall n, fails host (PageTitle p) n <> None) ->
  occurrences (PageUrl p) (calls (snd (readPage host q s)))
  = occurrences (PageUrl p) (calls s)
  /\ (q = p -> fst (readPage host q s) = Ok (untitledPick p)).
Proof.
  intros Hp.
  destruct (fails host (PageTitle q) (occurrences (PageTitle q) (calls s)))
    as [e|] eqn:Ef.
  - rewrite (readPage_title_fails q s e Ef). cbn [fst snd]. split.
    + rewrite occurrences_record.
      destruct (decide (PageTitle q = PageUrl p)); [discriminate | lia].
    + intros ->. reflexivity.
  - split.
    + unfold readPage, perform. rewrite Ef.
      destruct (fails host (PageUrl q) _); cbn [fst snd];
        rewrite !occurrences_record;
        destruct (decide (PageTitle q = PageUrl p)); try discriminate;
        destruct (decide (PageUrl q = PageUrl p)) as [Heq|Hne]; try lia;
        injection Heq as ->; exfalso; exact (Hp _ Ef).
    + intros ->. exfalso. exact (Hp _ Ef).
Qed.

Lemma readPages_unreadable p pages :
  (forall n, fails host (PageTitle p) n <> None) ->
  forall s, occurrences (PageUrl p) (calls (snd (readPages host pages s)))
            = occurrences (PageUrl p) (calls s).
Proof.
  intros Hp. induction pages as [|q pages IH]; intros s; [reflexivity|].
  cbn [readPages]. unfold bind.
  destruct (readPage_spec q s) as (k & _ & Hk & _).
  destruct (readPage_unreadable p q s Hp) as [Hocc _].
  rewrite Hk. specialize (IH (snd (readPage host q s))).
  destruct (readPages_spec pages (snd (readPage host q s))) as (ks & _ & Hks & _).
  rewrite Hks in IH |- *. cbn [fst snd ret] in *. congruence.
Qed.

(** X10: a page whose title cannot be read is still offered, at its place
    in the list, as [Untitled Page] with an empty url, description and id:
    its url is never asked for. *)
Theorem unreadable_title_hides_the_url pages : forall s i p,
  pages !! i = Some p ->
  (forall n, fails host (PageTitle p) n <> None) ->
  exists picks,
    fst (readPages host pages s) = Ok picks
    /\ picks !! i = Some (untitledPick p)
    /\ occurrences (PageUrl p) (calls (snd (readPages host pages s)))
       = occurrences (PageUrl p) (calls s).
Proof.
  intros s i p Hi Hp.
  assert (Hat : forall pages' j s', pages' !! j = Some p ->
            exists picks, fst (readPages host pages' s') = Ok picks
                          /\ picks !! j = Some (untitledPick p)).
  { clear pages i s Hi.
    induction pages' as [|q pages' IH]; intros j s' Hj; [discriminate|].
    cbn [readPages]. unfold bind.
    destruct (readPage_spec q s') as (k & _ & Hk & _).
    destruct (readPage_unreadable p q s' Hp) as [_ Hsame].
    rewrite Hk in Hsame |- *.
    destruct (readPages_spec pages' (snd (readPage host q s')))
      as (ks & _ & Hks & _).
    destruct j as [|j]; cbn in Hj.
    - injection Hj as ->. specialize (Hsame eq_refl). cbn in Hsame.
      injection Hsame as ->. rewrite Hks. cbn [fst ret]. eexists. split; reflexivity.
    - destruct (IH j (snd (readPage host q s')) Hj) as (picks & Hpicks & Hget).
      rewrite Hks in Hpicks |- *. cbn [fst ret] in Hpicks |- *.
      injection Hpicks as <-.
      eexists. split; [reflexivity | exact Hget]. }
  destruct (Hat pages i s Hi) as (picks & Hpicks & Hget).
  exists picks. split; [exact Hpicks|]. split; [exact Hget|].
  apply readPages_unreadable, Hp.
Qed.

(** *** Connecting *)

Lemma occurrences_record_other c c' s :
  c <> c' -> occurrences c (calls (record c' s)) = occurrences c (calls s).
Proof.
  intros Hne. unfold occurrences. cbn. rewrite count_occ_app. cbn.
  destruct (Call_eq_dec c' c); [congruence | lia].
Qed.

Lemma count_calls_none (p : Call -> bool) tr :
  Forall (fun c => isPageRead c = true) tr ->
  (forall c, isPageRead c = true -> p c = false) ->
  count_calls p tr = 0.
Proof.
  intros Hf Hp. induction Hf as [|c tr Hc _ IH]; [reflexivity|].
  cbn. rewrite (Hp c Hc), IH. reflexivity.
Qed.

(** The start of [connect]: the browser is connected and its pages are
    listed. *)
Lemma connect_listing s :
  let b := count_calls isConnectCall (calls s) in
  fails host PuppeteerConnect (occurrences PuppeteerConnect (calls s)) = None ->
  fails host (BrowserPages b) (occurrences (BrowserPages b) (calls s)) = None ->
  connectBody host s
  = match pagesOf host b with
    | [] => (Throw {| message :=
               "No open pages found. Please open at least one tab in Chrome." |},
             record (BrowserPages b) (set_browser (Some b) (record PuppeteerConnect s)))
    | _ :: _ =>
        (let* picks := readPages host (pagesOf host b) in
         perform host QuickPick ;;
         match choose host picks with
         | None => ret tt
         | Some i =>
             match picks !! i with
             | None => ret tt
             | Some selection =>
                 monitorPage host (pick_page selection) (pick_info selection)
             end
         end)
          (record (BrowserPages b) (set_browser (Some b) (record PuppeteerConnect s)))
    end.
Proof.
  cbv zeta. intros Hc Hp. unfold connectBody.
  unfold bind at 1, gets at 1. unfold bind at 1, perform at 1. rewrite Hc.
  unfold bind at 1, modify at 1. unfold bind at 1, perform at 1.
  change (calls (set_browser ?x ?s)) with (calls s).
  rewrite occurrences_record_other by discriminate. rewrite Hp.
  destruct (pagesOf host _); reflexivity.
Qed.

(** X11: when the user dismisses the list of pages, [connect] returns
    without an error toast and without touching the session, the timer or
    the buffers; it made no call but the connection, the listing and the
    question, so the browser connection it opened stays open. *)
Theorem dismissed_picker_keeps_browser_open s :
  let b := count_calls isConnectCall (calls s) in
  fails host PuppeteerConnect (occurrences PuppeteerConnect (calls s)) = None ->
  fails host (BrowserPages b) (occurrences (BrowserPages b) (calls s)) = None ->
  pagesOf host b <> [] ->
  (forall n, fails host QuickPick n = None) ->
  (forall picks, choose host picks = None) ->
  let s' := snd (connect host s) in
  fst (connect host s) = Ok tt
  /\ browser s' = Some b
  /\ (activePage s', _isConnected s', healthCheckInterval s')
     = (activePage s, _isConnected s, healthCheckInterval s)
  /\ buffers s' = buffers s
  /\ exists reads,
       Forall (fun c => isPageRead c = true) reads
       /\ calls s' = calls s ++ [PuppeteerConnect; BrowserPages b] ++ reads ++ [QuickPick].
Proof.
  cbv zeta. intros Hc Hp Hn Hq Hx.
  set (s0 := record (BrowserPages (count_calls isConnectCall (calls s)))
               (set_browser (Some (count_calls isConnectCall (calls s)))
                  (record PuppeteerConnect s))).
  destruct (readPages_spec (pagesOf host (count_calls isConnectCall (calls s))) s0)
    as (picks & reads & Hr & _ & _ & Hcalls & Hreads & Hf).
  set (s1 := snd (readPages host _ s0)) in *.
  assert (Hrun : connect host s = (Ok tt, record QuickPick s1)).
  { unfold connect, try_catch. rewrite (connect_listing s Hc Hp).
    destruct (pagesOf host _) as [|p0 pages] eqn:Epages; [contradiction|].
    fold s0. unfold bind at 1. rewrite Hr.
    unfold bind, perform. rewrite Hq, Hx. reflexivity. }
  rewrite Hrun. cbn [fst snd].
  unfold fields, session, buffers in Hf. injection Hf as Hb Ha Hi Ht Hcl Hnl Hch Hnh _ _.
  split; [reflexivity|]. split; [exact Hb|].
  split; [cbn; rewrite Ha, Hi, Ht; reflexivity|].
  split; [unfold buffers; cbn; rewrite Hcl, Hnl, Hch, Hnh; reflexivity|].
  exists reads. split; [exact Hreads|]. cbn. rewrite Hcalls. cbn.
  rewrite <- !app_assoc. reflexivity.
Qed.

(** X12: when the browser reports no open page, [connect] shows the error
    toast that says so, asks the user nothing and returns with the
    teardown started but suspended: the timer is cleared, while the
    browser connection it opened, the active page and the flag are as they
    were.  Once the suspended teardown has run, the browser connection is
    released, the disconnected notification has fired once and the monitor
    is disconnected. *)
Theorem no_open_page_is_reported s :
  let b := count_calls isConnectCall (calls s) in
  fails host PuppeteerConnect (occurrences PuppeteerConnect (calls s)) = None ->
  fails host (BrowserPages b) (occurrences (BrowserPages b) (calls s)) = None ->
  pagesOf host b = [] ->
  let s' := snd (connect host s) in
  let s'' := snd (settle host s') in
  fst (connect host s) = Ok tt
  /\ (browser s' = Some b
      /\ (activePage s', _isConnected s') = (activePage s, _isConnected s)
      /\ healthCheckInterval s' = None
      /\ pending s' = pending s ++ [firstAwait s]
      /\ exists tr,
           calls s' = calls s ++ [PuppeteerConnect; BrowserPages b;
                                  ToastError noPagesMessage] ++ tr
           /\ count_calls isQuickPick tr = 0
           /\ count_calls isBrowserDisconnect tr = 0
           /\ count_calls isFireDisconnect tr = 0)
  /\ (pending s = [] ->
      session s'' = (None, None, false, None)
      /\ pending s'' = []
      /\ exists tr,
           calls s'' = calls s ++ [PuppeteerConnect; BrowserPages b;
                                   ToastError noPagesMessage] ++ tr
           /\ In (BrowserDisconnect b) tr
           /\ count_calls isQuickPick tr = 0
           /\ count_calls isToastError tr = 0
           /\ count_calls isFireDisconnect tr = 1).
Proof.
  cbv zeta. intros Hc Hp Hn.
  assert (Hrun : connect host s
                 = (Ok tt, begun (record (ToastError noPagesMessage)
                             (record (BrowserPages (count_calls isConnectCall (calls s)))
                                (set_browser (Some (count_calls isConnectCall (calls s)))
                                   (record PuppeteerConnect s)))))).
  { unfold connect, try_catch. rewrite (connect_listing s Hc Hp), Hn.
    unfold bind, notify. rewrite disconnectBegin_run. reflexivity. }
  rewrite Hrun. cbn [fst snd]. split; [reflexivity|]. split.
  - destruct s as [b0 [a|] ? ? ? [t|] ? ? ? ? tr0 q]; cbn;
      rewrite <- ?app_assoc; cbn; repeat split; eexists;
      (split; [reflexivity|]); cbn; repeat split; reflexivity.
  - intros Hq. rewrite settle_begun by exact Hq. cbn [snd].
    split; [apply disconnected_session|].
    destruct s as [b0 [a|] ? ? ? [t|] ? ? ? ? tr0 q]; cbn in Hq; subst q; cbn;
      rewrite <- ?app_assoc; cbn; (split; [reflexivity|]); eexists;
      (split; [reflexivity|]); cbn; repeat split; auto.
Qed.

Section Healthy.
Hypothesis healthy : forall c n, fails host c n = None.

Lemma perform_healthy c s : perform host c s = (Ok tt, record c s).
Proof. unfold perform. rewrite healthy. reflexivity. Qed.

Lemma updateStatusBar_run s : updateStatusBar s = (Ok tt, statusShown s).
Proof. reflexivity. Qed.

Lemma monitorPage_healthy p pageInfo s :
  monitorPage host p pageInfo s = (Ok tt, installed p pageInfo s).
Proof.
  unfold monitorPage. unfold bind at 1, gets at 1. unfold bind at 1.
  assert (Hstop : (if bool_decide (is_Some (activePage s))
                   then stopMonitoring host else ret tt) s = (Ok tt, stopped s)).
  { destruct (activePage s) as [a|] eqn:Ea.
    - rewrite bool_decide_eq_true_2 by eauto. apply stopMonitoring_run.
    - rewrite bool_decide_eq_false_2 by (intros [? ?]; discriminate).
      unfold stopped. rewrite Ea. reflexivity. }
  rewrite Hstop. unfold installed. set (s0 := stopped s).
  unfold try_catch, enableDomains, setupEventListeners, showSuccessNotification.
  repeat (progress (unfold bind, gets, modify, notify, ret;
                    rewrite ?perform_healthy, ?updateConnectionState_run,
                      ?updateStatusBar_run);
          cbn beta iota).
  reflexivity.
Qed.

Lemma readPages_healthy pages : forall s,
  fst (readPages host pages s) = Ok (map (pickOf host) pages).
Proof.
  induction pages as [|p pages IH]; intros s; [reflexivity|].
  cbn [readPages map]. unfold bind.
  assert (Hp : readPage host p s
               = (Ok (pickOf host p), record (PageUrl p) (record (PageTitle p) s))).
  { unfold readPage. rewrite !perform_healthy. reflexivity. }
  rewrite Hp. specialize (IH (record (PageUrl p) (record (PageTitle p) s))).
  destruct (readPages host pages _) as [[ks|e] s2]; cbn in *; [|discriminate].
  injection IH as ->. reflexivity.
Qed.

(** [connect] when nothing fails and the user selects [sel]. *)
Lemma connect_healthy_run s i sel :
  let b := count_calls isConnectCall (calls s) in
  choose host (map (pickOf host) (pagesOf host b)) = Some i ->
  map (pickOf host) (pagesOf host b) !! i = Some sel ->
  exists s1 reads,
    connect host s = (Ok tt, installed (pick_page sel) (pick_info sel) s1)
    /\ fields s1 = fields (set_browser (Some b) s)
    /\ Forall (fun c => isPageRead c = true) reads
    /\ calls s1 = calls s ++ [PuppeteerConnect; BrowserPages b] ++ reads ++ [QuickPick].
Proof.
  cbv zeta. intros Hi Hsel. unfold connect, try_catch.
  rewrite (connect_listing s (healthy _ _) (healthy _ _)).
  destruct (pagesOf host _) as [|p0 pages] eqn:Epages; [discriminate|].
  rewrite <- Epages in *. clear Epages.
  set (s0 := record _ (set_browser _ (record PuppeteerConnect s))).
  unfold bind at 1.
  destruct (readPages_spec (pagesOf host (count_calls isConnectCall (calls s))) s0)
    as (picks & reads & Hr & _ & _ & Hcalls & Hreads & Hf).
  pose proof (readPages_healthy (pagesOf host (count_calls isConnectCall (calls s))) s0)
    as Hpicks.
  rewrite Hr in Hpicks |- *. cbn [fst] in Hpicks. injection Hpicks as ->.
  set (s1 := snd (readPages host _ s0)) in *.
  unfold bind. rewrite perform_healthy, Hi, Hsel, monitorPage_healthy.
  exists (record QuickPick s1), reads.
  split; [reflexivity|]. split; [exact Hf|]. split; [exact Hreads|].
  cbn. rewrite Hcalls. cbn. rewrite <- !app_assoc. reflexivity.
Qed.

Lemma installed_calls p pageInfo s :
  calls (installed p pageInfo s)
  = calls s ++ detachTrace s
    ++ installTrace p (count_calls isCreateSession (calls s))
         (count_calls isSetInterval (calls s)).
Proof.
  unfold installed, detachTrace, installTrace.
  destruct s as [? [a|] ? ? ? ? ? ? ? ? tr0 ?]; cbn;
    rewrite <- ?app_assoc, !count_calls_app; cbn; rewrite ?Nat.add_0_r;
    reflexivity.
Qed.

Lemma installed_session p pageInfo s :
  session (installed p pageInfo s)
  = (browser s,
     Some {| page := p; client := count_calls isCreateSession (calls s);
             info := pageInfo |},
     true, Some (count_calls isSetInterval (calls s))).
Proof.
  unfold installed.
  destruct s as [? [a|] ? ? ? ? ? ? ? ? tr0 ?]; cbn;
    rewrite <- ?app_assoc, !count_calls_app; cbn; rewrite ?Nat.add_0_r;
    reflexivity.
Qed.

Lemma installed_statusBar p pageInfo s :
  statusBarText (installed p pageInfo s)
  = "$(eye) Capture Tab Info (" +:+ page_title pageInfo +:+ ")"
  /\ statusBarTooltip (installed p pageInfo s)
     = "Connected to: " +:+ page_url pageInfo.
Proof. unfold installed. destruct s as [? [a|] ? ? ? ? ? ? ? ? tr0 ?]; split; reflexivity. Qed.

(** X13: when no host call fails and the user selects an entry, [connect]
    ends connected to the selected page: the active page is the selection
    with a new session, the flag is up, a new health-check timer is armed,
    the status bar names the page, and the calls made are the connection,
    the listing, the page reads, the question, the detach of a previous
    session if there was one, and the installation of the new one, in that
    order. *)
Theorem connect_installs_the_selected_page s i sel :
  let b := count_calls isConnectCall (calls s) in
  let c := count_calls isCreateSession (calls s) in
  let t := count_calls isSetInterval (calls s) in
  choose host (map (pickOf host) (pagesOf host b)) = Some i ->
  map (pickOf host) (pagesOf host b) !! i = Some sel ->
  let s' := snd (connect host s) in
  fst (connect host s) = Ok tt
  /\ session s'
     = (Some b,
        Some {| page := pick_page sel; client := c; info := pick_info sel |},
        true, Some t)
  /\ statusBarText s'
     = "$(eye) Capture Tab Info (" +:+ page_title (pick_info sel) +:+ ")"
  /\ statusBarTooltip s' = "Connected to: " +:+ page_url (pick_info sel)
  /\ exists reads,
       Forall (fun c => isPageRead c = true) reads
       /\ calls s' = calls s ++ [PuppeteerConnect; BrowserPages b] ++ reads
                     ++ [QuickPick] ++ detachTrace s
                     ++ installTrace (pick_page sel) c t.
Proof.
  cbv zeta. intros Hi Hsel.
  destruct (connect_healthy_run s i sel Hi Hsel) as (s1 & reads & Hrun & Hf & Hr & Hc).
  rewrite Hrun. cbn [fst snd].
  unfold fields, session in Hf. injection Hf as Hb Ha _ _ _ _.
  assert (Hcount : forall p, (forall c, isPageRead c = true -> p c = false) ->
                     p PuppeteerConnect = false ->
                     p (BrowserPages (count_calls isConnectCall (calls s))) = false ->
                     p QuickPick = false ->
                     count_calls p (calls s1) = count_calls p (calls s)).
  { intros p Hp Hp1 Hp2 Hp3. rewrite Hc, !count_calls_app. cbn.
    rewrite Hp1, Hp2, Hp3, (count_calls_none p reads Hr Hp). lia. }
  assert (Hcs : count_calls isCreateSession (calls s1)
                = count_calls isCreateSession (calls s)).
  { apply Hcount; try reflexivity. intros [] ?; try discriminate; reflexivity. }
  assert (Hts : count_calls isSetInterval (calls s1)
                = count_calls isSetInterval (calls s)).
  { apply Hcount; try reflexivity. intros [] ?; try discriminate; reflexivity. }
  split; [reflexivity|].
  split; [rewrite installed_session, Hb, Hcs, Hts; reflexivity|].
  destruct (installed_statusBar (pick_page sel) (pick_info sel) s1) as [Hbar Htip].
  split; [exact Hbar|]. split; [exact Htip|].
  exists reads. split; [exact Hr|].
  rewrite installed_calls, Hcs, Hts, Hc. unfold detachTrace. rewrite Ha.
  rewrite <- ?app_assoc. cbn [app]. rewrite <- ?app_assoc. reflexivity.
Qed.

(** X14: connecting while a page is monitored detaches the old session but
    neither clears the old health-check timer nor disconnects the old
    browser connection: both fields are overwritten. *)
Theorem reconnect_leaves_old_timer_running s i sel a t0 b0 :
  let b := count_calls isConnectCall (calls s) in
  choose host (map (pickOf host) (pagesOf host b)) = Some i ->
  map (pickOf host) (pagesOf host b) !! i = Some sel ->
  activePage s = Some a ->
  healthCheckInterval s = Some t0 ->
  browser s = Some b0 ->
  let s' := snd (connect host s) in
  exists tr,
    calls s' = calls s ++ tr
    /\ In (ClientDetach (client a)) tr
    /\ ~ In (ClearInterval t0) tr
    /\ ~ In (BrowserDisconnect b0) tr
    /\ healthCheckInterval s' = Some (count_calls isSetInterval (calls s))
    /\ browser s' = Some b.
Proof.
  cbv zeta. intros Hi Hsel Ha Ht Hb.
  destruct (connect_healthy_run s i sel Hi Hsel) as (s1 & reads & Hrun & Hf & Hr & Hc).
  rewrite Hrun. cbn [fst snd].
  pose proof (installed_session (pick_page sel) (pick_info sel) s1) as Hs.
  unfold fields, session in Hf. injection Hf as Hb1 Ha1 _ _ _ _.
  assert (Hts : count_calls isSetInterval (calls s1)
                = count_calls isSetInterval (calls s)).
  { rewrite Hc, !count_calls_app. cbn.
    rewrite (count_calls_none isSetInterval reads Hr); [lia|].
    intros [] ?; try discriminate; reflexivity. }
  assert (Ht2 : healthCheckInterval (installed (pick_page sel) (pick_info sel) s1)
                = Some (count_calls isSetInterval (calls s1)))
    by exact (f_equal snd Hs).
  assert (Hb2 : browser (installed (pick_page sel) (pick_info sel) s1) = browser s1)
    by exact (f_equal (fun x => fst (fst (fst x))) Hs).
  eexists. split; [rewrite installed_calls, Hc, <- !app_assoc; reflexivity|].
  unfold detachTrace. rewrite Ha1. cbn [set_browser activePage]. rewrite Ha.
  assert (Hnot : forall c', isPageRead c' = false -> ~ In c' reads).
  { intros c' Hc' Hin.
    rewrite (proj1 (List.Forall_forall _ reads) Hr c' Hin) in Hc'. discriminate. }
  split; [|split; [|split; [|split]]].
  - do 3 (apply in_or_app; right). apply in_or_app; left. left. reflexivity.
  - intros Hin. unfold installTrace in Hin. rewrite !in_app_iff in Hin. cbn in Hin.
    repeat match goal with Hor : _ \/ _ |- _ => destruct Hor as [Hor|Hor] end;
      try discriminate; try contradiction;
      match goal with
      | Hx : In _ reads |- _ => eapply Hnot; [|exact Hx]; reflexivity
      end.
  - intros Hin. unfold installTrace in Hin. rewrite !in_app_iff in Hin. cbn in Hin.
    repeat match goal with Hor : _ \/ _ |- _ => destruct Hor as [Hor|Hor] end;
      try discriminate; try contradiction;
      match goal with
      | Hx : In _ reads |- _ => eapply Hnot; [|exact Hx]; reflexivity
      end.
  - rewrite Ht2, Hts. reflexivity.
  - rewrite Hb2, Hb1. reflexivity.
Qed.
End Healthy.

(** *** The probe before a capture *)

Lemma getPageForScreenshot_run s :
  getPageForScreenshot host s
  = match activePage s with
    | None => (Ok None, s)
    | Some a =>
        match fails host (PageEvaluate (page a))
                (occurrences (PageEvaluate (page a)) (calls s)) with
        | None => (Ok (Some (page a)), record (PageEvaluate (page a)) s)
        | Some _ =>
            (Ok None,
             if _isConnected s
             then disconnected (record ToastSessionDisconnected
                                  (record (PageEvaluate (page a)) s))
             else record (PageEvaluate (page a)) s)
        end
    end.
Proof.
  unfold getPageForScreenshot, bind, gets, try_catch.
  destruct (activePage s) as [a|]; [|reflexivity].
  unfold perform. destruct (fails host _ _) as [e|]; [|reflexivity].
  rewrite handleSessionError_run. reflexivity.
Qed.

(** X15: [getPageForScreenshot] never throws and hands out a page only after
    probing it: it returns the active page exactly when there is one and
    the probe succeeds.  Without an active page it does nothing.  When the
    probe fails on a connected monitor, the session toast is shown and the
    monitor ends disconnected, with one disconnected notification. *)
Theorem getPageForScreenshot_returns_a_live_page s :
  let r := getPageForScreenshot host s in
  (exists o, fst r = Ok o)
  /\ (forall p, fst r = Ok (Some p) <->
        exists a, activePage s = Some a /\ page a = p
          /\ fails host (PageEvaluate p) (occurrences (PageEvaluate p) (calls s))
             = None)
  /\ (activePage s = None -> r = (Ok None, s))
  /\ (fst r = Ok None -> is_Some (activePage s) -> _isConnected s = true ->
      session (snd r) = (None, None, false, None)
      /\ exists tr, calls (snd r) = calls s ++ tr
           /\ In ToastSessionDisconnected tr
           /\ count_calls isFireDisconnect tr = 1).
Proof.
  cbv zeta. rewrite getPageForScreenshot_run.
  destruct (activePage s) as [a|] eqn:Ea.
  - destruct (fails host (PageEvaluate (page a)) _) as [e|] eqn:Ef; cbn [fst snd].
    + split; [eauto|]. split; [|split; [discriminate|]].
      * intros p. split; [discriminate|].
        intros (a' & Ha' & <- & Hf). injection Ha' as <-. congruence.
      * intros _ _ Hc. rewrite Hc.
        split; [apply disconnected_session|].
        destruct (disconnected_calls
                    (record ToastSessionDisconnected
                       (record (PageEvaluate (page a)) s)))
          as (tr & Hcalls & Hd & _).
        exists ([PageEvaluate (page a); ToastSessionDisconnected] ++ tr).
        rewrite Hcalls. cbn. rewrite <- !app_assoc. cbn.
        split; [reflexivity|]. split; [right; left; reflexivity | exact Hd].
    + split; [eauto|]. split; [|split; discriminate].
      intros p. split.
      * intros Hp. injection Hp as <-. eauto.
      * intros (a' & Ha' & <- & _). injection Ha' as <-. reflexivity.
  - cbn. split; [eauto|]. split; [|split; [reflexivity|]].
    + intros p. split; [discriminate | intros (a & Ha & _); discriminate].
    + intros _ [a Ha]. discriminate.
Qed.

(** *** A page that closes and crashes *)

(** X16: a page-close or crash event on a connected monitor shows the
    tab-closed toast once, fires the disconnected notification once and
    ends disconnected; on a monitor that is not connected it does nothing.
    A second such event therefore does nothing. *)
Theorem page_close_is_announced_once s :
  let s1 := snd (handlePageClosed host s) in
  (_isConnected s = false -> handlePageClosed host s = (Ok tt, s))
  /\ (_isConnected s = true ->
      session s1 = (None, None, false, None)
      /\ exists tr, calls s1 = calls s ++ ToastTabClosed :: tr
           /\ count_calls isTabClosedToast tr = 0
           /\ count_calls isFireDisconnect tr = 1)
  /\ handlePageClosed host s1 = (Ok tt, s1).
Proof.
  cbv zeta. rewrite !handlePageClosed_run. cbn [snd].
  split; [intros ->; reflexivity|]. split.
  - intros ->. split; [apply disconnected_session|].
    destruct s as [[b|] [a|] ? ? ? [t|] ? ? ? ? tr0 ?]; cbn;
      rewrite <- ?app_assoc; cbn; eexists; (split; [reflexivity|]);
      cbn; split; reflexivity.
  - destruct (_isConnected s) eqn:Ec.
    + pose proof (disconnected_session (record ToastTabClosed s)) as Hs.
      assert (Hc : _isConnected (disconnected (record ToastTabClosed s)) = false)
        by exact (f_equal (fun x => snd (fst x)) Hs).
      rewrite Hc. reflexivity.
    + rewrite Ec. reflexivity.
Qed.
End Sessions.

(** *** Events and their notifications *)

Section Notifications.
Context `{JsNumbers}.

Lemma handleEvent_calls now ev s :
  calls (snd (handleEvent now ev s)) = calls s ++ [notificationOf (now, ev)].
Proof. destruct ev; reflexivity. Qed.

Lemma handleEvents_network evs : forall s,
  let s' := snd (handleEvents evs s) in
  networkLogs s' = networkLogs s
  /\ readArr (networkHeap s') (networkLogs s)
     = readArr (networkHeap s) (networkLogs s) ++ omap networkRecordOf evs
  /\ calls s' = calls s ++ map notificationOf evs
  /\ session s' = session s.
Proof.
  cbv zeta. induction evs as [|[now ev] evs IH]; intros s.
  - cbn. rewrite !app_nil_r. auto.
  - cbn [handleEvents]. unfold bind.
    destruct (handleEvent_buffers now ev s) as (Hr & _ & Hn & _ & Hread & Hs).
    pose proof (handleEvent_calls now ev s) as Hc.
    destruct (handleEvent now ev s) as [r s1]. cbn [fst snd] in *. subst r.
    destruct (IH s1) as (Hn' & Hread' & Hc' & Hs').
    split; [congruence|]. split; [|split; [|congruence]].
    + rewrite Hn in Hread'. rewrite Hread', Hread.
      rewrite decide_True by reflexivity.
      rewrite <- app_assoc. f_equal. cbn.
      destruct (networkRecordOf (now, ev)); reflexivity.
    + rewrite Hc', Hc, <- app_assoc. reflexivity.
Qed.

(** X17: after the handlers of any sequence of protocol events have run,
    [getLogs().network] holds what it held before followed by the records
    of the network events, in arrival order; every event was announced
    exactly once, in arrival order, with the record that was stored
    (console records on the new-log emitter, network records on the
    [network] event); the session is untouched. *)
Theorem every_event_is_stored_and_announced evs s :
  let s' := snd (handleEvents evs s) in
  exists d d',
    getLogs s = (Ok d, s) /\ getLogs s' = (Ok d', s')
    /\ networkOf s' d' = networkOf s d ++ omap networkRecordOf evs
    /\ calls s' = calls s ++ map notificationOf evs
    /\ session s' = session s.
Proof.
  cbv zeta. destruct (handleEvents_network evs s) as (Hn & Hread & Hc & Hs).
  eexists; eexists. split; [reflexivity|]. split; [reflexivity|].
  unfold networkOf. cbn [network]. rewrite Hn, Hread. auto.
Qed.
End Notifications.

Lemma dismissed_picker_keeps_browser_open_witness :
  fst (connect hostCancels initialState) = Ok tt
  /\ browser (snd (connect hostCancels initialState)) = Some 0
  /\ activePage (snd (connect hostCancels initialState)) = None.
Proof.
  destruct (dismissed_picker_keeps_browser_open hostCancels initialState)
    as (Hok & Hb & Hl & _); try reflexivity; [discriminate|].
  split; [exact Hok|]. split; [exact Hb|].
  exact (f_equal (fun x => fst (fst x)) Hl).
Defined.

Lemma no_open_page_is_reported_witness :
  browser (snd (connect hostNoPages initialState)) = Some 0
  /\ pending (snd (connect hostNoPages initialState)) = [AwaitStop]
  /\ session (snd (settle hostNoPages (snd (connect hostNoPages initialState))))
     = (None, None, false, None).
Proof.
  destruct (no_open_page_is_reported hostNoPages initialState eq_refl eq_refl eq_refl)
    as (_ & (Hb & _ & _ & Hp & _) & Hsettled).
  destruct (Hsettled eq_refl) as (Hs & _).
  split; [exact Hb|]. split; [exact Hp | exact Hs].
Defined.

Lemma hostHealthy_healthy c n : fails hostHealthy c n = None.
Proof. reflexivity. Qed.

Lemma connect_installs_the_selected_page_witness :
  session (snd (connect hostHealthy initialState))
  = (Some 0,
     Some {| page := 7; client := 0; info := pick_info (pickOf hostHealthy 7) |},
     true, Some 0).
Proof.
  exact (proj1 (proj2 (connect_installs_the_selected_page hostHealthy
                         hostHealthy_healthy initialState 0 (pickOf hostHealthy 7)
                         eq_refl eq_refl))).
Defined.

Lemma reconnect_leaves_old_timer_running_witness :
  let s := snd (connect hostHealthy initialState) in
  exists tr,
    calls (snd (connect hostHealthy s)) = calls s ++ tr
    /\ In (ClientDetach 0) tr
    /\ ~ In (ClearInterval 0) tr
    /\ ~ In (BrowserDisconnect 0) tr.
Proof.
  cbv zeta.
  destruct (reconnect_leaves_old_timer_running hostHealthy hostHealthy_healthy
              (snd (connect hostHealthy initialState)) 0 (pickOf hostHealthy 7)
              {| page := 7; client := 0; info := pick_info (pickOf hostHealthy 7) |}
              0 0 eq_refl eq_refl eq_refl eq_refl eq_refl)
    as (tr & Hc & Hd & Ht & Hb & _).
  exists tr. auto.
Defined.


Lemma getPageForScreenshot_returns_a_live_page_witness :
  fst (getPageForScreenshot hostEvaluateFails
         (snd (connect hostHealthy initialState))) = Ok None
  /\ session (snd (getPageForScreenshot hostEvaluateFails
                     (snd (connect hostHealthy initialState))))
     = (None, None, false, None).
Proof.
  destruct (getPageForScreenshot_returns_a_live_page hostEvaluateFails
              (snd (connect hostHealthy initialState)))
    as (_ & _ & _ & Hfail).
  split; [reflexivity|].
  apply Hfail; [reflexivity | eexists; reflexivity | reflexivity].
Defined.

Lemma page_close_is_announced_once_witness :
  _isConnected (snd (connect hostHealthy initialState)) = true
  /\ session (snd (handlePageClosed hostHealthy
                     (snd (connect hostHealthy initialState))))
     = (None, None, false, None).
Proof.
  split; [reflexivity|].
  destruct (page_close_is_announced_once hostHealthy
              (snd (connect hostHealthy initialState))) as (_ & Hc & _).
  apply Hc. reflexivity.
Defined.

Lemma unreadable_title_hides_the_url_witness :
  exists picks,
    fst (readPages hostTitleFails [7] initialState) = Ok picks
    /\ picks !! 0 = Some (untitledPick 7)
    /\ occurrences (PageUrl 7) (calls (snd (readPages hostTitleFails [7] initialState)))
       = occurrences (PageUrl 7) (calls initialState).
Proof.
  apply (unreadable_title_hides_the_url hostTitleFails [7] initialState 0 7);
    [reflexivity | discriminate].
Defined.
End MonitorExtraProofs.

Module ComposerV1Proofs.
Import ComposerV1.

#[local] Arguments occurrences : simpl never.

Section AnyHost.
Variable host : Host.

Lemma v1_occurrences_other c c' tr :
  c <> c' -> occurrences c (tr ++ [c']) = occurrences c tr.
Proof.
  intros Hne. unfold occurrences. rewrite count_occ_app. cbn.
  destruct (Call_eq_dec c' c); [congruence | lia].
Qed.

Lemma v1_occurrences_same c tr :
  occurrences c (tr ++ [c]) = S (occurrences c tr).
Proof.
  unfold occurrences. rewrite count_occ_app. cbn.
  destruct (Call_eq_dec c c); [lia | congruence].
Qed.

Ltac next_answer :=
  cbn;
  repeat first [ rewrite v1_occurrences_other by discriminate
               | rewrite v1_occurrences_same ];
  match goal with
  | |- context [fails host ?c (occurrences ?c (calls ?s))] =>
      destruct (fails host c (occurrences c (calls s))) eqn:?
  | |- context [fails host ?c (S (occurrences ?c (calls ?s)))] =>
      destruct (fails host c (S (occurrences c (calls s)))) eqn:?
  end.

(** X18: one delivery of the first revision makes each call once, in a fixed
    order, with no verification and no retry: a delivery that returns
    cleared the clipboard, then staged, copied, pasted and removed the
    image if there is one, then copied and pasted the formatted logs if
    there are any. *)
Theorem v1_delivery_is_one_pass screenshot logs s :
  fst (sendToComposer host screenshot logs s) = Ok tt ->
  calls (snd (sendToComposer host screenshot logs s))
  = calls s ++ [ClearClipboard] ++ imagePart screenshot ++ textPart logs.
Proof.
  unfold sendToComposer, saveScreenshotToTempFile, try_finally, try_catch, bind,
    perform, delay, ret, throw, record.
  destruct screenshot as [shot|], logs as [l|]; cbn [imagePart textPart];
    repeat next_answer; cbn; intros Hok; try discriminate;
    rewrite <- ?app_assoc; reflexivity.
Qed.

(** X19: a delivery with a screenshot removes the staging file exactly once
    when the file was written, also when copying or pasting the image then
    fails, and never otherwise; it shows no toast itself.  It returns
    normally exactly when no call but the removal failed, and otherwise
    throws the error of the first call that failed, wrapped once: clearing
    the clipboard, creating the directory, writing the file, copying the
    image, pasting it, then copying the logs and pasting them.  When the
    image part fails the logs are not copied. *)
Theorem v1_delivery_cleans_up_and_wraps shot logs s :
  let r := sendToComposer host (Some shot) logs s in
  let staging := firstFailure [answer host ClearClipboard s; answer host FsMkdir s;
                               answer host FsWriteFile s] in
  let image := firstFailure [staging; answer host CopyImageToClipboard s;
                             answer host (ExecuteCommand pasteCommand) s] in
  let text := match logs with
              | Some l =>
                  firstFailure
                    [answer host (CopyTextToClipboard (formatLogContent l)) s;
                     fails host (ExecuteCommand pasteCommand)
                       (S (occurrences (ExecuteCommand pasteCommand) (calls s)))]
              | None => None
              end in
  fst r = match firstFailure [image; text] with
          | Some cause => Throw (wrapped cause)
          | None => Ok tt
          end
  /\ exists tr,
      calls (snd r) = calls s ++ tr
      /\ count_calls isUnlink tr = match staging with None => 1 | Some _ => 0 end
      /\ count_calls isToast tr = 0
      /\ (image <> None -> count_calls isTextCopy tr = 0).
Proof.
  cbv zeta. unfold answer.
  unfold sendToComposer, saveScreenshotToTempFile, try_finally, try_catch, bind,
    perform, delay, ret, throw, record.
  destruct logs as [l|];
    repeat next_answer; cbn; rewrite <- ?app_assoc;
    (split; [reflexivity|]);
    (eexists; split; [reflexivity|]); cbn;
    (split; [reflexivity|]); (split; [reflexivity|]);
    intros Hne; try reflexivity; congruence.
Qed.

(** What a delivery leaves alone: the marker, the open command and the
    toasts. *)
Lemma v1_sendToComposer_frame screenshot logs s :
  let s' := snd (sendToComposer host screenshot logs s) in
  composerOpened s' = composerOpened s
  /\ count_calls isOpen (calls s') = count_calls isOpen (calls s)
  /\ count_calls isToast (calls s') = count_calls isToast (calls s).
Proof.
  cbv zeta.
  unfold sendToComposer, saveScreenshotToTempFile, try_finally, try_catch, bind,
    perform, delay, ret, throw, record.
  destruct screenshot as [shot|], logs as [l|];
    repeat next_answer; cbn; rewrite !count_calls_app; cbn; repeat split; lia.
Qed.

Lemma v1_captureScreenshot_frame page s :
  let s' := snd (captureScreenshot host page s) in
  composerOpened s' = composerOpened s
  /\ count_calls isOpen (calls s') = count_calls isOpen (calls s)
  /\ count_calls isToast (calls s') = count_calls isToast (calls s).
Proof.
  cbv zeta. unfold captureScreenshot, bind, perform, ret, record.
  destruct (fails host _ _); cbn; rewrite !count_calls_app; cbn; repeat split; lia.
Qed.

Lemma v1_openComposer_run s :
  openComposer host s
  = (Ok tt,
     if composerOpened s then s
     else match answer host (ExecuteCommand openCommand) s with
          | None => set_composerOpened true (record (ExecuteCommand openCommand) s)
          | Some _ => record (ToastShowError openFailedMessage)
                        (record (ExecuteCommand openCommand) s)
          end).
Proof.
  unfold openComposer, answer, bind, gets, try_catch, perform, modify, delay,
    notify, ret.
  destruct (composerOpened s); [reflexivity|].
  destruct (fails host _ _); reflexivity.
Qed.

(** X20: the first revision opens the composer once per instance.  An entry
    point issues the open command exactly when the marker is down; the
    marker is up afterwards when it was up or the command succeeded, and
    no delivery lowers it, however the delivery ends; a failed open
    command shows one toast. *)
Theorem v1_composer_is_opened_once page logs s :
  Forall (fun op : M unit =>
            let s' := snd (op s) in
            let opening := answer host (ExecuteCommand openCommand) s in
            count_calls isOpen (calls s')
            = count_calls isOpen (calls s) + (if composerOpened s then 0 else 1)
            /\ composerOpened s'
               = (composerOpened s || bool_decide (opening = None))
            /\ count_calls isToast (calls s')
               = count_calls isToast (calls s)
                 + (if composerOpened s || bool_decide (opening = None)
                    then 0 else 1))
    [sendLogs host logs; sendScreenshot host page; sendCapture host page logs].
Proof.
  assert (Hopen : forall (k : M unit),
             (forall s0, composerOpened (snd (k s0)) = composerOpened s0
                         /\ count_calls isOpen (calls (snd (k s0)))
                            = count_calls isOpen (calls s0)
                         /\ count_calls isToast (calls (snd (k s0)))
                            = count_calls isToast (calls s0)) ->
             let s' := snd ((openComposer host ;; k) s) in
             let opening := answer host (ExecuteCommand openCommand) s in
             count_calls isOpen (calls s')
             = count_calls isOpen (calls s) + (if composerOpened s then 0 else 1)
             /\ composerOpened s'
                = (composerOpened s || bool_decide (opening = None))
             /\ count_calls isToast (calls s')
                = count_calls isToast (calls s)
                  + (if composerOpened s || bool_decide (opening = None)
                     then 0 else 1)).
  { intros k Hk. cbv zeta.
    assert (Hrun : (openComposer host ;; k) s = k (snd (openComposer host s))).
    { unfold bind. rewrite v1_openComposer_run. reflexivity. }
    rewrite Hrun, v1_openComposer_run. cbn [snd].
    match goal with |- context [k ?x] => destruct (Hk x) as (H1 & H2 & H3) end.
    rewrite H1, H2, H3.
    destruct (composerOpened s) eqn:Eo; cbn [orb];
      [rewrite !Nat.add_0_r; auto|].
    destruct (answer host _ s) eqn:Ea;
      [rewrite !bool_decide_eq_false_2 by discriminate
      |rewrite !bool_decide_eq_true_2 by reflexivity];
      cbn; rewrite !count_calls_app; cbn; repeat split; try assumption; lia. }
  assert (Hcap : forall page0 logs0 s0,
             let k := (let* screenshot := captureScreenshot host page0 in
                       sendToComposer host (Some screenshot) logs0) in
             composerOpened (snd (k s0)) = composerOpened s0
             /\ count_calls isOpen (calls (snd (k s0)))
                = count_calls isOpen (calls s0)
             /\ count_calls isToast (calls (snd (k s0)))
                = count_calls isToast (calls s0)).
  { intros page0 logs0 s0. cbv zeta. unfold bind.
    destruct (v1_captureScreenshot_frame page0 s0) as (H1 & H2 & H3).
    destruct (captureScreenshot host page0 s0) as [[shot|e] s1]; cbn in *; [|auto].
    destruct (v1_sendToComposer_frame (Some shot) logs0 s1) as (G1 & G2 & G3).
    repeat split; congruence. }
  constructor; [|constructor; [|constructor; [|constructor]]].
  - apply (Hopen (formatAndSendLogs host logs)). intros s0.
    apply v1_sendToComposer_frame.
  - apply (Hopen (let* screenshot := captureScreenshot host page in
                  sendToComposer host (Some screenshot) None)).
    intros s0. apply Hcap.
  - apply (Hopen (let* screenshot := captureScreenshot host page in
                  sendToComposer host (Some screenshot) (Some logs))).
    intros s0. apply Hcap.
Qed.

(** X21: when the page cannot be rendered, [sendScreenshot] and
    [sendCapture] throw the rendering error itself, unwrapped, and touch
    neither the clipboard nor the file system. *)
Theorem v1_unrendered_page_sends_nothing page logs s e :
  answer host (PageScreenshot page) s = Some e ->
  Forall (fun op : M unit =>
            fst (op s) = Throw e
            /\ exists tr, calls (snd (op s)) = calls s ++ tr
                 /\ count_calls isDelivery tr = 0)
    [sendScreenshot host page; sendCapture host page logs].
Proof.
  unfold answer. intros He.
  assert (Hk : forall s0 (k : Buffer -> M unit),
             calls s0 = calls s
             \/ (exists c, calls s0 = calls s ++ [c] /\ isDelivery c = false
                           /\ c <> PageScreenshot page)
             \/ (exists c c', calls s0 = (calls s ++ [c]) ++ [c']
                              /\ isDelivery c = false /\ isDelivery c' = false
                              /\ c <> PageScreenshot page
                              /\ c' <> PageScreenshot page) ->
             fst ((let* screenshot := captureScreenshot host page in k screenshot) s0)
             = Throw e
             /\ exists tr,
                  calls (snd ((let* screenshot := captureScreenshot host page in
                               k screenshot) s0)) = calls s ++ tr
                  /\ count_calls isDelivery tr = 0).
  { intros s0 k Hs0. unfold captureScreenshot, bind, perform.
    assert (Ho : occurrences (PageScreenshot page) (calls s0)
                 = occurrences (PageScreenshot page) (calls s)).
    { destruct Hs0 as [->|[(c & -> & _ & Hc)|(c & c' & -> & _ & _ & Hc & Hc')]];
        rewrite ?v1_occurrences_other by congruence; reflexivity. }
    cbn beta. rewrite Ho, He. cbn. split; [reflexivity|].
    destruct Hs0 as [->|[(c & -> & Hd & _)|(c & c' & -> & Hd & Hd' & _)]];
      rewrite <- ?app_assoc; eexists; (split; [reflexivity|]); cbn;
      rewrite ?Hd, ?Hd'; reflexivity. }
  assert (Hopen : forall k : Buffer -> M unit,
             fst ((openComposer host ;;
                   let* screenshot := captureScreenshot host page in
                   k screenshot) s) = Throw e
             /\ exists tr,
                  calls (snd ((openComposer host ;;
                               let* screenshot := captureScreenshot host page in
                               k screenshot) s)) = calls s ++ tr
                  /\ count_calls isDelivery tr = 0).
  { intros k.
    assert (Hrun : (openComposer host ;;
                    let* screenshot := captureScreenshot host page in
                    k screenshot) s
                   = (let* screenshot := captureScreenshot host page in
                      k screenshot) (snd (openComposer host s))).
    { unfold bind at 1. rewrite v1_openComposer_run. reflexivity. }
    rewrite Hrun, v1_openComposer_run. cbn [snd]. apply Hk.
    destruct (composerOpened s); [left; reflexivity|].
    destruct (answer host _ s).
    - right. right. eexists; eexists. cbn. split; [reflexivity|].
      repeat split; discriminate.
    - right. left. eexists. cbn. split; [reflexivity|]. split; [reflexivity|].
      discriminate. }
  constructor; [|constructor; [|constructor]].
  - apply (Hopen (fun screenshot => sendToComposer host (Some screenshot) None)).
  - apply (Hopen (fun screenshot =>
                    sendToComposer host (Some screenshot) (Some logs))).
Qed.
End AnyHost.

Lemma v1_delivery_is_one_pass_witness :
  calls (snd (sendToComposer hostFine (Some pixel) (Some noLogs) freshState))
  = [ClearClipboard; FsMkdir; FsWriteFile; CopyImageToClipboard;
     ExecuteCommand pasteCommand; FsUnlink;
     CopyTextToClipboard (formatLogContent noLogs); ExecuteCommand pasteCommand].
Proof.
  exact (v1_delivery_is_one_pass hostFine (Some pixel) (Some noLogs) freshState
           eq_refl).
Defined.

Lemma v1_unrendered_page_sends_nothing_witness :
  Forall (fun op : M unit =>
            fst (op freshState) = Throw renderError
            /\ exists tr, calls (snd (op freshState)) = calls freshState ++ tr
                 /\ count_calls isDelivery tr = 0)
    [sendScreenshot hostNoScreenshot 7; sendCapture hostNoScreenshot 7 noLogs].
Proof.
  exact (v1_unrendered_page_sends_nothing hostNoScreenshot 7 noLogs freshState
           renderError eq_refl).
Defined.
End ComposerV1Proofs.

Module CommandsProofs.
Import Commands.

Section AnyHost.
Variable host : Host.

Lemma onMonitor_run {A} (m : M (S := Monitor.State) A) w :
  onMonitor m w = (fst (m (monitor w)), set_monitor (snd (m (monitor w))) w).
Proof. unfold onMonitor. destruct (m (monitor w)); reflexivity. Qed.

Lemma onComposer_run {A} (m : M (S := ComposerV1.State) A) w :
  onComposer m w = (fst (m (composer w)), set_composer (snd (m (composer w))) w).
Proof. unfold onComposer. destruct (m (composer w)); reflexivity. Qed.

(** X22: [handleClearLogs] replaces the buffers exactly when the monitor is
    connected, the question could be shown and the answer is Yes; in
    every other case (not connected, No, dismissed) the monitor is left as
    it was.  It never touches the composer, and on a monitor that is not
    connected it asks nothing and shows the not-connected message. *)
Theorem handleClearLogs_clears_only_on_yes w :
  let w' := snd (handleClearLogs host w) in
  let n := count_calls isWarning (ui w) in
  composer w' = composer w
  /\ monitor w'
     = (if Monitor._isConnected (monitor w)
           && bool_decide (warningFails host n = None)
           && bool_decide (warningAnswer host n = Some "Yes")
        then snd (Monitor.clearLogs (monitor w))
        else monitor w)
  /\ ui w' = ui w ++ [if Monitor._isConnected (monitor w)
                      then ShowWarningMessage
                      else ShowErrorMessage notConnectedMessage].
Proof.
  cbv zeta. unfold handleClearLogs, bind. rewrite onMonitor_run.
  cbn [fst snd Monitor.isConnected gets].
  destruct (Monitor._isConnected (monitor w)) eqn:Ec; cbn [negb andb].
  - unfold showWarningMessage. cbn [monitor set_monitor ui].
    destruct (warningFails host _) as [e|] eqn:Ef.
    + rewrite bool_decide_eq_false_2 by discriminate. cbn. rewrite ?Ec. auto.
    + rewrite (bool_decide_eq_true_2 (None = None)) by reflexivity. cbn [andb].
      destruct (bool_decide (warningAnswer host _ = Some "Yes")).
      * rewrite onMonitor_run. cbn. rewrite ?Ec. auto.
      * cbn. rewrite ?Ec. auto.
  - cbn. rewrite ?Ec. auto.
Qed.

(** X23: on a monitor that is not connected, the commands that clear or send
    only show the not-connected message: no question is asked, the page is
    not probed and the composer is not called. *)
Theorem disconnected_commands_only_report w :
  Monitor._isConnected (monitor w) = false ->
  Forall (fun op : M unit =>
            op w = (Ok tt, record (ShowErrorMessage notConnectedMessage) w))
    [handleClearLogs host; handleSendLogs host; handleSendScreenshot host].
Proof.
  intros Hc.
  constructor; [|constructor; [|constructor; [|constructor]]];
    unfold handleClearLogs, handleSendLogs, handleSendScreenshot, bind;
    rewrite onMonitor_run; cbn [fst snd Monitor.isConnected gets];
    rewrite Hc; cbn [negb]; unfold showErrorMessage;
    destruct w; reflexivity.
Qed.

(** [handleCapture], case by case. *)
Lemma handleCapture_run w :
  handleCapture host w
  = let s := monitor w in
    match Monitor.activePage s with
    | None =>
        (Ok tt, record (ShowErrorMessage (if Monitor._isConnected s
                                          then noPageForCaptureMessage
                                          else notConnectedMessage)) w)
    | Some a =>
        match probe host a s with
        | Some _ =>
            (Ok tt, record (ShowErrorMessage notConnectedMessage)
                      (set_monitor (lost a s) w))
        | None =>
            if Monitor._isConnected s then
              match ComposerV1.sendCapture (composerHost host) (Monitor.page a)
                      (currentLogs (probed a s)) (composer w) with
              | (Ok _, c) => (Ok tt, set_composer c (set_monitor (probed a s) w))
              | (Throw e, c) =>
                  (Ok tt, record (ShowErrorMessage (captureFailedMessage e))
                            (set_composer c (set_monitor (probed a s) w)))
              end
            else (Ok tt, record (ShowErrorMessage notConnectedMessage)
                           (set_monitor (probed a s) w))
        end
    end.
Proof.
  cbv zeta. unfold handleCapture, try_catch. unfold bind at 1.
  rewrite onMonitor_run, MonitorExtraProofs.getPageForScreenshot_run.
  unfold probe, lost, probed.
  destruct (Monitor.activePage (monitor w)) as [a|] eqn:Ea.
  - destruct (Monitor.fails (monitorHost host) _ _) as [e|] eqn:Ef; cbn [fst snd].
    + unfold bind. rewrite onMonitor_run. cbn [fst snd Monitor.isConnected gets].
      cbn [monitor set_monitor].
      destruct (Monitor._isConnected (monitor w)) eqn:Ec.
      * pose proof (MonitorProofs.disconnected_session
                      (Monitor.record Monitor.ToastSessionDisconnected
                         (Monitor.record (Monitor.PageEvaluate (Monitor.page a))
                            (monitor w)))) as Hs.
        assert (Hd : Monitor._isConnected
                       (Monitor.disconnected
                          (Monitor.record Monitor.ToastSessionDisconnected
                             (Monitor.record (Monitor.PageEvaluate (Monitor.page a))
                                (monitor w)))) = false)
          by exact (f_equal (fun x => snd (fst x)) Hs).
        rewrite Hd. cbn [negb]. unfold showErrorMessage.
        destruct w; reflexivity.
      * change (Monitor._isConnected (Monitor.record _ (monitor w)))
          with (Monitor._isConnected (monitor w)). rewrite Ec. cbn [negb].
        unfold showErrorMessage. destruct w; reflexivity.
    + unfold bind at 1. rewrite onMonitor_run.
      cbn [fst snd Monitor.isConnected gets monitor set_monitor].
      change (Monitor._isConnected (Monitor.record _ (monitor w)))
        with (Monitor._isConnected (monitor w)).
      destruct (Monitor._isConnected (monitor w)) eqn:Ec; cbn [negb].
      * unfold bind. rewrite onMonitor_run. cbn [fst snd Monitor.getLogs gets].
        rewrite onComposer_run. cbn [monitor set_monitor composer set_composer].
        unfold currentLogs, captureFailedMessage.
        destruct (ComposerV1.sendCapture _ _ _ _) as [[[]|e] c]; cbn [fst snd];
          unfold showErrorMessage; destruct w; reflexivity.
      * unfold showErrorMessage. destruct w; reflexivity.
  - cbn [fst snd]. unfold bind. rewrite onMonitor_run.
    cbn [fst snd Monitor.isConnected gets monitor set_monitor].
    destruct (Monitor._isConnected (monitor w)); cbn [negb];
      unfold showErrorMessage; destruct w; reflexivity.
Qed.

(** X24: [handleCapture] never throws.  On a connected monitor whose
    page answers the probe it sends the capture of that page with the
    current logs, and a failure of the rendering or of the delivery is
    shown as [Failed to capture tab state: ] followed by the message of the
    error.  When the probe of the page fails, nothing is sent, the
    not-connected message is shown and the monitor is left not connected.
    And as long as the connection flag agrees with the active page, the
    page-for-capture message is never shown. *)
Theorem handleCapture_reports_every_failure w :
  let w' := snd (handleCapture host w) in
  fst (handleCapture host w) = Ok tt
  /\ (forall a, Monitor.activePage (monitor w) = Some a ->
      probe host a (monitor w) = None ->
      Monitor._isConnected (monitor w) = true ->
      let r := ComposerV1.sendCapture (composerHost host) (Monitor.page a)
                 (currentLogs (probed a (monitor w))) (composer w) in
      composer w' = snd r
      /\ monitor w' = probed a (monitor w)
      /\ ui w' = ui w ++ match fst r with
                         | Ok _ => []
                         | Throw e =>
                             [ShowErrorMessage
                                ("Failed to capture tab state: " +:+ message e)]
                         end)
  /\ (forall a, Monitor.activePage (monitor w) = Some a ->
      probe host a (monitor w) <> None ->
      composer w' = composer w
      /\ ui w' = ui w ++ [ShowErrorMessage notConnectedMessage]
      /\ Monitor._isConnected (monitor w') = false)
  /\ (MonitorExtra.inSync (monitor w) ->
      exists tr, ui w' = ui w ++ tr /\ count_calls isNoPageForCapture tr = 0).
Proof.
  cbv zeta. rewrite handleCapture_run. cbv zeta.
  destruct (Monitor.activePage (monitor w)) as [a|] eqn:Ea.
  - destruct (probe host a (monitor w)) as [e|] eqn:Ep.
    + cbn [fst snd]. split; [reflexivity|].
      split; [intros a' Ha' Hp; injection Ha' as <-; congruence|]. split.
      * intros a' _ _. cbn. split; [reflexivity|]. split; [reflexivity|].
        unfold lost. destruct (Monitor._isConnected (monitor w)) eqn:Ec;
          [|exact Ec].
        exact (f_equal (fun x => snd (fst x))
                 (MonitorProofs.disconnected_session _)).
      * intros _. eexists. split; reflexivity.
    + destruct (Monitor._isConnected (monitor w)) eqn:Ec.
      * destruct (ComposerV1.sendCapture _ _ _ _) as [[[]|e] c] eqn:Er;
          cbn [fst snd];
          (split; [reflexivity|]);
          (split; [intros a' Ha' _ _; injection Ha' as <-; rewrite Er; cbn;
                   rewrite ?app_nil_r; auto|]);
          (split; [intros a' Ha' Hp; injection Ha' as <-; congruence|]);
          intros _; cbn.
        -- exists []. rewrite app_nil_r. split; reflexivity.
        -- eexists. split; reflexivity.
      * cbn [fst snd]. split; [reflexivity|].
        split; [intros a' _ _ Hc; discriminate|].
        split; [intros a' Ha' Hp; injection Ha' as <-; congruence|].
        intros _. eexists. split; reflexivity.
  - cbn [fst snd]. split; [reflexivity|].
    split; [discriminate|]. split; [discriminate|].
    intros Hs. unfold MonitorExtra.inSync in Hs. rewrite Ea in Hs.
    rewrite bool_decide_eq_false_2 in Hs by (intros [? ?]; discriminate).
    rewrite Hs. eexists. split; reflexivity.
Qed.

(** X25: [handleSmartCapture] never throws.  On a monitor that is not
    connected it is [connect] and nothing else: no message, no composer
    call.  On a connected monitor it is [handleCapture]: when the page
    answers the probe the capture of that page is sent, and no browser
    connection is opened. *)
Theorem handleSmartCapture_dispatches w :
  let w' := snd (handleSmartCapture host w) in
  fst (handleSmartCapture host w) = Ok tt
  /\ (Monitor._isConnected (monitor w) = false ->
      handleSmartCapture host w
      = onMonitor (Monitor.connect (monitorHost host)) w
      /\ w' = set_monitor (snd (Monitor.connect (monitorHost host) (monitor w))) w)
  /\ (Monitor._isConnected (monitor w) = true ->
      handleSmartCapture host w = handleCapture host w
      /\ (forall a, Monitor.activePage (monitor w) = Some a ->
          probe host a (monitor w) = None ->
          composer w'
          = snd (ComposerV1.sendCapture (composerHost host) (Monitor.page a)
                   (currentLogs (probed a (monitor w))) (composer w)))
      /\ count_calls Monitor.isConnectCall (Monitor.calls (monitor w'))
         = count_calls Monitor.isConnectCall (Monitor.calls (monitor w))).
Proof.
  cbv zeta.
  assert (Hw : set_monitor (monitor w) w = w) by (destruct w; reflexivity).
  assert (Hrun : handleSmartCapture host w
                 = if Monitor._isConnected (monitor w)
                   then handleCapture host w
                   else onMonitor (Monitor.connect (monitorHost host)) w).
  { unfold handleSmartCapture, bind. rewrite onMonitor_run.
    cbn [fst snd Monitor.isConnected gets]. rewrite Hw.
    destruct (Monitor._isConnected (monitor w)); reflexivity. }
  rewrite Hrun.
  destruct (Monitor._isConnected (monitor w)) eqn:Ec.
  - rewrite handleCapture_run. cbv zeta.
    split; [|split; [discriminate|intros _; split; [reflexivity|split]]].
    + destruct (Monitor.activePage (monitor w)) as [a|]; [|reflexivity].
      destruct (probe host a (monitor w)); [reflexivity|]. rewrite Ec.
      destruct (ComposerV1.sendCapture _ _ _ _) as [[[]|e] c]; reflexivity.
    + intros a Ha Hp. rewrite Ha, Hp, Ec.
      destruct (ComposerV1.sendCapture _ _ _ _) as [[[]|e] c]; reflexivity.
    + destruct (Monitor.activePage (monitor w)) as [a|] eqn:Ea; [|reflexivity].
      destruct (probe host a (monitor w)).
      * cbn [snd monitor record set_monitor]. unfold lost, probed. rewrite Ec.
        destruct (monitor w) as [[b|] [a0|] ? ? ? [t|] ? ? ? ? tr0 ?]; cbn;
          rewrite !count_calls_app; cbn; lia.
      * rewrite Ec.
        destruct (ComposerV1.sendCapture _ _ _ _) as [[[]|e] c];
          cbn [snd monitor record set_monitor set_composer]; unfold probed;
          cbn; rewrite count_calls_app; cbn; lia.
  - rewrite onMonitor_run.
    rewrite (MonitorProofs.connect_returns (monitorHost host) (monitor w)).
    split; [reflexivity|]. split; [split; reflexivity | discriminate].
Qed.

(** X26: [handleSendScreenshot] on a connected monitor calls the composer
    only with the active page and only after its probe succeeded; when the
    probe fails it shows the page-for-screenshot message, sends nothing
    and leaves the monitor not connected. *)
Theorem handleSendScreenshot_probes_first w a :
  Monitor._isConnected (monitor w) = true ->
  Monitor.activePage (monitor w) = Some a ->
  let w' := snd (handleSendScreenshot host w) in
  match probe host a (monitor w) with
  | Some _ =>
      fst (handleSendScreenshot host w) = Ok tt
      /\ composer w' = composer w
      /\ ui w' = ui w ++ [ShowErrorMessage noPageForScreenshotMessage]
      /\ Monitor._isConnected (monitor w') = false
  | None =>
      handleSendScreenshot host w
      = onComposer (ComposerV1.sendScreenshot (composerHost host) (Monitor.page a))
          (set_monitor (probed a (monitor w)) w)
  end.
Proof.
  intros Hc Ha. cbv zeta. unfold handleSendScreenshot, bind.
  rewrite onMonitor_run. cbn [fst snd Monitor.isConnected gets].
  assert (Hw : set_monitor (monitor w) w = w) by (destruct w; reflexivity).
  rewrite Hw, Hc. cbn [negb].
  rewrite onMonitor_run, MonitorExtraProofs.getPageForScreenshot_run, Ha.
  unfold probe. destruct (Monitor.fails (monitorHost host) _ _) as [e|].
  - cbn [fst snd]. rewrite Hc. cbn.
    repeat split.
    exact (f_equal (fun x => snd (fst x)) (MonitorProofs.disconnected_session _)).
  - reflexivity.
Qed.
End AnyHost.

Lemma disconnected_commands_only_report_witness :
  Forall (fun op : M unit =>
            op initialWorld
            = (Ok tt, record (ShowErrorMessage notConnectedMessage) initialWorld))
    [handleClearLogs (hostAnswering (Some "Yes"));
     handleSendLogs (hostAnswering (Some "Yes"));
     handleSendScreenshot (hostAnswering (Some "Yes"))].
Proof.
  exact (disconnected_commands_only_report (hostAnswering (Some "Yes"))
           initialWorld eq_refl).
Defined.

Lemma handleCapture_reports_every_failure_witness :
  ui (snd (handleCapture hostRenderFails connectedWorld))
  = [ShowErrorMessage "Failed to capture tab state: Target closed"]
  /\ ui (snd (handleCapture hostDeliveryFails connectedWorld))
     = [ShowErrorMessage
          "Failed to capture tab state: Failed to send to composer: Target closed"]
  /\ ui (snd (handleCapture hostProbeLost connectedWorld))
     = [ShowErrorMessage notConnectedMessage]
  /\ Monitor._isConnected
       (monitor (snd (handleCapture hostProbeLost connectedWorld))) = false.
Proof.
  pose (a := {| Monitor.page := 7; Monitor.client := 0;
                Monitor.info := Monitor.pick_info
                                  (MonitorExtra.pickOf Monitor.hostHealthy 7) |}).
  destruct (handleCapture_reports_every_failure hostRenderFails connectedWorld)
    as (_ & Hsent & _).
  destruct (Hsent a eq_refl eq_refl eq_refl) as (_ & _ & Hui1).
  destruct (handleCapture_reports_every_failure hostDeliveryFails connectedWorld)
    as (_ & Hsent2 & _).
  destruct (Hsent2 a eq_refl eq_refl eq_refl) as (_ & _ & Hui2).
  destruct (handleCapture_reports_every_failure hostProbeLost connectedWorld)
    as (_ & _ & Hlost & _).
  destruct (Hlost a eq_refl) as (_ & Hui & Hc); [discriminate|].
  split; [exact Hui1|]. split; [exact Hui2|]. split; [exact Hui | exact Hc].
Defined.

Lemma handleSmartCapture_dispatches_witness :
  snd (handleSmartCapture (hostAnswering None) initialWorld)
  = set_monitor (snd (Monitor.connect Monitor.hostHealthy Monitor.initialState))
      initialWorld
  /\ composer (snd (handleSmartCapture (hostAnswering None) connectedWorld))
     = snd (ComposerV1.sendCapture ComposerV1.hostFine 7
              (currentLogs
                 (probed {| Monitor.page := 7; Monitor.client := 0;
                            Monitor.info := Monitor.pick_info
                                              (MonitorExtra.pickOf Monitor.hostHealthy 7) |}
                    (monitor connectedWorld)))
              (composer connectedWorld)).
Proof.
  destruct (handleSmartCapture_dispatches (hostAnswering None) initialWorld)
    as (_ & Hconnect & _).
  destruct (handleSmartCapture_dispatches (hostAnswering None) connectedWorld)
    as (_ & _ & Hcapture).
  destruct (Hcapture eq_refl) as (_ & Hsent & _).
  split; [exact (proj2 (Hconnect eq_refl))|].
  exact (Hsent {| Monitor.page := 7; Monitor.client := 0;
                  Monitor.info := Monitor.pick_info
                                    (MonitorExtra.pickOf Monitor.hostHealthy 7) |}
           eq_refl eq_refl).
Defined.

Lemma handleSendScreenshot_probes_first_witness :
  fst (handleSendScreenshot hostProbeLost connectedWorld) = Ok tt
  /\ composer (snd (handleSendScreenshot hostProbeLost connectedWorld))
     = composer connectedWorld
  /\ ui (snd (handleSendScreenshot hostProbeLost connectedWorld))
     = [ShowErrorMessage noPageForScreenshotMessage]
  /\ Monitor._isConnected
       (monitor (snd (handleSendScreenshot hostProbeLost connectedWorld))) = false.
Proof.
  exact (handleSendScreenshot_probes_first hostProbeLost connectedWorld
           {| Monitor.page := 7; Monitor.client := 0;
              Monitor.info := Monitor.pick_info
                                (MonitorExtra.pickOf Monitor.hostHealthy 7) |}
           eq_refl eq_refl).
Defined.
End CommandsProofs.
